(** * Certificates data-entry tools: reconciliation core

    A shallow embedding of the Python sources under
    [codes/python/certificates_data_entry_tools] (insert_programs.py,
    insert_schedules.py, insert_participants.py, config.py, database.py)
    and of [codes/python/permutation.py], together with the properties
    of the date normaliser, the category classifier, the three
    reconcilers, the script builders and the permutation generator.

    Text is modelled over 7-bit ASCII: a Python [str] is a [string], and
    the character classes of [str.strip], [str.split], [str.lower] and of
    the [re] module are the ASCII parts of the Unicode classes Python
    uses.  Integers are [Z].  A dictionary that the code iterates over is
    a list of pairs in insertion order, a dictionary or a set that is
    only looked up is a [gmap] or a [gset].  What the code takes from its
    environment (the clock, the python-slugify package, the rows read
    from the CSV file or the data frame, the snapshots read from the
    database) is a parameter of the function that uses it. *)

From Stdlib Require Import Ascii ZArith Lia DecimalString.
From stdpp Require Import gmap strings list.

(** ** Python string primitives *)

Module Py.
Local Open Scope Z_scope.

Definition code (c : ascii) : Z := Z.of_N (N_of_ascii c).

(** [str.isspace] on ASCII: TAB..CR, FS..US and the blank. *)
Definition is_space (c : ascii) : bool :=
  let n := code c in
  ((9 <=? n) && (n <=? 13)) || ((28 <=? n) && (n <=? 32)).

Definition is_upper (c : ascii) : bool :=
  let n := code c in (65 <=? n) && (n <=? 90).

Definition is_lower (c : ascii) : bool :=
  let n := code c in (97 <=? n) && (n <=? 122).

(** The value of a decimal digit, [None] for any other character. *)
Definition digit (c : ascii) : option Z :=
  let n := code c in
  if (48 <=? n) && (n <=? 57) then Some (n - 48) else None.

Definition is_digit (c : ascii) : bool :=
  match digit c with Some _ => true | None => false end.

(** [\w] of the [re] module on ASCII. *)
Definition is_word (c : ascii) : bool :=
  is_upper c || is_lower c || is_digit c || (code c =? 95).

Definition lower_char (c : ascii) : ascii :=
  if is_upper c then ascii_of_N (Z.to_N (code c + 32)) else c.

Definition upper_char (c : ascii) : ascii :=
  if is_lower c then ascii_of_N (Z.to_N (code c - 32)) else c.

(** [s.lower()] *)
Fixpoint lower (s : string) : string :=
  match s with
  | EmptyString => EmptyString
  | String c s' => String (lower_char c) (lower s')
  end.

(** [s.capitalize()] *)
Definition capitalize (s : string) : string :=
  match s with
  | EmptyString => EmptyString
  | String c s' => String (upper_char c) (lower s')
  end.

Fixpoint lstrip (s : string) : string :=
  match s with
  | EmptyString => EmptyString
  | String c s' => if is_space c then lstrip s' else s
  end.

Fixpoint rstrip (s : string) : string :=
  match s with
  | EmptyString => EmptyString
  | String c s' =>
      match rstrip s' with
      | EmptyString => if is_space c then EmptyString else String c EmptyString
      | r => String c r
      end
  end.

(** [s.strip()] *)
Definition strip (s : string) : string := rstrip (lstrip s).

Definition cons_token (tok : string) (rest : list string) : list string :=
  match tok with
  | EmptyString => rest
  | _ => tok :: rest
  end.

(** The scan behind [s.split()]: the characters of the token that is
    being read at the head of [s], and the tokens after it. *)
Fixpoint split_scan (s : string) : string * list string :=
  match s with
  | EmptyString => (EmptyString, [])
  | String c s' =>
      let '(tok, rest) := split_scan s' in
      if is_space c then (EmptyString, cons_token tok rest)
      else (String c tok, rest)
  end.

(** [s.split()]: the maximal runs of non-blank characters. *)
Definition split (s : string) : list string :=
  let '(tok, rest) := split_scan s in cons_token tok rest.

(** [s.startswith(p)] *)
Fixpoint startswith (p s : string) : bool :=
  match p with
  | EmptyString => true
  | String a p' =>
      match s with
      | EmptyString => false
      | String b s' => if decide (a = b) then startswith p' s' else false
      end
  end.

(** [sub in s] *)
Fixpoint contains (sub s : string) : bool :=
  startswith sub s ||
  match s with
  | EmptyString => false
  | String _ s' => contains sub s'
  end.

(** [s.replace(old, new)] for a non-empty [old]: occurrences are
    replaced from left to right without overlap; [skip] counts the
    characters of the occurrence just replaced that are still to be
    passed over. *)
Fixpoint replace_scan (old new : string) (skip : nat) (s : string) : string :=
  match s with
  | EmptyString => EmptyString
  | String c s' =>
      match skip with
      | S k => replace_scan old new k s'
      | O =>
          if startswith old s
          then new +:+ replace_scan old new (String.length old - 1)%nat s'
          else String c (replace_scan old new 0 s')
      end
  end.

Definition replace (old new s : string) : string := replace_scan old new 0 s.

(** [sep.join(l)] *)
Fixpoint join (sep : string) (l : list string) : string :=
  match l with
  | [] => EmptyString
  | [x] => x
  | x :: l' => x +:+ sep +:+ join sep l'
  end.

(** [str(n)] for an [int]. *)
Definition str_of_int (n : Z) : string := NilZero.string_of_int (Z.to_int n).

(** [dict.get] on a dictionary kept in insertion order. *)
Fixpoint dict_get {V : Type} (d : list (string * V)) (k : string) : option V :=
  match d with
  | [] => None
  | (k', v) :: d' => if decide (k' = k) then Some v else dict_get d' k
  end.

End Py.

(** ** [datetime.strptime(_, "%d %B %Y")] and [strftime("%Y-%m-%d")]

    [strptime] compiles the format into the regular expression
    [(3[0-1]|[1-2]\d|0[1-9]|[1-9]| [1-9])\s+(month names)\s+(\d\d\d\d)],
    matched case-insensitively at the start of the text, and rejects a
    match that leaves text unconverted; the date is then checked by the
    [date] constructor.  The alternatives of each group exclude one
    another once the following [\s+] is taken into account, so the first
    alternative that matches is the one a backtracking matcher ends
    with.  The month names are those of the C locale.  [strftime]
    hands [%Y] to the C library, which on Linux writes the year as a
    plain decimal number, so that a year below 1000 comes out with fewer
    than four digits; [str] of a [date] is its ISO form, which always
    has four. *)

Module Datetime.
Import Py.
Local Open Scope Z_scope.

(** The [%d] group. *)
Definition re_d (s : string) : option (Z * string) :=
  match s with
  | EmptyString => None
  | String c1 r1 =>
      match digit c1, r1 with
      | Some a, String c2 r2 =>
          match digit c2 with
          | Some b =>
              if (a =? 3) && (b <=? 1) then Some (30 + b, r2)
              else if (a =? 1) || (a =? 2) then Some (10 * a + b, r2)
              else if (a =? 0) && (1 <=? b) then Some (b, r2)
              else if 1 <=? a then Some (a, r1)
              else None
          | None => if 1 <=? a then Some (a, r1) else None
          end
      | Some a, EmptyString => if 1 <=? a then Some (a, r1) else None
      | None, String c2 r2 =>
          if decide (c1 = " "%char) then
            match digit c2 with
            | Some b => if 1 <=? b then Some (b, r2) else None
            | None => None
            end
          else None
      | None, EmptyString => None
      end
  end.

(** [\s+] *)
Definition re_spaces (s : string) : option string :=
  match s with
  | EmptyString => None
  | String c s' => if is_space c then Some (lstrip s') else None
  end.

(** A literal of the pattern against the text, ignoring case; the
    pattern is in lower case. *)
Fixpoint re_literal (pat s : string) : option string :=
  match pat with
  | EmptyString => Some s
  | String p pat' =>
      match s with
      | EmptyString => None
      | String c s' =>
          if decide (lower_char c = p) then re_literal pat' s' else None
      end
  end.

(** The month names of the C locale in the order of the [%B] group:
    longest first, calendar order among names of one length. *)
Definition month_names : list (string * Z) :=
  [ ("september", 9); ("february", 2); ("november", 11); ("december", 12);
    ("january", 1); ("october", 10); ("august", 8); ("march", 3);
    ("april", 4); ("june", 6); ("july", 7); ("may", 5) ].

Fixpoint re_alternatives (alts : list (string * Z)) (s : string)
  : option (Z * string) :=
  match alts with
  | [] => None
  | (name, m) :: alts' =>
      match re_literal name s with
      | Some r => Some (m, r)
      | None => re_alternatives alts' s
      end
  end.

(** The [%B] group. *)
Definition re_B (s : string) : option (Z * string) :=
  re_alternatives month_names s.

(** The [%Y] group: four digits. *)
Definition re_Y (s : string) : option (Z * string) :=
  match s with
  | String c1 (String c2 (String c3 (String c4 r))) =>
      match digit c1, digit c2, digit c3, digit c4 with
      | Some a, Some b, Some c, Some d =>
          Some (1000 * a + 100 * b + 10 * c + d, r)
      | _, _, _, _ => None
      end
  | _ => None
  end.

Definition is_leap (y : Z) : bool :=
  (y mod 4 =? 0) && (negb (y mod 100 =? 0) || (y mod 400 =? 0)).

Definition days_in_month (y m : Z) : Z :=
  match m with
  | 2 => if is_leap y then 29 else 28
  | 4 | 6 | 9 | 11 => 30
  | _ => 31
  end.

(** The range check of [date(year, month, day)]. *)
Definition date_ok (y m d : Z) : bool :=
  (1 <=? y) && (y <=? 9999) && (1 <=? m) && (m <=? 12) &&
  (1 <=? d) && (d <=? days_in_month y m).

(** A calendar date: year, month, day. *)
Record date := Date { year : Z; month : Z; day : Z }.

(** [datetime.strptime(s, "%d %B %Y")]; [None] stands for the
    [ValueError]. *)
Definition strptime (s : string) : option date :=
  '(d, r) ← re_d s;
  r ← re_spaces r;
  '(m, r) ← re_B r;
  r ← re_spaces r;
  '(y, r) ← re_Y r;
  match r with
  | EmptyString => if date_ok y m d then Some (Date y m d) else None
  | _ => None
  end.

Definition digit_char (n : Z) : ascii := ascii_of_N (Z.to_N (48 + n mod 10)).

Definition pad2 (n : Z) : string :=
  String (digit_char (n / 10)) (String (digit_char n) EmptyString).

Definition pad4 (n : Z) : string :=
  String (digit_char (n / 1000)) (String (digit_char (n / 100))
    (String (digit_char (n / 10)) (String (digit_char n) EmptyString))).

(** [dt.strftime("%Y-%m-%d")]: the year without padding. *)
Definition strftime (dt : date) : string :=
  str_of_int (year dt) +:+ "-" +:+ pad2 (month dt) +:+ "-" +:+ pad2 (day dt).

(** [str(d)] for a [date]: [d.isoformat()], the year on four digits. *)
Definition isoformat (dt : date) : string :=
  pad4 (year dt) +:+ "-" +:+ pad2 (month dt) +:+ "-" +:+ pad2 (day dt).

End Datetime.

(** ** [re.search(rf"\b{re.escape(keyword)}\b", text)]

    The escaped keyword matches itself literally and with case; [\b]
    holds at a position when exactly one of the characters before and
    after it is a word character (the ends of the text count as
    non-word).  The matcher carries whether the character before the
    current position is a word character. *)

Module Re.
Import Py.

Definition first_is_word (s : string) : bool :=
  match s with
  | EmptyString => false
  | String c _ => is_word c
  end.

(** [\b] *)
Definition at_boundary (prev : bool) (s : string) : bool :=
  xorb prev (first_is_word s).

(** The literal, from the current position. *)
Fixpoint match_literal (prev : bool) (lit s : string) : option (bool * string) :=
  match lit with
  | EmptyString => Some (prev, s)
  | String k lit' =>
      match s with
      | EmptyString => None
      | String c s' =>
          if decide (k = c) then match_literal (is_word c) lit' s' else None
      end
  end.

(** [\b lit \b] at the current position. *)
Definition match_word_at (prev : bool) (lit s : string) : bool :=
  at_boundary prev s &&
  match match_literal prev lit s with
  | Some (p, r) => at_boundary p r
  | None => false
  end.

Fixpoint search_word_from (prev : bool) (lit s : string) : bool :=
  match_word_at prev lit s ||
  match s with
  | EmptyString => false
  | String c s' => search_word_from (is_word c) lit s'
  end.

(** Whether [re.search] finds a match. *)
Definition search_word (lit s : string) : bool := search_word_from false lit s.

End Re.

(** ** config.py *)

Module config.
Local Open Scope Z_scope.

Definition CATEGORY_IDS : list (string * Z) :=
  [ ("Engineering", 1); ("Accounting", 2); ("Construction", 3);
    ("Management", 4); ("IT", 5); ("Communication", 6); ("Academic", 7);
    ("HR", 8); ("Leadership", 9); ("Forum", 10); ("Certification", 11);
    ("TestPrep", 12); ("Webinar", 13); ("GenZ", 14) ].

Definition RULES : list (string * list string) :=
  [ ("Construction", ["sap 2000"]);
    ("Engineering", ["plc"]);
    ("Accounting", ["cma"; "tax"]);
    ("IT", ["excel"]);
    ("Communication", ["public speaking"; "content creator"]);
    ("Management", ["bisnis"; "umkm"; "ppic"]);
    ("GenZ", ["gen-z"; "genz"]) ].

End config.

(** The line separator of the generated scripts. *)
Definition newline : string := String "010"%char EmptyString.

(** ** insert_programs.py *)

Module insert_programs.
Import Py.

Record ProgramReportItem := {
  program_name : string;
  status : string;
  predicted_category : string;
  predicted_category_id : option Z;
  action : string;
  slug : string
}.

Fixpoint predict_category (program_name_normalized : string)
    (rules : list (string * list string)) : string * option Z :=
  match rules with
  | [] => ("Uncategorized", None)
  | (category, keywords) :: rules' =>
      if existsb (fun keyword => Re.search_word keyword program_name_normalized)
           keywords
      then (category, dict_get config.CATEGORY_IDS category)
      else predict_category program_name_normalized rules'
  end.

Section with_slugify.
(** [slugify] of the python-slugify package. *)
Variable slugify : string -> string.

(** The body of the loop of [process_programs]. *)
Definition process_program (existing_programs : gset string)
    (rules : list (string * list string)) (program_name : string)
    : ProgramReportItem :=
  let normalized_name := lower (strip program_name) in
  let '(status, predicted_category_name, predicted_category_id_val, action) :=
    if decide (normalized_name ∈ existing_programs)
    then ("Exists", "N/A", None, "Skip")
    else
      let '(name, id) := predict_category normalized_name rules in
      ("New", name, (if decide (name = "Uncategorized") then None else id),
       "Insert")
  in
  let final_pred_cat_id :=
    if decide (status = "Exists") then None else predicted_category_id_val in
  {| program_name := program_name;
     status := status;
     predicted_category := predicted_category_name;
     predicted_category_id := final_pred_cat_id;
     action := action;
     slug := slugify (strip program_name) |}.

Definition process_programs (new_programs : list string)
    (existing_programs : gset string) (rules : list (string * list string))
    (category_ids : list (string * Z)) : list ProgramReportItem :=
  map (process_program existing_programs rules) new_programs.

End with_slugify.

(** The statements one report item adds to the script. *)
Definition program_statements (p : ProgramReportItem) : list string :=
  match predicted_category_id p with
  | Some id =>
      if decide (action p = "Insert") then
        [ "-- New Program: " +:+ program_name p +:+ " (" +:+
            predicted_category p +:+ ")";
          "INSERT INTO programs (id_category, created_at, updated_at) VALUES (" +:+
            str_of_int id +:+ ", NOW(), NOW());";
          "SET @last_prog_id = LAST_INSERT_ID();";
          "INSERT INTO program_translations (id_program, language_code, name, slug, description, created_at, updated_at) " +:+
            "VALUES (@last_prog_id, 'id', '" +:+
            replace "'" "''" (program_name p) +:+ "', '" +:+ slug p +:+
            "', '-', NOW(), NOW());";
          "" ]
      else []
  | None => []
  end.

(** [sql_lines] when the loop of [generate_sql_script] is over; [now]
    is the rendered [pd.Timestamp.now()]. *)
Definition sql_lines (now : string) (programs_to_insert : list ProgramReportItem)
    (output_path_hint : string) : list string :=
  [ "-- Generated by certificates-data-entry-tools";
    "-- Date: " +:+ now;
    "-- Output target: " +:+ output_path_hint;
    "START TRANSACTION;";
    "" ]
  ++ flat_map program_statements programs_to_insert
  ++ [ "COMMIT;" ].

Definition generate_sql_script (now : string)
    (programs_to_insert : list ProgramReportItem) (output_path_hint : string)
    : string :=
  join newline (sql_lines now programs_to_insert output_path_hint).

End insert_programs.

(** ** insert_schedules.py *)

Module insert_schedules.
Import Py.

Definition INDONESIAN_MONTHS : list (string * string) :=
  [ ("januari", "January"); ("februari", "February"); ("maret", "March");
    ("april", "April"); ("mei", "May"); ("juni", "June"); ("juli", "July");
    ("agustus", "August"); ("september", "September");
    ("oktober", "October"); ("november", "November");
    ("desember", "December") ].

(** The loop over [INDONESIAN_MONTHS.items()], left at the first month
    name found in the text. *)
Fixpoint replace_month (months : list (string * string)) (date_str_lower : string)
    : string :=
  match months with
  | [] => date_str_lower
  | (ind_month, eng_month) :: months' =>
      if contains ind_month date_str_lower
      then replace ind_month eng_month date_str_lower
      else replace_month months' date_str_lower
  end.

Definition parse_indonesian_date (date_str : string) : option string :=
  if decide (date_str = "") then None
  else
    let date_str_lower := replace_month INDONESIAN_MONTHS (lower date_str) in
    match Datetime.strptime date_str_lower with
    | Some date_obj => Some (Datetime.strftime date_obj)
    | None =>
        match Datetime.strptime date_str with
        | Some date_obj => Some (Datetime.strftime date_obj)
        | None => None
        end
    end.

Definition normalize_program_name (program_name : string) : string :=
  if decide (program_name = "") then "" else program_name.

(** An entry of the list [process_csv_data] returns. *)
Module CsvItem.
Record t := make { program : string; start_date : string; end_date : string }.
End CsvItem.

(** [row.get(column, "").strip()] on a row of [csv.DictReader]: a
    column the header lacks gives the default, a cell a short row
    lacks is [None], on which [strip] raises. *)
Definition stripped_field (row : gmap string (option string)) (column : string)
    : option string :=
  match row !! column with
  | None => Some (strip "")
  | Some None => None
  | Some (Some v) => Some (strip v)
  end.

(** [process_csv_data] on the rows the reader yields; [None] stands
    for the exception of a short row. *)
Fixpoint process_csv_data (rows : list (gmap string (option string)))
    : option (list CsvItem.t) :=
  match rows with
  | [] => Some []
  | row :: rows' =>
      program_name ← stripped_field row "Program";
      start_date ← stripped_field row "Tanggal Mulai";
      end_date ← stripped_field row "Tanggal Sertifikat";
      data ← process_csv_data rows';
      Some (if decide (program_name ≠ "" ∧ start_date ≠ "" ∧ end_date ≠ "")
            then CsvItem.make program_name start_date end_date :: data
            else data)
  end.

(** [key in grouped_data] *)
Definition has_key (key : string * string)
    (grouped_data : list ((string * string) * CsvItem.t)) : bool :=
  existsb (fun entry => bool_decide (entry.1 = key)) grouped_data.

(** [group_csv_data]: the dictionary in insertion order. *)
Definition group_csv_data (data : list CsvItem.t)
    : list ((string * string) * CsvItem.t) :=
  fold_left
    (fun grouped_data item =>
       let key := (CsvItem.program item, CsvItem.start_date item) in
       if has_key key grouped_data then grouped_data
       else grouped_data ++ [(key, item)])
    data [].

Record ProgramInfo := { id : Z; cat_id : Z }.

Record ScheduleReportItem := {
  program_name : string;
  start_date : string;
  end_date : string;
  program_id : option Z;
  category_id : option Z;
  status : string;
  action : string
}.

(** [not x] for an optional string. *)
Definition falsy (x : option string) : bool :=
  match x with
  | None => true
  | Some s => bool_decide (s = "")
  end.

(** [x or ""] *)
Definition or_empty (x : option string) : string :=
  match x with
  | None => ""
  | Some s => s
  end.

(** The body of the loop of [process_schedules]. *)
Definition process_schedule (programs_data : gmap string ProgramInfo)
    (existing_schedules : gset (Z * string))
    (entry : (string * string) * CsvItem.t) : ScheduleReportItem :=
  let '((program_name, start_date_str), item) := entry in
  let normalized_name := normalize_program_name program_name in
  let program_key := lower normalized_name in
  let start_date := parse_indonesian_date start_date_str in
  let end_date := parse_indonesian_date (CsvItem.end_date item) in
  let '(status, action, program_id, category_id) :=
    if falsy start_date || falsy end_date then ("Invalid Date", "Skip", None, None)
    else
      match programs_data !! program_key with
      | None => ("Program Not Found", "Skip", None, None)
      | Some program_info =>
          if decide ((id program_info, or_empty start_date) ∈ existing_schedules)
          then ("Exists", "Skip", Some (id program_info), Some (cat_id program_info))
          else ("New", "Insert", Some (id program_info), Some (cat_id program_info))
      end
  in
  {| program_name := normalized_name;
     start_date := or_empty start_date;
     end_date := or_empty end_date;
     program_id := program_id;
     category_id := category_id;
     status := status;
     action := action |}.

Definition process_schedules
    (grouped_data : list ((string * string) * CsvItem.t))
    (programs_data : gmap string ProgramInfo)
    (existing_schedules : gset (Z * string)) : list ScheduleReportItem :=
  map (process_schedule programs_data existing_schedules) grouped_data.

(** [str(x)] for an optional integer. *)
Definition str_of_opt_int (x : option Z) : string :=
  match x with
  | None => "None"
  | Some n => str_of_int n
  end.

Definition schedule_statements (s : ScheduleReportItem) : list string :=
  if decide (action s = "Insert") then
    [ "-- New Schedule: " +:+ program_name s +:+ " (" +:+ start_date s +:+
        " to " +:+ end_date s +:+ ")";
      "INSERT INTO schedules (id_program, id_category, date_start, date_end, time_start, time_end, created_at, updated_at) " +:+
        "VALUES (" +:+ str_of_opt_int (program_id s) +:+ ", " +:+
        str_of_opt_int (category_id s) +:+ ", '" +:+ start_date s +:+
        "', '" +:+ end_date s +:+ "', NULL, NULL, NOW(), NOW());";
      "" ]
  else [].

(** [sql_lines] when the loop of [generate_sql_script] is over; [now]
    is the rendered [datetime.now()]. *)
Definition sql_lines (now : string) (schedules_to_insert : list ScheduleReportItem)
    (output_path_hint : string) : list string :=
  [ "-- Generated by certificates-data-entry-tools";
    "-- Date: " +:+ now;
    "-- Output target: " +:+ output_path_hint;
    "START TRANSACTION;";
    "" ]
  ++ flat_map schedule_statements schedules_to_insert
  ++ [ "COMMIT;" ].

Definition generate_sql_script (now : string)
    (schedules_to_insert : list ScheduleReportItem) (output_path_hint : string)
    : string :=
  join newline (sql_lines now schedules_to_insert output_path_hint).

End insert_schedules.

(** ** insert_participants.py *)

Module insert_participants.
Import Py.

Definition INDONESIAN_MONTHS : list (string * string) :=
  [ ("januari", "January"); ("februari", "February"); ("maret", "March");
    ("april", "April"); ("mei", "May"); ("juni", "June"); ("juli", "July");
    ("agustus", "August"); ("september", "September");
    ("oktober", "October"); ("november", "November");
    ("desember", "December") ].

(** A cell of the data frame: text, or the NaN pandas puts for an empty
    field.  (A numeric cell behaves as the text [str] renders it to.) *)
Inductive Cell :=
| NaN
| Str (s : string).

(** [str(cell)] *)
Definition str (c : Cell) : string :=
  match c with
  | NaN => "nan"
  | Str s => s
  end.

Definition parse_indonesian_date (date_str : Cell) : option string :=
  match date_str with
  | NaN => None
  | Str s =>
      if decide (s = "") then None
      else
        let date_str := lower (strip s) in
        match split date_str with
        | [day; month_ind; year] =>
            match dict_get INDONESIAN_MONTHS month_ind with
            | None =>
                Datetime.strftime <$>
                  Datetime.strptime
                    (day +:+ " " +:+ capitalize month_ind +:+ " " +:+ year)
            | Some month_eng =>
                Datetime.strftime <$>
                  Datetime.strptime
                    (day +:+ " " +:+ month_eng +:+ " " +:+ year)
            end
        | _ => Datetime.strftime <$> Datetime.strptime date_str
        end
  end.

Record ProgramData := { id : Z; cat_id : Z }.

(** A row of the data frame, by column. *)
Record Row := {
  Nama : Cell;
  Program : Cell;
  Tanggal_Mulai : Cell;
  No : Cell;
  ket : Cell;
  Tanggal_Sertifikat : Cell
}.

Record ParticipantReportItem := {
  participant_name : string;
  program_name : string;
  schedule_start_date : string;
  certificate_ref : string;
  certificate_issue_date : string;
  status : string;
  action : string
}.

(** The variables the loop of [generate_sql] updates. *)
Record State := {
  sql_statements : list string;
  report : list ParticipantReportItem;
  processed_count : Z;
  inserted_count : Z;
  skipped_count : Z;
  not_found_count : Z
}.

(** [x or "N/A"] *)
Definition or_na (x : option string) : string :=
  match x with
  | None => "N/A"
  | Some s => if decide (s = "") then "N/A" else s
  end.

(** The certificate reference of a row, from its [No] and [ket]. *)
Definition certificate_ref_of (row : Row) : string :=
  let no_value := strip (str (No row)) in
  let ket_value := strip (str (ket row)) in
  if decide (no_value ≠ "" ∧ ket_value ≠ "") then no_value +:+ ket_value
  else ket_value.

(** [report_item] with its status and action set. *)
Definition marked (item : ParticipantReportItem) (status action : string)
    : ParticipantReportItem :=
  {| participant_name := participant_name item;
     program_name := program_name item;
     schedule_start_date := schedule_start_date item;
     certificate_ref := certificate_ref item;
     certificate_issue_date := certificate_issue_date item;
     status := status;
     action := action |}.

Definition skipped (st : State) (item : ParticipantReportItem) : State :=
  {| sql_statements := sql_statements st;
     report := report st ++ [item];
     processed_count := processed_count st + 1;
     inserted_count := inserted_count st;
     skipped_count := skipped_count st + 1;
     not_found_count := not_found_count st |}.

Definition not_found (st : State) (item : ParticipantReportItem) : State :=
  {| sql_statements := sql_statements st;
     report := report st ++ [item];
     processed_count := processed_count st + 1;
     inserted_count := inserted_count st;
     skipped_count := skipped_count st;
     not_found_count := not_found_count st + 1 |}.

Definition inserted (st : State) (item : ParticipantReportItem)
    (statements : list string) : State :=
  {| sql_statements := sql_statements st ++ statements;
     report := report st ++ [item];
     processed_count := processed_count st + 1;
     inserted_count := inserted_count st + 1;
     skipped_count := skipped_count st;
     not_found_count := not_found_count st |}.

(** One turn of the loop over [df.iterrows()]. *)
Definition process_row (programs_map : gmap string ProgramData)
    (schedules_map : gmap (Z * string) Z)
    (existing_participants : gset (Z * string))
    (st : State) (row : Row) : State :=
  let participant_name := strip (str (Nama row)) in
  let program_name := strip (str (Program row)) in
  let schedule_start_date_str := parse_indonesian_date (Tanggal_Mulai row) in
  let certificate_ref := certificate_ref_of row in
  let certificate_issue_date_str :=
    parse_indonesian_date (Tanggal_Sertifikat row) in
  let report_item :=
    {| participant_name := participant_name;
       program_name := program_name;
       schedule_start_date := or_na schedule_start_date_str;
       certificate_ref := certificate_ref;
       certificate_issue_date := or_na certificate_issue_date_str;
       status := "Pending";
       action := "N/A" |} in
  match schedule_start_date_str with
  | None => skipped st (marked report_item "Skipped" "Invalid schedule start date")
  | Some start =>
    if decide (start = "") then
      skipped st (marked report_item "Skipped" "Invalid schedule start date")
    else
      match programs_map !! lower program_name with
      | None =>
          not_found st
            (marked report_item "Not Found" "Program not found in master data")
      | Some program_data =>
          let program_id := id program_data in
          let category_id := cat_id program_data in
          match schedules_map !! (program_id, start) with
          | None =>
              not_found st
                (marked report_item "Not Found"
                   "Schedule not found for this program and date")
          | Some schedule_id =>
            if decide (schedule_id = 0%Z) then
              not_found st
                (marked report_item "Not Found"
                   "Schedule not found for this program and date")
            else if decide ((schedule_id, lower participant_name)
                              ∈ existing_participants) then
              skipped st
                (marked report_item "Skipped"
                   "Participant already exists for this schedule")
            else
              let issued_at_sql :=
                match certificate_issue_date_str with
                | None => "NULL"
                | Some issued =>
                    if decide (issued = "") then "NULL"
                    else "'" +:+ issued +:+ "'"
                end in
              inserted st
                (marked report_item "To Be Inserted"
                   "Participant and Certificate records generated")
                [ "INSERT INTO participants (id_schedule, id_program, id_category, name, created_at) " +:+
                    "VALUES (" +:+ str_of_int schedule_id +:+ ", " +:+
                    str_of_int program_id +:+ ", " +:+
                    str_of_int category_id +:+ ", '" +:+
                    replace "'" "''" participant_name +:+ "', NOW());";
                  "SET @last_part_id = LAST_INSERT_ID();";
                  "INSERT INTO certificates (id_participant, reference_number, nama_program, issued_at, created_at) " +:+
                    "VALUES (@last_part_id, '" +:+
                    replace "'" "''" certificate_ref +:+ "', '" +:+
                    replace "'" "''" program_name +:+ "', " +:+
                    issued_at_sql +:+ ", NOW());" ]
          end
      end
  end.

Definition initial : State :=
  {| sql_statements := [ "START TRANSACTION;" ];
     report := [];
     processed_count := 0;
     inserted_count := 0;
     skipped_count := 0;
     not_found_count := 0 |}.

(** The state when the loop is over. *)
Definition run (df : list Row) (programs_map : gmap string ProgramData)
    (schedules_map : gmap (Z * string) Z)
    (existing_participants : gset (Z * string)) : State :=
  fold_left (process_row programs_map schedules_map existing_participants)
    df initial.

Definition summary_item (st : State) : ParticipantReportItem :=
  {| participant_name := "--- SUMMARY ---";
     program_name := "Processed: " +:+ str_of_int (processed_count st);
     schedule_start_date := "Inserted: " +:+ str_of_int (inserted_count st);
     certificate_ref := "Skipped: " +:+ str_of_int (skipped_count st);
     certificate_issue_date := "Not Found: " +:+ str_of_int (not_found_count st);
     status := "Complete";
     action := "SQL Generation Finished" |}.

Definition generate_sql (df : list Row) (programs_map : gmap string ProgramData)
    (schedules_map : gmap (Z * string) Z)
    (existing_participants : gset (Z * string))
    : string * list ParticipantReportItem :=
  let st := run df programs_map schedules_map existing_participants in
  (join newline (sql_statements st ++ [ "COMMIT;" ]),
   report st ++ [ summary_item st ]).

End insert_participants.

(** ** The contract of the date normaliser, token by token *)

Module Spec.
Import Py.
Local Open Scope Z_scope.

Fixpoint numeral_from (acc : Z) (s : string) : option Z :=
  match s with
  | EmptyString => Some acc
  | String c s' =>
      match digit c with
      | Some a => numeral_from (10 * acc + a) s'
      | None => None
      end
  end.

(** The value of a non-empty string of decimal digits. *)
Definition numeral (s : string) : option Z :=
  match s with
  | EmptyString => None
  | _ => numeral_from 0 s
  end.

(** The day token: one or two digits. *)
Definition day_number (tok : string) : option Z :=
  if (String.length tok <=? 2)%nat then numeral tok else None.

(** The year token: four digits. *)
Definition year_number (tok : string) : option Z :=
  if (String.length tok =? 4)%nat then numeral tok else None.

Definition indonesian_months : list (string * Z) :=
  [ ("januari", 1); ("februari", 2); ("maret", 3); ("april", 4);
    ("mei", 5); ("juni", 6); ("juli", 7); ("agustus", 8);
    ("september", 9); ("oktober", 10); ("november", 11);
    ("desember", 12) ].

Definition english_months : list (string * Z) :=
  [ ("january", 1); ("february", 2); ("march", 3); ("april", 4);
    ("may", 5); ("june", 6); ("july", 7); ("august", 8);
    ("september", 9); ("october", 10); ("november", 11);
    ("december", 12) ].

(** The month a lower-case month name stands for, in either locale. *)
Definition month_number (tok : string) : option Z :=
  match dict_get indonesian_months tok with
  | Some m => Some m
  | None => dict_get english_months tok
  end.

(** The calendar date three tokens denote, if they denote one. *)
Definition calendar_date (day : string) (month : option Z) (year : string)
    : option Datetime.date :=
  d ← day_number day;
  m ← month;
  y ← year_number year;
  if Datetime.date_ok y m d then Some (Datetime.Date y m d) else None.

Fixpoint all_chars (P : ascii -> bool) (s : string) : bool :=
  match s with
  | EmptyString => true
  | String c s' => P c && all_chars P s'
  end.

(** A string without blanks. *)
Definition no_space (s : string) : bool :=
  all_chars (fun c => negb (is_space c)) s.

Definition all_space (s : string) : bool := all_chars is_space s.

Definition starts_space (s : string) : bool :=
  match s with
  | EmptyString => false
  | String c _ => is_space c
  end.

(** The text ends here or goes on with a blank. *)
Definition at_token_end (s : string) : bool :=
  match s with
  | EmptyString => true
  | String c _ => is_space c
  end.

(** The groups of [strptime], each with the blanks after it. *)
Definition day_part (s : string) : option (Z * string) :=
  '(v, r) ← Datetime.re_d s; r' ← Datetime.re_spaces r; Some (v, r').

Definition month_part (s : string) : option (Z * string) :=
  '(m, r) ← Datetime.re_B s; r' ← Datetime.re_spaces r; Some (m, r').

(** The year group and the end of the text. *)
Definition year_part (s : string) : option Z :=
  '(y, r) ← Datetime.re_Y s; match r with EmptyString => Some y | _ => None end.

(** No name of the list starts with a name before it. *)
Fixpoint prefix_free (alts : list (string * Z)) : bool :=
  match alts with
  | [] => true
  | (p, _) :: alts' =>
      forallb (fun '(p', _) => negb (startswith p p')) alts' &&
      no_space p && prefix_free alts'
  end.

(** A token: a non-empty string without blanks. *)
Definition token (tok : string) : Prop := no_space tok = true /\ tok <> "".

(** A token that does not start with a digit. *)
Definition word (s : string) : Prop :=
  token s /\ exists c r, s = String c r /\ digit c = None.

(** The tokens of the text: stripped, lower-cased, split at blanks. *)
Definition tokens (text : string) : list string :=
  split (lower (strip text)).

(** The normaliser of section 4.1 of the specification, token by token;
    the date it finds is written by [strftime]. *)
Definition normalize (text : string) : option string :=
  match tokens text with
  | [day; month; year] =>
      Datetime.strftime <$> calendar_date day (month_number month) year
  | _ => None
  end.

End Spec.

(** ** The calendar *)

Module Calendar.
Local Open Scope Z_scope.

(** A leap year: a multiple of 4 that is not a multiple of 100, or a
    multiple of 400. *)
Definition leap_year (y : Z) : Prop :=
(4 | y) /\ (~ (100 | y) \/ (400 | y)).

(** Month [m] of year [y] has [len] days. *)
Definition month_length (y m len : Z) : Prop :=
(m ∈ [1; 3; 5; 7; 8; 10; 12] /\ len = 31) \/
(m ∈ [4; 6; 9; 11] /\ len = 30) \/
(m = 2 /\ leap_year y /\ len = 29) \/
(m = 2 /\ ~ leap_year y /\ len = 28).

(** A date of the Gregorian calendar in the years 1 to 9999. *)
Definition real_date (y m d : Z) : Prop :=
1 <= y <= 9999 /\ exists len, month_length y m len /\ 1 <= d <= len.

End Calendar.

(** ** The contract of the category classifier *)

Module Classifier.
Import Py.

(** Whether the last character of [l] is a word character; [prev] is the
    answer for the text before [l]. *)
Fixpoint last_is_word_from (prev : bool) (l : string) : bool :=
match l with
| EmptyString => prev
| String c l' => last_is_word_from (is_word c) l'
end.

Definition last_is_word (l : string) : bool := last_is_word_from false l.

(** A word boundary between the texts [l] and [r]. *)
Definition boundary (l r : string) : Prop :=
last_is_word l <> Re.first_is_word r.

(** [kw] occurs in [name] between two word boundaries. *)
Definition whole_word (kw name : string) : Prop :=
exists pre post, name = pre +:+ kw +:+ post /\
  boundary pre (kw +:+ post) /\ boundary (pre +:+ kw) post.

(** [kw] occurs in [name] between two word boundaries, letter case
    apart: the reading of section 4.2. *)
Definition whole_word_ignoring_case (kw name : string) : Prop :=
exists pre mid post, name = pre +:+ mid +:+ post /\ lower mid = lower kw /\
  boundary pre (mid +:+ post) /\ boundary (pre +:+ mid) post.

(** A rule with a keyword that matches. *)
Definition rule_matches (matching : string -> string -> Prop) (name : string)
  (rule : string * list string) : Prop :=
exists kw, kw ∈ rule.2 /\ matching kw name.

(** The classifier of section 4.2 for a notion of matching: the first
    rule that matches wins, and no rule that matches means
    "Uncategorized". *)
Definition first_match (matching : string -> string -> Prop) (name : string)
  (rules : list (string * list string)) (result : string * option Z) : Prop :=
(forall pre category keywords post,
   rules = pre ++ (category, keywords) :: post ->
   Forall (fun rule => ~ rule_matches matching name rule) pre ->
   rule_matches matching name (category, keywords) ->
   result = (category, dict_get config.CATEGORY_IDS category)) /\
(Forall (fun rule => ~ rule_matches matching name rule) rules ->
 result = ("Uncategorized", None)).

End Classifier.

(** ** The groups of the schedule reconciler *)

Module Groups.
Import insert_schedules.

(** The raw key of a row: its program name and its start-date text. *)
Definition key_of (item : CsvItem.t) : string * string :=
(CsvItem.program item, CsvItem.start_date item).

(** [item] is the first row of [data] with the key [key]. *)
Definition first_with_key (data : list CsvItem.t) (key : string * string)
  (item : CsvItem.t) : Prop :=
exists before after, data = before ++ item :: after /\ key_of item = key /\
  Forall (fun other => key_of other <> key) before.

(** One turn of the loop of [group_csv_data]. *)
Definition group_step (grouped_data : list ((string * string) * CsvItem.t))
  (item : CsvItem.t) : list ((string * string) * CsvItem.t) :=
if has_key (key_of item) grouped_data then grouped_data
else grouped_data ++ [(key_of item, item)].

End Groups.

(** ** The decisions of the participant reconciler *)

Module Participants.
Import Py insert_participants.

(** The name, the program name and the two dates of a row, as the loop
    reads them. *)
Definition participant_name_of (row : Row) : string := strip (str (Nama row)).
Definition program_name_of (row : Row) : string := strip (str (Program row)).

(** The report item of a row before its status is set. *)
Definition pending_item (row : Row) : ParticipantReportItem :=
{| participant_name := participant_name_of row;
   program_name := program_name_of row;
   schedule_start_date := or_na (parse_indonesian_date (Tanggal_Mulai row));
   certificate_ref := certificate_ref_of row;
   certificate_issue_date :=
     or_na (parse_indonesian_date (Tanggal_Sertifikat row));
   status := "Pending";
   action := "N/A" |}.

(** How far the resolution of a row gets. *)
Inductive Resolution :=
| InvalidStartDate
| ProgramNotFound
| ScheduleNotFound
| Resolved (schedule_id : Z) (name_lower : string).

Definition resolve (programs_map : gmap string ProgramData)
  (schedules_map : gmap (Z * string) Z) (row : Row) : Resolution :=
match parse_indonesian_date (Tanggal_Mulai row) with
| None => InvalidStartDate
| Some start =>
    if decide (start = "") then InvalidStartDate
    else
      match programs_map !! lower (program_name_of row) with
      | None => ProgramNotFound
      | Some program_data =>
          match schedules_map !! (id program_data, start) with
          | None => ScheduleNotFound
          | Some schedule_id =>
              if decide (schedule_id = 0%Z) then ScheduleNotFound
              else Resolved schedule_id (lower (participant_name_of row))
          end
      end
end.

(** The status and the action of the report item, from the resolution
    and the snapshot of existing participants. *)
Definition outcome (existing_participants : gset (Z * string))
  (resolution : Resolution) : string * string :=
match resolution with
| InvalidStartDate => ("Skipped", "Invalid schedule start date")
| ProgramNotFound => ("Not Found", "Program not found in master data")
| ScheduleNotFound =>
    ("Not Found", "Schedule not found for this program and date")
| Resolved schedule_id name_lower =>
    if decide ((schedule_id, name_lower) ∈ existing_participants)
    then ("Skipped", "Participant already exists for this schedule")
    else ("To Be Inserted", "Participant and Certificate records generated")
end.

(** The report item of a row. *)
Definition report_item (programs_map : gmap string ProgramData)
  (schedules_map : gmap (Z * string) Z)
  (existing_participants : gset (Z * string)) (row : Row)
  : ParticipantReportItem :=
let result :=
  outcome existing_participants (resolve programs_map schedules_map row) in
marked (pending_item row) result.1 result.2.

(** The rows of the report, without the summary. *)
Definition row_items (df : list Row) (programs_map : gmap string ProgramData)
  (schedules_map : gmap (Z * string) Z)
  (existing_participants : gset (Z * string)) : list ParticipantReportItem :=
report (run df programs_map schedules_map existing_participants).

(** A master data set with one program and one schedule, and a row for
    it. *)
Definition example_programs : gmap string ProgramData :=
  {[ "training cma" := {| id := 5; cat_id := 2 |} ]}.

Definition example_schedules : gmap (Z * string) Z :=
  {[ (5%Z, "2024-12-31") := 7%Z ]}.

Definition example_row : Row :=
  {| Nama := Str "Ani"; Program := Str "Training CMA";
     Tanggal_Mulai := Str "31 Desember 2024"; No := Str "001";
     ket := Str "/CMA/XII/2024"; Tanggal_Sertifikat := Str "2 Januari 2025" |}.

End Participants.

(** ** Rows with missing fields *)

Module Malformed.
Import Py insert_schedules.




(** A participant row with a number and no [ket]. *)
Definition example_numbered_row : insert_participants.Row :=
{| insert_participants.Nama := insert_participants.Str "Ani";
   insert_participants.Program := insert_participants.Str "Training CMA";
   insert_participants.Tanggal_Mulai := insert_participants.Str "31 Desember 2024";
   insert_participants.No := insert_participants.Str "001";
   insert_participants.ket := insert_participants.Str " ";
   insert_participants.Tanggal_Sertifikat := insert_participants.NaN |}.

End Malformed.

(** ** The shape of a script *)

Module Script.
Import Py.

(** The first entry of the script that is not an SQL comment. *)
Fixpoint first_statement (lines : list string) : option string :=
match lines with
| [] => None
| line :: lines' =>
    if startswith "--" line then first_statement lines' else Some line
end.

(** The INSERT statements of the script. *)
Fixpoint mutation_statements (lines : list string) : list string :=
match lines with
| [] => []
| line :: lines' =>
    if startswith "INSERT INTO" line then line :: mutation_statements lines'
    else mutation_statements lines'
end.

(** A script is atomic when its first statement opens the transaction
    and its last entry commits it. *)
Definition atomic (lines : list string) : Prop :=
first_statement lines = Some "START TRANSACTION;" /\
last lines = Some "COMMIT;".

End Script.

(** ** permutation.py *)

Module permutation.

(** [new_permutation.insert(i, x)] on a copy of the list. *)
Definition insert_copy (i : nat) (x : string) (permutation : list string)
  : list string :=
take i permutation ++ x :: drop i permutation.

(** [Permutation.permutate] *)
Fixpoint permutate (s : list string) : list (list string) :=
match s with
| [] => [[]]
| x :: s' =>
    flat_map
      (fun permutation =>
         map (fun i => insert_copy i x permutation)
           (seq 0 (length permutation + 1)))
      (permutate s')
end.

End permutation.

(** ** Counting report items *)

Module Counts.
Import Py insert_participants.

(** The number of report items with a given status. *)
Definition count_status (s : string) (items : list ParticipantReportItem) : Z :=
Z.of_nat (length (filter (fun item => status item = s) items)).

(** The summary item of a report, from its items. *)
Definition summary_of (items : list ParticipantReportItem) : ParticipantReportItem :=
{| participant_name := "--- SUMMARY ---";
   program_name := "Processed: " +:+ str_of_int (Z.of_nat (length items));
   schedule_start_date :=
     "Inserted: " +:+ str_of_int (count_status "To Be Inserted" items);
   certificate_ref := "Skipped: " +:+ str_of_int (count_status "Skipped" items);
   certificate_issue_date :=
     "Not Found: " +:+ str_of_int (count_status "Not Found" items);
   status := "Complete";
   action := "SQL Generation Finished" |}.

End Counts.

(** ** SQL literals and the filters of the main blocks *)

Module Sql.
Import Py.

(** The text a quoted SQL literal with the body [s] denotes when a quote
    is written by doubling it; [None] when a single quote ends the
    literal early. *)
Fixpoint literal_text (s : string) : option string :=
match s with
| EmptyString => Some EmptyString
| String c r =>
    if decide (c = "'"%char) then
      match r with
      | String c' r' =>
          if decide (c' = "'"%char) then String "'"%char <$> literal_text r'
          else None
      | EmptyString => None
      end
    else String c <$> literal_text r
end.

End Sql.

Module main.
Import Py.

(** [programs_to_insert] in the main block of insert_programs.py. *)
Definition programs_to_insert
  (all_report_data : list insert_programs.ProgramReportItem)
  : list insert_programs.ProgramReportItem :=
filter (fun p => insert_programs.action p = "Insert" /\
                 insert_programs.predicted_category_id p <> None)
  all_report_data.

(** [schedules_to_insert] in the main block of insert_schedules.py. *)
Definition schedules_to_insert
  (all_report_data : list insert_schedules.ScheduleReportItem)
  : list insert_schedules.ScheduleReportItem :=
filter (fun s => insert_schedules.action s = "Insert") all_report_data.

End main.

(** ** database.py and the rows of the schedules pipeline *)

Module database.
Import Py.

(** [DatabaseManager.get_existing_program_names] on the [name] column of
    the rows the query returns. *)
Definition get_existing_program_names (result : list string) : gset string :=
list_to_set (map lower result).

(** A row of [SELECT id_program, date_start FROM schedules]. *)
Record ScheduleRow := { id_program : Z; date_start : Datetime.date }.

(** [DatabaseManager.get_existing_schedules]; [str] of a date is its ISO
    form. *)
Definition get_existing_schedules (result : list ScheduleRow)
  : gset (Z * string) :=
list_to_set
  (map (fun row => (id_program row, Datetime.isoformat (date_start row))) result).

(** A row of [SELECT id_schedule, name FROM participants]. *)
Record ParticipantRow := { id_schedule : Z; name : string }.

(** [DatabaseManager.get_participants_data] followed by
    [load_existing_participants] of insert_participants.py. *)
Definition load_existing_participants (result : list ParticipantRow)
  : gset (Z * string) :=
list_to_set (map (fun participant => (id_schedule participant, lower (name participant))) result).

End database.

Module Pipeline.
Import Py insert_schedules.

(** A row of the reader that lacks a cell of one of the three columns
    [process_csv_data] reads. *)
Definition short (row : gmap string (option string)) : Prop :=
row !! "Program" = Some None \/ row !! "Tanggal Mulai" = Some None \/
row !! "Tanggal Sertifikat" = Some None.

(** A field [process_csv_data] keeps: stripped and not empty. *)
Definition kept_field (v : string) : Prop := strip v = v /\ v <> "".

(** A schedule group, a master data set that has its program, and a
    row of the schedules file. *)
Definition example_entry : (string * string) * CsvItem.t :=
(("Training CMA", "31 Desember 2024"),
 CsvItem.make "Training CMA" "31 Desember 2024" "2 Januari 2025").

Definition example_programs_data : gmap string ProgramInfo :=
{[ "training cma" := {| id := 5; cat_id := 2 |} ]}.

Definition example_reader_row : gmap string (option string) :=
<["Program" := Some " Training CMA "]>
  (<["Tanggal Mulai" := Some "31 Desember 2024 "]>
     (<["Tanggal Sertifikat" := Some "2 Januari 2025"]> ∅)).

End Pipeline.

(** ** The loaders of the lookup maps *)

Module loaders.
Import Py.

(** A row of the query of [get_programs_data]. *)
Record ProgramRow := { id : Z; name : string; id_category : Z }.

(** [DatabaseManager.get_programs_data]: a later row replaces an earlier
    one with the same lower-cased name. *)
Definition get_programs_data (result : list ProgramRow)
  : gmap string insert_schedules.ProgramInfo :=
fold_left
  (fun programs_data row =>
     <[lower (name row) :=
         {| insert_schedules.id := id row;
            insert_schedules.cat_id := id_category row |}]> programs_data)
  result ∅.

(** [load_programs_map] of insert_participants.py, on the dictionary
    [get_programs_data] returns. *)
Definition load_programs_map
  (programs_data : gmap string insert_schedules.ProgramInfo)
  : gmap string insert_participants.ProgramData :=
map_fold
  (fun name_lower data programs_map =>
     <[name_lower :=
         {| insert_participants.id := insert_schedules.id data;
            insert_participants.cat_id := insert_schedules.cat_id data |}]>
       programs_map)
  ∅ programs_data.

(** The entry of the participants pipeline for a row of the database. *)
Definition program_data_of (row : ProgramRow) : insert_participants.ProgramData :=
{| insert_participants.id := id row;
   insert_participants.cat_id := id_category row |}.

End loaders.

(** ** The data frame of insert_participants.py *)

Module frames.
Import Py insert_participants.

(** The data frame [pd.read_csv] returns: its column labels and, for
    every row, the cell under each label. *)
Record DataFrame := { columns : list string; rows : list (string -> Cell) }.

(** [required_cols] of [main]. *)
Definition required_cols : list string :=
[ "Nama"; "Program"; "Tanggal Mulai"; "ket"; "Tanggal Sertifikat" ].

(** [all(col in df.columns for col in required_cols)] *)
Definition has_required_cols (df : DataFrame) : bool :=
forallb (fun col => bool_decide (col ∈ columns df)) required_cols.

(** [row[col]]; [None] stands for the [KeyError] of a label the frame
    does not have. *)
Definition getitem (df : DataFrame) (row : string -> Cell) (col : string)
  : option Cell :=
if decide (col ∈ columns df) then Some (row col) else None.

(** The cells [generate_sql] reads of a row, in the order it reads
    them. *)
Definition read_row (df : DataFrame) (row : string -> Cell) : option Row :=
nama ← getitem df row "Nama";
program ← getitem df row "Program";
tanggal_mulai ← getitem df row "Tanggal Mulai";
no ← getitem df row "No";
ket ← getitem df row "ket";
tanggal_sertifikat ← getitem df row "Tanggal Sertifikat";
Some {| Nama := nama; Program := program; Tanggal_Mulai := tanggal_mulai;
        No := no; ket := ket; Tanggal_Sertifikat := tanggal_sertifikat |}.

(** The rows of a frame that has all six columns. *)
Definition row_of (row : string -> Cell) : Row :=
{| Nama := row "Nama"; Program := row "Program";
   Tanggal_Mulai := row "Tanggal Mulai"; No := row "No"; ket := row "ket";
   Tanggal_Sertifikat := row "Tanggal Sertifikat" |}.

(** [generate_sql] on a frame; [None] stands for the [KeyError]. *)
Definition generate_sql_frame (df : DataFrame)
  (programs_map : gmap string ProgramData)
  (schedules_map : gmap (Z * string) Z)
  (existing_participants : gset (Z * string))
  : option (string * list ParticipantReportItem) :=
df_rows ← mapM (read_row df) (rows df);
Some (generate_sql df_rows programs_map schedules_map existing_participants).

End frames.

(** * Properties *)

#[local] Arguments String.append !_ _ : simpl nomatch.

Ltac ascii_cases c := destruct c as [[] [] [] [] [] [] [] []].

(** ** Characters *)

Section characters.
Import Py.
Local Open Scope Z_scope.

Lemma digit_range c a : digit c = Some a -> 0 <= a <= 9.
Proof. ascii_cases c; vm_compute; intros H; inversion H; split; discriminate. Qed.

Lemma digit_not_space c : is_space c = true -> digit c = None.
Proof. ascii_cases c; vm_compute; congruence. Qed.

Lemma lower_char_idem c : lower_char (lower_char c) = lower_char c.
Proof. ascii_cases c; reflexivity. Qed.

Lemma is_space_lower_char c : is_space (lower_char c) = is_space c.
Proof. ascii_cases c; reflexivity. Qed.

Lemma digit_lower_char c : digit (lower_char c) = digit c.
Proof. ascii_cases c; reflexivity. Qed.

Lemma lower_char_space c : is_space c = true -> lower_char c = c.
Proof. ascii_cases c; vm_compute; congruence. Qed.

Lemma lower_char_digit c a : digit c = Some a -> lower_char c = c.
Proof. ascii_cases c; vm_compute; congruence. Qed.

Lemma lower_char_blank c : lower_char c = " "%char <-> c = " "%char.
Proof. ascii_cases c; vm_compute; split; congruence. Qed.

Lemma digit_of_digit_char a : 0 <= a <= 9 -> digit (Datetime.digit_char a) = Some a.
Proof.
  intros H.
  assert (a = 0 \/ a = 1 \/ a = 2 \/ a = 3 \/ a = 4 \/ a = 5 \/ a = 6 \/
          a = 7 \/ a = 8 \/ a = 9) as Ha by lia.
  repeat (destruct Ha as [-> | Ha]; [reflexivity |]). subst a. reflexivity.
Qed.

Lemma digit_char_of_digit c a : digit c = Some a -> Datetime.digit_char a = c.
Proof.
  intros H.
  ascii_cases c; vm_compute in H; first [discriminate | injection H as <-; reflexivity].
Qed.

End characters.

(** ** Strings *)

Section strings.
Import Py.

Lemma append_nil_r (s : string) : s +:+ "" = s.
Proof. induction s; simpl; congruence. Qed.

Lemma append_assoc (a b c : string) : (a +:+ b) +:+ c = a +:+ b +:+ c.
Proof. induction a; simpl; congruence. Qed.

Lemma length_append (a b : string) :
  String.length (a +:+ b) = String.length a + String.length b.
Proof. induction a; simpl; congruence. Qed.

Lemma lower_app a b : lower (a +:+ b) = lower a +:+ lower b.
Proof. induction a; simpl; congruence. Qed.

Lemma lower_idem s : lower (lower s) = lower s.
Proof. induction s; simpl; rewrite ?lower_char_idem; congruence. Qed.

Lemma length_lower s : String.length (lower s) = String.length s.
Proof. induction s; simpl; congruence. Qed.

Lemma lower_eq_nil s : lower s = "" <-> s = "".
Proof. destruct s; simpl; split; congruence. Qed.

End strings.

(** ** [split], [strip] and tokens *)

Section tokens.
Import Py Spec.

Lemma split_space c s : is_space c = true -> split (String c s) = split s.
Proof.
  intros Hc. unfold split. simpl. destruct (split_scan s) as [tok rest].
  rewrite Hc. reflexivity.
Qed.

Lemma split_scan_token t s :
  no_space t = true ->
  split_scan (t +:+ s) = (t +:+ (split_scan s).1, (split_scan s).2).
Proof.
  induction t as [|c t IH]; simpl; intros H.
  - destruct (split_scan s); reflexivity.
  - apply andb_prop in H as [Hc Ht]. rewrite (IH Ht).
    apply negb_true_iff in Hc. rewrite Hc. reflexivity.
Qed.

Lemma split_token t : no_space t = true -> t <> "" -> split t = [t].
Proof.
  intros Ht Hne. unfold split.
  rewrite <- (append_nil_r t) at 1. rewrite (split_scan_token _ _ Ht). simpl.
  rewrite append_nil_r. destruct t; [done | reflexivity].
Qed.

Lemma split_token_space t r :
  no_space t = true -> t <> "" -> starts_space r = true ->
  split (t +:+ r) = t :: split r.
Proof.
  intros Ht Hne Hr. unfold split at 1. rewrite (split_scan_token _ _ Ht).
  destruct r as [|c r]; [done |]. simpl in Hr.
  rewrite (split_space _ _ Hr). unfold split. simpl.
  destruct (split_scan r) as [tok rest]. rewrite Hr. simpl.
  rewrite append_nil_r. destruct t; [done | reflexivity].
Qed.

Lemma split_lstrip s : split (lstrip s) = split s.
Proof.
  induction s as [|c s IH]; simpl; [done |].
  destruct (is_space c) eqn:Hc; [| done]. by rewrite split_space.
Qed.

Lemma lstrip_starts s : starts_space (lstrip s) = false.
Proof.
  induction s as [|c s IH]; simpl; [done |].
  destruct (is_space c) eqn:Hc; [done |]. simpl. by rewrite Hc.
Qed.

Lemma lstrip_id s : starts_space s = false -> lstrip s = s.
Proof. destruct s as [|c s]; simpl; [done |]. by intros ->. Qed.

Lemma lstrip_space s : starts_space s = true -> exists c s', s = String c s' /\ is_space c = true /\ lstrip s = lstrip s'.
Proof.
  destruct s as [|c s]; simpl; [done |]. intros H. exists c, s. by rewrite H.
Qed.

(** Every text that does not start with a blank starts with a token. *)
Lemma first_token s :
  starts_space s = false -> s <> "" ->
  exists t r, s = t +:+ r /\ no_space t = true /\ t <> "" /\ at_token_end r = true.
Proof.
  induction s as [|c s IH]; [done |]. simpl. intros Hc _.
  destruct s as [|c' s].
  - exists (String c ""), "". simpl. unfold no_space. simpl. by rewrite Hc.
  - destruct (is_space c') eqn:Hc'.
    + exists (String c ""), (String c' s). unfold no_space. simpl.
      by rewrite Hc, Hc'.
    + destruct IH as (t & r & Hs & Ht & Hne & Hr); [done | done |].
      exists (String c t), r. rewrite Hs. unfold no_space in *. simpl.
      by rewrite Hc, Ht.
Qed.

Lemma at_token_end_cases r :
  at_token_end r = true -> r = "" \/ starts_space r = true.
Proof. destruct r; simpl; auto. Qed.

Lemma split_all_space s : all_space s = true -> split s = [].
Proof.
  induction s as [|c s IH]; [done |]. unfold all_space. simpl.
  intros [Hc Hs]%andb_prop. rewrite (split_space _ _ Hc). by apply IH.
Qed.

Lemma split_nil s : split s = [] -> all_space s = true.
Proof.
  induction s as [|c s IH]; [done |]. unfold all_space. simpl.
  destruct (is_space c) eqn:Hc.
  - rewrite (split_space _ _ Hc). exact IH.
  - unfold split. simpl. destruct (split_scan s) as [tok rest]. by rewrite Hc.
Qed.

Lemma length_rstrip s : String.length (rstrip s) <= String.length s.
Proof.
  induction s as [|c s IH]; simpl; [done |].
  destruct (rstrip s); [destruct (is_space c) |]; simpl in *; lia.
Qed.

Lemma rstrip_all_space s : all_space s = true -> rstrip s = "".
Proof.
  induction s as [|c s IH]; [done |]. unfold all_space. simpl.
  intros [Hc Hs]%andb_prop. rewrite (IH Hs). by rewrite Hc.
Qed.

Lemma rstrip_app_space a w : all_space w = true -> rstrip (a +:+ w) = rstrip a.
Proof.
  intros Hw. induction a as [|c a IH]; simpl.
  - by apply rstrip_all_space.
  - by rewrite IH.
Qed.

(** A text that [rstrip] leaves alone has no blank tail. *)
Lemma rstrip_fixed_tail a r :
  rstrip (a +:+ r) = a +:+ r -> r <> "" -> split r <> [].
Proof.
  intros Hfix Hne Hsplit. apply split_nil in Hsplit.
  rewrite (rstrip_app_space _ _ Hsplit) in Hfix.
  pose proof (length_rstrip a) as Hlen. rewrite Hfix, length_append in Hlen.
  destruct r; [done | simpl in Hlen; lia].
Qed.

End tokens.

(** ** [strptime], group by group *)

Section date_parts.
Import Py Spec Datetime.
Local Open Scope Z_scope.

Lemma no_space_cons c s :
  no_space (String c s) = true <-> is_space c = false /\ no_space s = true.
Proof.
  unfold no_space. simpl. rewrite andb_true_iff, negb_true_iff. tauto.
Qed.

Ltac bool_cases :=
  repeat match goal with
  | |- context [Z.eqb ?a ?b] => destruct (Z.eqb_spec a b)
  | |- context [Z.leb ?a ?b] => destruct (Z.leb_spec a b)
  | |- context [Nat.leb ?a ?b] => destruct (Nat.leb_spec a b)
  end; simpl.

Lemma day_part_token d r :
  no_space d = true -> d <> "" -> at_token_end r = true ->
  day_part (d +:+ r) =
  if starts_space r then
    v ← day_number d;
    if (1 <=? v) && (v <=? 31) then Some (v, lstrip r) else None
  else None.
Proof.
  intros Hd Hne Hr. unfold day_part, day_number, numeral.
  destruct d as [|c1 d]; [done |]. clear Hne.
  apply no_space_cons in Hd as [Hc1 Hd].
  destruct (digit c1) as [a|] eqn:Ha.
  2:{ assert (re_d (String c1 d +:+ r) = None) as ->.
      { simpl. rewrite Ha. destruct (d +:+ r); [done |].
        destruct (decide (c1 = " "%char)) as [-> |]; [done | done]. }
      simpl. rewrite Ha. by repeat case_match. }
  pose proof (digit_range _ _ Ha) as Hra.
  destruct d as [|c2 d].
  - (* one digit *)
    simpl. rewrite Ha.
    destruct r as [|c r]; simpl in *.
    + by destruct (1 <=? a).
    + rewrite Hr, (digit_not_space _ Hr). simpl.
      bool_cases; simpl; rewrite ?Hr; try done; lia.
  - apply no_space_cons in Hd as [Hc2 Hd].
    simpl. rewrite Ha.
    destruct (digit c2) as [b|] eqn:Hb.
    2:{ destruct (1 <=? a); simpl; rewrite ?Hc2;
        by repeat case_match. }
    pose proof (digit_range _ _ Hb) as Hrb.
    destruct d as [|c3 d].
    + simpl.
      destruct r as [|c r]; simpl in *.
      * bool_cases; simpl; rewrite ?Hc2; done.
      * rewrite Hr. bool_cases; simpl; rewrite ?Hr, ?Hc2; try done; try lia.
        all: simpl; repeat f_equal; lia.
    + apply no_space_cons in Hd as [Hc3 Hd]. simpl.
      bool_cases; simpl; rewrite ?Hc2, ?Hc3; by destruct (starts_space r).
Qed.

Lemma strptime_parts s :
  strptime s =
  '(d, r1) ← day_part s; '(m, r2) ← month_part r1; y ← year_part r2;
  if date_ok y m d then Some (Date y m d) else None.
Proof.
  unfold strptime, day_part, month_part, year_part.
  destruct (re_d s) as [[d r]|]; simpl; [| done].
  destruct (re_spaces r) as [r1|]; simpl; [| done].
  destruct (re_B r1) as [[m r2]|]; simpl; [| done].
  destruct (re_spaces r2) as [r3|]; simpl; [| done].
  destruct (re_Y r3) as [[y r4]|]; simpl; [| done].
  by destruct r4.
Qed.

Lemma re_literal_token pat M r :
  no_space pat = true -> no_space M = true -> at_token_end r = true ->
  re_literal pat (M +:+ r) ≫= re_spaces =
  if decide (lower M = pat) then re_spaces r else None.
Proof.
  revert M. induction pat as [|p pat IH]; intros M Hp HM Hr.
  - destruct M as [|c M]; simpl; [done |].
    apply no_space_cons in HM as [Hc _]. by rewrite Hc.
  - apply no_space_cons in Hp as [Hp Hpat].
    destruct M as [|c M]; simpl.
    + destruct r as [|c r]; simpl in *; [done |].
      rewrite (lower_char_space _ Hr).
      destruct (decide (c = p)) as [-> |]; [congruence | done].
    + apply no_space_cons in HM as [Hc HM].
      destruct (decide (lower_char c = p)) as [<- |].
      * rewrite (IH M Hpat HM Hr).
        destruct (decide (lower M = pat)) as [-> |].
        -- by rewrite decide_True.
        -- rewrite decide_False; [done | congruence].
      * rewrite decide_False; [done | congruence].
Qed.

Lemma re_literal_startswith pat M r r1 :
  no_space pat = true -> no_space M = true -> at_token_end r = true ->
  re_literal pat (M +:+ r) = Some r1 -> startswith pat (lower M) = true.
Proof.
  revert M. induction pat as [|p pat IH]; intros M Hp HM Hr; [done |].
  apply no_space_cons in Hp as [Hp Hpat].
  destruct M as [|c M]; simpl.
  - destruct r as [|c r]; simpl in *; [done |].
    rewrite (lower_char_space _ Hr).
    destruct (decide (c = p)) as [-> |]; [congruence | done].
  - apply no_space_cons in HM as [Hc HM].
    destruct (decide (lower_char c = p)) as [<- |]; [| done].
    rewrite decide_True by done. by apply IH.
Qed.

Lemma re_literal_none pat M r :
  re_literal pat (M +:+ r) = None -> lower M <> pat.
Proof.
  revert M. induction pat as [|p pat IH]; intros M; [done |].
  destruct M as [|c M]; simpl; [done |].
  destruct (decide (lower_char c = p)) as [<- |]; [| congruence].
  intros H%IH. congruence.
Qed.

Lemma dict_get_Some {V} (d : list (string * V)) k v :
  dict_get d k = Some v -> (k, v) ∈ d.
Proof.
  induction d as [|[k' v'] d IH]; simpl; [done |].
  destruct (decide (k' = k)) as [-> |].
  - intros [= ->]. left.
  - intros H. right. by apply IH.
Qed.

Lemma re_alternatives_token alts M r :
  prefix_free alts = true ->
  no_space M = true -> at_token_end r = true ->
  ('(m, r1) ← re_alternatives alts (M +:+ r); r' ← re_spaces r1; Some (m, r')) =
  if starts_space r then m ← dict_get alts (lower M); Some (m, lstrip r)
  else None.
Proof.
  intros Halts HM Hr. induction alts as [|[p m] alts IH]; simpl.
  - by destruct (starts_space r).
  - simpl in Halts. apply andb_prop in Halts as [[Hfree Hp]%andb_prop Halts].
    destruct (re_literal p (M +:+ r)) as [r1|] eqn:Hlit.
    + pose proof (re_literal_token p M r Hp HM Hr) as Htok.
      rewrite Hlit in Htok. simpl in *. rewrite Htok.
      destruct (decide (lower M = p)) as [<- |Hne].
      * rewrite decide_True by done.
        destruct r as [|c r]; simpl in *; [done |]. by rewrite Hr.
      * rewrite decide_False by done.
        destruct (dict_get alts (lower M)) as [m'|] eqn:Hget.
        2:{ by destruct (starts_space r). }
        apply dict_get_Some in Hget.
        rewrite forallb_forall in Hfree.
        apply list_elem_of_In, Hfree in Hget.
        rewrite (re_literal_startswith _ _ _ _ Hp HM Hr Hlit) in Hget. done.
    + apply re_literal_none in Hlit.
      rewrite decide_False by done. by apply IH.
Qed.

Lemma month_names_english name :
  dict_get month_names name = dict_get english_months name.
Proof.
  unfold month_names, english_months, dict_get.
  repeat (case_decide; [subst; reflexivity |]).
  repeat (rewrite decide_False by done). done.
Qed.

Lemma month_part_token M r :
  no_space M = true -> at_token_end r = true ->
  month_part (M +:+ r) =
  if starts_space r then
    m ← dict_get english_months (lower M); Some (m, lstrip r)
  else None.
Proof.
  intros HM Hr. unfold month_part, re_B.
  rewrite re_alternatives_token by done.
  by rewrite month_names_english.
Qed.

Lemma year_part_token y r :
  no_space y = true -> y <> "" -> at_token_end r = true ->
  year_part (y +:+ r) = if decide (r = "") then year_number y else None.
Proof.
  intros Hy Hne Hr. unfold year_part, year_number, numeral.
  destruct y as [|c1 [|c2 [|c3 [|c4 [|c5 y]]]]]; [done |..]; clear Hne;
    repeat match goal with
    | H : no_space (String _ _) = true |- _ => apply no_space_cons in H as [? H]
    end.
  - destruct r as [|c [|c' [|c'' r]]]; simpl in *; try done;
      rewrite ?(digit_not_space _ Hr); repeat case_match; done.
  - destruct r as [|c [|c' r]]; simpl in *; try done;
      rewrite ?(digit_not_space _ Hr); repeat case_match; done.
  - destruct r as [|c r]; simpl in *; try done;
      rewrite ?(digit_not_space _ Hr); repeat case_match; done.
  - simpl.
    destruct (digit c1) as [a|]; [| by case_decide].
    destruct (digit c2) as [b|]; [| by case_decide].
    destruct (digit c3) as [c|]; [| by case_decide].
    destruct (digit c4) as [d|]; [| by case_decide]. simpl.
    destruct r; simpl; [f_equal; lia | done].
  - simpl.
    destruct (digit c1) as [a|]; [| by case_decide].
    destruct (digit c2) as [b|]; [| by case_decide].
    destruct (digit c3) as [c|]; [| by case_decide].
    destruct (digit c4) as [d|]; [| by case_decide]. simpl.
    by case_decide.
Qed.

#[local] Arguments dict_get : simpl never.

Lemma days_in_month_le y m : days_in_month y m <= 31.
Proof. unfold days_in_month. repeat case_match; lia. Qed.

Lemma lstrip_suffix r : exists w, r = w +:+ lstrip r.
Proof.
  induction r as [|c r [w IH]]; simpl; [by exists "" |].
  destruct (is_space c).
  - exists (String c w). simpl. by rewrite <- IH.
  - by exists "".
Qed.

Lemma month_part_nil : month_part "" = None.
Proof. reflexivity. Qed.

Lemma year_part_nil : year_part "" = None.
Proof. reflexivity. Qed.

(** [strptime] on a text without blanks around it reads the three
    tokens of the text. *)
Lemma strptime_split t :
  starts_space t = false -> rstrip t = t ->
  strptime t =
  match split t with
  | [d; m; y] => calendar_date d (dict_get english_months (lower m)) y
  | _ => None
  end.
Proof.
  intros Hstart Hfix. rewrite strptime_parts.
  destruct (decide (t = "")) as [-> | Hne]; [done |].
  destruct (first_token t Hstart Hne) as (d & r1 & -> & Hd & Hdne & Hr1).
  rewrite (day_part_token _ _ Hd Hdne Hr1).
  destruct (at_token_end_cases _ Hr1) as [-> | Hs1].
  { rewrite append_nil_r, (split_token _ Hd Hdne). done. }
  rewrite Hs1, (split_token_space _ _ Hd Hdne Hs1), <- split_lstrip.
  destruct (lstrip_suffix r1) as [w1 Hw1].
  pose proof (lstrip_starts r1) as Hstart2.
  destruct (decide (lstrip r1 = "")) as [-> | Hne2].
  { simpl. destruct (day_number d) as [v|]; simpl; [| done].
    by destruct (_ && _). }
  destruct (first_token _ Hstart2 Hne2) as (m & r2 & Ht2 & Hm & Hmne & Hr2).
  rewrite Ht2 in *. clear Hstart2 Hne2.
  assert (forall v,
    ('(m0, r) ← month_part (m +:+ r2); y ← year_part r;
       if date_ok y m0 v then Some (Date y m0 v) else None) =
    match split (m +:+ r2) with
    | [m'; y] =>
        m0 ← dict_get english_months (lower m'); y0 ← year_number y;
        if date_ok y0 m0 v then Some (Date y0 m0 v) else None
    | _ => None
    end) as Hrest.
  { intros v. rewrite (month_part_token _ _ Hm Hr2).
    destruct (at_token_end_cases _ Hr2) as [-> | Hs2].
    { rewrite append_nil_r, (split_token _ Hm Hmne). done. }
    rewrite Hs2, (split_token_space _ _ Hm Hmne Hs2), <- split_lstrip.
    destruct (lstrip_suffix r2) as [w2 Hw2].
    pose proof (lstrip_starts r2) as Hstart3.
    destruct (decide (lstrip r2 = "")) as [-> | Hne3].
    { simpl. destruct (dict_get english_months (lower m)); done. }
    destruct (first_token _ Hstart3 Hne3) as (y & r3 & Ht3 & Hy & Hyne & Hr3).
    rewrite Ht3 in *. clear Hstart3 Hne3.
    destruct (at_token_end_cases _ Hr3) as [-> | Hs3].
    { rewrite append_nil_r, (split_token _ Hy Hyne).
      destruct (dict_get english_months (lower m)) as [m0|]; simpl; [| done].
      pose proof (year_part_token y "" Hy Hyne eq_refl) as Hyp.
      rewrite append_nil_r in Hyp. rewrite Hyp. done. }
    rewrite (split_token_space _ _ Hy Hyne Hs3).
    assert (split r3 <> []) as Hsplit.
    { apply (rstrip_fixed_tail (d +:+ w1 +:+ m +:+ w2 +:+ y)).
      - rewrite !append_assoc. by rewrite <- Hw2, <- Hw1.
      - by destruct r3. }
    destruct (split r3) as [|x xs]; [done |].
    destruct (dict_get english_months (lower m)) as [m0|]; simpl; [| done].
    rewrite (year_part_token _ _ Hy Hyne Hr3).
    rewrite decide_False; [done | by destruct r3]. }
  unfold calendar_date.
  destruct (day_number d) as [v|]; simpl; [| by repeat case_match].
  destruct (_ && _) eqn:Hrange; simpl.
  - rewrite Hrest. by repeat case_match.
  - destruct (split (m +:+ r2)) as [|m' [|y' [|]]]; try done.
    destruct (dict_get english_months (lower m')) as [m0|]; simpl; [| done].
    destruct (year_number y') as [y0|]; simpl; [| done].
    pose proof (days_in_month_le y0 m0).
    unfold date_ok. 
    destruct (1 <=? v) eqn:H1; destruct (v <=? 31) eqn:H2; try done;
      destruct (v <=? days_in_month y0 m0) eqn:H3;
      rewrite ?andb_false_r; try done; lia.
Qed.

End date_parts.

Section participants_date.
Import Py Spec Datetime.
Import insert_participants.
Local Open Scope Z_scope.
#[local] Arguments dict_get : simpl never.

Lemma is_space_upper_char c : is_space (upper_char c) = is_space c.
Proof. ascii_cases c; reflexivity. Qed.

Lemma lower_upper_char c : lower_char (upper_char c) = lower_char c.
Proof. ascii_cases c; reflexivity. Qed.

Lemma split_scan_tokens s :
  no_space (split_scan s).1 = true /\ Forall token (split_scan s).2.
Proof.
  induction s as [|c s [IH1 IH2]]; simpl; [by split |].
  destruct (split_scan s) as [tok rest]. simpl in *.
  destruct (is_space c) eqn:Hc; simpl.
  - split; [done |]. destruct tok; simpl; [done |].
    constructor; [by split | done].
  - split; [| done]. apply no_space_cons. by split.
Qed.

Lemma split_tokens s : Forall token (split s).
Proof.
  unfold split. pose proof (split_scan_tokens s) as [H1 H2].
  destruct (split_scan s) as [tok rest]. simpl in *.
  destruct tok; simpl; [done |]. constructor; [by split | done].
Qed.

Lemma cons_token_lower tok rest :
  cons_token (lower tok) (map lower rest) = map lower (cons_token tok rest).
Proof. by destruct tok. Qed.

Lemma split_scan_lower s :
  split_scan (lower s) = (lower (split_scan s).1, map lower (split_scan s).2).
Proof.
  induction s as [|c s IH]; simpl; [done |].
  rewrite IH. destruct (split_scan s) as [tok rest]. simpl.
  rewrite is_space_lower_char. destruct (is_space c); simpl; [| done].
  by rewrite cons_token_lower.
Qed.

Lemma split_lower s : split (lower s) = map lower (split s).
Proof.
  unfold split. rewrite split_scan_lower.
  destruct (split_scan s) as [tok rest]. simpl. apply cons_token_lower.
Qed.

Lemma starts_space_lower s : starts_space (lower s) = starts_space s.
Proof. destruct s; simpl; [done |]. apply is_space_lower_char. Qed.

Lemma rstrip_lower s : rstrip (lower s) = lower (rstrip s).
Proof.
  induction s as [|c s IH]; simpl; [done |]. rewrite IH.
  destruct (rstrip s); simpl; [| done].
  rewrite is_space_lower_char. by destruct (is_space c).
Qed.

Lemma rstrip_starts s : starts_space s = false -> starts_space (rstrip s) = false.
Proof.
  destruct s as [|c s]; simpl; [done |]. intros Hc.
  destruct (rstrip s); simpl; by rewrite Hc.
Qed.

Lemma rstrip_idem s : rstrip (rstrip s) = rstrip s.
Proof.
  induction s as [|c s IH]; simpl; [done |].
  destruct (rstrip s) as [|c' r] eqn:Hr.
  - destruct (is_space c) eqn:Hc; simpl; [done |]. by rewrite Hc.
  - simpl in *. by rewrite IH.
Qed.

Lemma strip_starts s : starts_space (strip s) = false.
Proof. apply rstrip_starts, lstrip_starts. Qed.

Lemma rstrip_strip s : rstrip (strip s) = strip s.
Proof. apply rstrip_idem. Qed.

Lemma rstrip_token a y : token y -> rstrip (a +:+ y) = a +:+ y.
Proof.
  intros [Hy Hne]. induction a as [|c a IH]; simpl.
  - clear Hne. induction y as [|c y IH]; [done |].
    apply no_space_cons in Hy as [Hc Hy]. simpl. rewrite (IH Hy).
    destruct y; by rewrite ?Hc.
  - rewrite IH. destruct a; [by destruct y | done].
Qed.

Lemma no_space_lower s : no_space (lower s) = no_space s.
Proof.
  unfold no_space. induction s as [|c s IH]; simpl; [done |].
  by rewrite is_space_lower_char, IH.
Qed.

Lemma token_capitalize m : token m -> token (capitalize m).
Proof.
  intros [Hm Hne]. destruct m as [|c m]; [done |].
  apply no_space_cons in Hm as [Hc Hm]. split; [| done].
  unfold capitalize. apply no_space_cons.
  split; [by rewrite is_space_upper_char | by rewrite no_space_lower].
Qed.

Lemma lower_capitalize m : lower (capitalize m) = lower m.
Proof.
  destruct m as [|c m]; simpl; [done |].
  by rewrite lower_upper_char, lower_idem.
Qed.

(** [strptime] on three tokens joined by single blanks. *)
Lemma strptime_joined d m y :
  token d -> token m -> token y ->
  strptime (d +:+ " " +:+ m +:+ " " +:+ y) =
  calendar_date d (dict_get english_months (lower m)) y.
Proof.
  intros [Hd Hdne] [Hm Hmne] [Hy Hyne].
  rewrite strptime_split.
  - rewrite (split_token_space d) by done.
    change (" " +:+ m +:+ " " +:+ y) with (String " " (m +:+ " " +:+ y)).
    rewrite split_space by done.
    rewrite (split_token_space m) by done.
    change (" " +:+ y) with (String " " y).
    rewrite split_space by done.
    by rewrite (split_token y).
  - destruct d as [|c d]; [done |]. by apply no_space_cons in Hd as [Hc _].
  - rewrite <- !append_assoc. by apply rstrip_token.
Qed.

Lemma indonesian_month_english m eng :
  dict_get INDONESIAN_MONTHS m = Some eng ->
  token eng /\ dict_get english_months (lower eng) = month_number m.
Proof.
  unfold INDONESIAN_MONTHS, dict_get.
  repeat (case_decide; [subst; intros [= <-]; split; [by split | reflexivity] |]).
  done.
Qed.

Lemma indonesian_month_none m :
  dict_get INDONESIAN_MONTHS m = None ->
  month_number m = dict_get english_months m.
Proof.
  unfold month_number, INDONESIAN_MONTHS, indonesian_months.
  unfold dict_get at 1 2.
  repeat (case_decide; [done |]). done.
Qed.

Lemma parse_indonesian_date_normalize text :
  parse_indonesian_date (Str text) = normalize text.
Proof.
  unfold parse_indonesian_date, normalize, tokens.
  destruct (decide (text = "")) as [-> | _]; [done |].
  pose proof (split_tokens (lower (strip text))) as Htok.
  pose proof (split_lower (strip text)) as Hlow.
  destruct (split (lower (strip text))) as [|d [|m [|y [|x xs]]]] eqn:Hsplit.
  1,2,3,5: rewrite strptime_split, Hsplit;
    [done | by rewrite starts_space_lower, strip_starts
          | by rewrite rstrip_lower, rstrip_strip].
  apply Forall_cons in Htok as [Hd Htok].
  apply Forall_cons in Htok as [Hm Htok].
  apply Forall_cons in Htok as [Hy _].
  assert (lower m = m) as Hlm.
  { destruct (split (strip text)) as [|d' [|m' [|y' [|]]]]; try done.
    simpl in Hlow. injection Hlow as _ -> _. apply lower_idem. }
  destruct (dict_get INDONESIAN_MONTHS m) as [eng|] eqn:Hget.
  - apply indonesian_month_english in Hget as [Heng Hnum].
    by rewrite strptime_joined, Hnum.
  - rewrite strptime_joined by auto using token_capitalize.
    by rewrite lower_capitalize, Hlm, (indonesian_month_none _ Hget).
Qed.

End participants_date.

(** ** The calendar and the text of a year *)

Section calendar.
Import Py Datetime Calendar.
Local Open Scope Z_scope.

Lemma is_leap_spec y : is_leap y = true <-> leap_year y.
Proof.
  unfold is_leap, leap_year.
  rewrite andb_true_iff, orb_true_iff, negb_true_iff, !Z.eqb_eq, Z.eqb_neq.
  by rewrite !Z.mod_divide by done.
Qed.

Lemma month_length_spec y m :
  1 <= m <= 12 -> month_length y m (days_in_month y m).
Proof.
  intros Hm. unfold month_length, days_in_month.
  assert (m = 1 \/ m = 2 \/ m = 3 \/ m = 4 \/ m = 5 \/ m = 6 \/ m = 7 \/
          m = 8 \/ m = 9 \/ m = 10 \/ m = 11 \/ m = 12) as Hcases by lia.
  destruct (is_leap y) eqn:Hleap.
  - apply is_leap_spec in Hleap.
    repeat (destruct Hcases as [-> | Hcases]); subst;
      first [ left; split; [| done];
              repeat first [apply list_elem_of_here | apply list_elem_of_further]
            | right; left; split; [| done];
              repeat first [apply list_elem_of_here | apply list_elem_of_further]
            | right; right; left; done ].
  - assert (~ leap_year y) as Hno.
    { intros H%is_leap_spec. congruence. }
    repeat (destruct Hcases as [-> | Hcases]); subst;
      first [ left; split; [| done];
              repeat first [apply list_elem_of_here | apply list_elem_of_further]
            | right; left; split; [| done];
              repeat first [apply list_elem_of_here | apply list_elem_of_further]
            | right; right; right; done ].
Qed.

Lemma month_length_fun y m len :
  month_length y m len -> 1 <= m <= 12 /\ len = days_in_month y m.
Proof.
  unfold month_length, days_in_month.
  intros [[Hm ->] | [[Hm ->] | [(-> & Hleap & ->) | (-> & Hleap & ->)]]].
  - repeat (apply elem_of_cons in Hm as [-> | Hm]; [done |]).
    by apply elem_of_nil in Hm.
  - repeat (apply elem_of_cons in Hm as [-> | Hm]; [done |]).
    by apply elem_of_nil in Hm.
  - apply is_leap_spec in Hleap. by rewrite Hleap.
  - destruct (is_leap y) eqn:H; [| done]. by apply is_leap_spec in H.
Qed.

(** The range check of the [date] constructor accepts exactly the dates
    of the calendar. *)
Lemma date_ok_real y m d : date_ok y m d = true <-> real_date y m d.
Proof.
  unfold date_ok, real_date.
  rewrite !andb_true_iff, !Z.leb_le. split.
  - intros (((((H1 & H2) & H3) & H4) & H5) & H6). split; [lia |].
    exists (days_in_month y m). split; [by apply month_length_spec | lia].
  - intros (Hy & len & Hlen & Hd).
    apply month_length_fun in Hlen as [Hm ->]. lia.
Qed.

End calendar.

Section year_text.
Import Py Spec Datetime.
Local Open Scope Z_scope.

Lemma string_of_uint_no_space u :
  no_space (NilEmpty.string_of_uint u) = true.
Proof. induction u; simpl; done. Qed.

Lemma str_of_int_token n : token (str_of_int n).
Proof.
  unfold str_of_int, NilZero.string_of_int, NilZero.string_of_uint.
  destruct (Z.to_int n) as [u | u]; destruct u; split; try done;
    simpl; apply string_of_uint_no_space.
Qed.

Lemma range_forallb (P : Z -> bool) (lo : Z) (count : nat) :
  forallb (fun k => P (lo + Z.of_nat k)) (seq 0 count) = true ->
  forall n, lo <= n < lo + Z.of_nat count -> P n = true.
Proof.
  intros Hall n Hn. rewrite forallb_forall in Hall.
  specialize (Hall (Z.to_nat (n - lo))).
  replace (lo + Z.of_nat (Z.to_nat (n - lo))) with n in Hall by lia.
  apply Hall. apply in_seq. lia.
Qed.

(** From 1000 on, the year [strftime] writes has four digits. *)
Lemma year_text_pad4 y : 1000 <= y <= 9999 -> str_of_int y = pad4 y.
Proof.
  intros Hy.
  apply String.eqb_eq.
  apply (range_forallb (fun n => String.eqb (str_of_int n) (pad4 n)) 1000
           (Z.to_nat 9000)); [by vm_compute | lia].
Qed.

(** Below 1000 it has at most three. *)
Lemma year_text_short y :
  1 <= y < 1000 -> (String.length (str_of_int y) <= 3)%nat.
Proof.
  intros Hy. apply Nat.leb_le.
  apply (range_forallb (fun n => String.length (str_of_int n) <=? 3)%nat 1 999);
    [by vm_compute | lia].
Qed.

(** For a date of the calendar from the year 1000 on, [strftime] writes
    the ISO form. *)
Lemma strftime_isoformat dt :
  date_ok (year dt) (month dt) (day dt) = true -> 1000 <= year dt ->
  strftime dt = isoformat dt.
Proof.
  intros Hok Hy. unfold strftime, isoformat. rewrite year_text_pad4; [done |].
  unfold date_ok in Hok. rewrite !andb_true_iff, !Z.leb_le in Hok. lia.
Qed.

Lemma length_isoformat dt : String.length (isoformat dt) = 10%nat.
Proof. reflexivity. Qed.

Lemma length_strftime dt :
  String.length (strftime dt) = (String.length (str_of_int (year dt)) + 6)%nat.
Proof. unfold strftime. by rewrite length_append. Qed.

(** Below the year 1000 it writes a shorter text. *)
Lemma strftime_short dt :
  date_ok (year dt) (month dt) (day dt) = true -> year dt < 1000 ->
  (String.length (strftime dt) < 10)%nat.
Proof.
  intros Hok Hy. rewrite length_strftime.
  unfold date_ok in Hok. rewrite !andb_true_iff, !Z.leb_le in Hok.
  pose proof (year_text_short (year dt)). lia.
Qed.

End year_text.

(** ** The date normaliser of insert_participants.py *)

Section date_claims.
Import Py Spec Datetime.
Import insert_participants.
Local Open Scope Z_scope.
#[local] Arguments dict_get : simpl never.

Lemma digit_digit_char n : digit (digit_char n) = Some (n mod 10).
Proof.
  assert (digit_char n = digit_char (n mod 10)) as ->.
  { unfold digit_char. by rewrite Z.mod_mod. }
  apply digit_of_digit_char. pose proof (Z.mod_pos_bound n 10). lia.
Qed.

Lemma digit_is_token_char c a : digit c = Some a -> is_space c = false.
Proof.
  intros H. destruct (is_space c) eqn:Hc; [| done].
  by rewrite (digit_not_space _ Hc) in H.
Qed.

Lemma numeral_from_token acc s v :
  numeral_from acc s = Some v -> no_space s = true /\ lower s = s.
Proof.
  revert acc. induction s as [|c s IH]; intros acc; simpl; [done |].
  destruct (digit c) as [a|] eqn:Ha; [| done].
  intros [Hs Hl]%IH. rewrite (lower_char_digit _ _ Ha), Hl.
  split; [| done]. apply no_space_cons. by rewrite (digit_is_token_char _ _ Ha).
Qed.

Lemma numeral_token s v : numeral s = Some v -> token s /\ lower s = s.
Proof.
  unfold numeral. destruct s as [|c s]; [done |].
  intros [H1 H2]%numeral_from_token. by repeat split.
Qed.

Lemma day_number_token s v : day_number s = Some v -> token s /\ lower s = s.
Proof. unfold day_number. case_match; [apply numeral_token | done]. Qed.

Lemma year_number_token s v : year_number s = Some v -> token s /\ lower s = s.
Proof. unfold year_number. case_match; [apply numeral_token | done]. Qed.

Lemma month_number_token name m : month_number name = Some m -> token name.
Proof.
  unfold month_number, indonesian_months, english_months, dict_get.
  repeat (case_decide; [subst; intros _; by split |]). done.
Qed.

Lemma token_lower s : token (lower s) -> token s.
Proof.
  intros [H1 H2]. split; [by rewrite <- no_space_lower |].
  intros ->. done.
Qed.

Lemma lstrip_token s : token s -> lstrip s = s.
Proof.
  intros [H Hne]. destruct s as [|c s]; [done |].
  apply no_space_cons in H as [Hc _]. simpl. by rewrite Hc.
Qed.

Lemma strip_token s : token s -> strip s = s.
Proof.
  intros H. unfold strip. rewrite (lstrip_token _ H).
  pose proof (rstrip_token "" s H) as Hr. by simpl in Hr.
Qed.

Lemma token_app a b : no_space a = true -> token b -> token (a +:+ b).
Proof.
  intros Ha [Hb Hne]. induction a as [|c a IH]; simpl; [done |].
  apply no_space_cons in Ha as [Hc Ha]. destruct (IH Ha) as [H1 H2].
  split; [| done]. apply no_space_cons. by split.
Qed.

(** The tokens of three tokens joined by single blanks. *)
Lemma tokens_joined d m y :
  token d -> token m -> token y ->
  tokens (d +:+ " " +:+ m +:+ " " +:+ y) = [lower d; lower m; lower y].
Proof.
  intros Hd Hm Hy. unfold tokens, strip.
  assert (lstrip (d +:+ " " +:+ m +:+ " " +:+ y) = d +:+ " " +:+ m +:+ " " +:+ y)
    as ->.
  { destruct Hd as [Hd Hne]. destruct d as [|c d]; [done |].
    apply no_space_cons in Hd as [Hc _]. simpl. by rewrite Hc. }
  rewrite <- !append_assoc, (rstrip_token _ _ Hy), !append_assoc.
  rewrite split_lower.
  destruct Hd as [Hd Hdne], Hm as [Hm Hmne], Hy as [Hy Hyne].
  rewrite (split_token_space d) by done.
  change (" " +:+ m +:+ " " +:+ y) with (String " " (m +:+ " " +:+ y)).
  rewrite split_space by done.
  rewrite (split_token_space m) by done.
  change (" " +:+ y) with (String " " y).
  rewrite split_space by done.
  by rewrite (split_token y).
Qed.

Lemma strftime_token dt : token (strftime dt).
Proof.
  unfold strftime. apply token_app; [apply str_of_int_token |].
  split; [| done]. unfold pad2, no_space. simpl.
  rewrite !(digit_is_token_char _ _ (digit_digit_char _)). done.
Qed.

Lemma lower_token s : token s -> token (lower s).
Proof.
  intros [H1 H2]. split; [by rewrite no_space_lower |].
  by rewrite lower_eq_nil.
Qed.

Lemma parse_own_output dt : parse_indonesian_date (Str (strftime dt)) = None.
Proof.
  rewrite parse_indonesian_date_normalize. unfold normalize, tokens.
  pose proof (strftime_token dt) as Htok.
  rewrite (strip_token _ Htok).
  apply lower_token in Htok as [H1 H2]. by rewrite (split_token _ H1 H2).
Qed.

Lemma parse_result cell out :
  parse_indonesian_date cell = Some out -> exists dt, out = strftime dt.
Proof.
  destruct cell as [|s]; [done |]. unfold parse_indonesian_date.
  repeat case_match; try done;
    intros (dt & _ & ->)%fmap_Some; by exists dt.
Qed.


Lemma normalize_None text :
  normalize text = None <->
  length (tokens text) <> 3%nat \/
  exists d m y, tokens text = [d; m; y] /\
    (month_number m = None \/ calendar_date d (month_number m) y = None).
Proof.
  unfold normalize.
  destruct (tokens text) as [|d [|m [|y [|x xs]]]]; simpl;
    try (split; [intros _; left; lia | done]).
  rewrite fmap_None. split.
  - intros H. right. exists d, m, y. auto.
  - intros [H | (d' & m' & y' & [= <- <- <-] & [H | H])]; [lia | | done].
    rewrite H. unfold calendar_date. by destruct (day_number d).
Qed.

(** C10, the claim as stated fails: the normaliser maps
    "31 Desember 2024" to "2024-12-31" and rejects "2024-12-31". *)
Lemma date_normalizer_not_idempotent :
  ~ (forall text out,
       parse_indonesian_date (Str text) = Some out ->
       parse_indonesian_date (Str out) = Some out).
Proof. intros H. specialize (H "31 Desember 2024" "2024-12-31"). by vm_compute in H; specialize (H eq_refl). Qed.

(** C10, amended.  A text made of a one- or two-digit day, a month
    name of the Indonesian or the English table in any letter case and a
    four-digit year from 1000 on, joined by single blanks and denoting a
    date of the calendar, is normalised to that date as YYYY-MM-DD; and
    the normaliser rejects every text it returns, so it is not
    idempotent. *)
Theorem date_normalizer_round_trip d m y day_text month_text year_text :
  day_number day_text = Some d ->
  month_number (lower month_text) = Some m ->
  year_number year_text = Some y ->
  1000 <= y ->
  Calendar.real_date y m d ->
  parse_indonesian_date
    (Str (day_text +:+ " " +:+ month_text +:+ " " +:+ year_text))
    = Some (pad4 y +:+ "-" +:+ pad2 m +:+ "-" +:+ pad2 d) /\
  parse_indonesian_date (Str (pad4 y +:+ "-" +:+ pad2 m +:+ "-" +:+ pad2 d))
    = None /\
  (forall cell out,
     parse_indonesian_date cell = Some out ->
     parse_indonesian_date (Str out) = None).
Proof.
  intros Hd Hm Hy Hyear Hreal.
  assert (strftime (Date y m d) =
          pad4 y +:+ "-" +:+ pad2 m +:+ "-" +:+ pad2 d) as Htext.
  { unfold strftime. cbn [year month day].
    rewrite year_text_pad4; [done |]. destruct Hreal as [? _]. lia. }
  apply date_ok_real in Hreal as Hok.
  split; [| split; [rewrite <- Htext; apply parse_own_output |]].
  2:{ intros cell out [dt ->]%parse_result. apply parse_own_output. }
  rewrite <- Htext, parse_indonesian_date_normalize. unfold normalize.
  destruct (day_number_token _ _ Hd) as [Htd Hld].
  destruct (year_number_token _ _ Hy) as [Hty Hly].
  pose proof (token_lower _ (month_number_token _ _ Hm)) as Htm.
  rewrite tokens_joined, Hld, Hly by done.
  unfold calendar_date. rewrite Hd, Hm, Hy. simpl. by rewrite Hok.
Qed.

Lemma date_normalizer_round_trip_witness :
  parse_indonesian_date (Str ("31" +:+ " " +:+ "Desember" +:+ " " +:+ "2024"))
    = Some (pad4 2024 +:+ "-" +:+ pad2 12 +:+ "-" +:+ pad2 31) /\
  parse_indonesian_date (Str (pad4 2024 +:+ "-" +:+ pad2 12 +:+ "-" +:+ pad2 31))
    = None /\
  (forall cell out,
     parse_indonesian_date cell = Some out ->
     parse_indonesian_date (Str out) = None).
Proof.
  apply (date_normalizer_round_trip 31 12 2024 "31" "Desember" "2024");
    [reflexivity | reflexivity | reflexivity | lia |].
  apply date_ok_real. reflexivity.
Defined.

End date_claims.

(** ** [replace] and [in] on tokens *)

Section replace_facts.
Import Py Spec.
Context (old new : string) (Hold : token old) (Hnew : token new).

Lemma startswith_token tok r :
  at_token_end r = true -> startswith old (tok +:+ r) = startswith old tok.
Proof using Hold.
  destruct Hold as [Ho _]. clear Hold Hnew. revert tok.
  induction old as [|a o IH]; intros tok Hr; [done |].
  apply no_space_cons in Ho as [Ha Ho].
  destruct tok as [|c tok]; simpl.
  - destruct r as [|c r]; simpl in *; [done |].
    destruct (decide (a = c)) as [-> |]; [congruence | done].
  - destruct (decide (a = c)); [by apply IH | done].
Qed.

Lemma startswith_length p s :
  startswith p s = true -> (String.length p <= String.length s)%nat.
Proof.
  revert s. induction p as [|a p IH]; intros s; simpl; [lia |].
  destruct s as [|c s]; [done |]. simpl.
  destruct (decide (a = c)); [| done]. intros H%IH. lia.
Qed.

Lemma startswith_app p s : startswith p s = true -> exists b, s = p +:+ b.
Proof.
  revert s. induction p as [|a p IH]; intros s; simpl; [by exists s |].
  destruct s as [|c s]; [done |].
  destruct (decide (a = c)) as [-> |]; [| done].
  intros [b ->]%IH. by exists b.
Qed.

Lemma startswith_space c r :
  is_space c = true -> startswith old (String c r) = false.
Proof using Hold.
  destruct Hold as [Ho Hne]. destruct old as [|a o]; [done |].
  apply no_space_cons in Ho as [Ha _]. intros Hc. simpl.
  destruct (decide (a = c)) as [-> |]; [congruence | done].
Qed.

Lemma replace_scan_token k tok r :
  at_token_end r = true -> (k <= String.length tok)%nat ->
  replace_scan old new k (tok +:+ r) =
  replace_scan old new k tok +:+ replace_scan old new 0 r.
Proof using Hold.
  intros Hr. revert k. induction tok as [|c tok IH]; intros k Hk; simpl in *.
  - by replace k with 0%nat by lia.
  - destruct k as [|k]; [| apply IH; lia].
    pose proof (startswith_token (String c tok) r Hr) as Hst. simpl in Hst.
    rewrite Hst. destruct (startswith old (String c tok)) eqn:Hs.
    + apply startswith_length in Hs. simpl in Hs.
      rewrite IH by lia. by rewrite append_assoc.
    + by rewrite IH by lia.
Qed.

Lemma replace_token_app tok r :
  at_token_end r = true ->
  replace old new (tok +:+ r) = replace old new tok +:+ replace old new r.
Proof using Hold. intros Hr. apply replace_scan_token; [done | lia]. Qed.

Lemma replace_space c r :
  is_space c = true ->
  replace old new (String c r) = String c (replace old new r).
Proof using Hold.
  intros Hc. unfold replace. simpl.
  pose proof (startswith_space c r Hc) as Hs. simpl in Hs. by rewrite Hs.
Qed.

Lemma no_space_app a b :
  no_space (a +:+ b) = no_space a && no_space b.
Proof.
  unfold no_space. induction a as [|c a IH]; simpl; [done |].
  by rewrite IH, andb_assoc.
Qed.

Lemma replace_scan_no_space k tok :
  no_space tok = true -> no_space (replace_scan old new k tok) = true.
Proof using Hnew.
  destruct Hnew as [Hn _]. revert k.
  induction tok as [|c tok IH]; intros k Htok; simpl; [done |].
  apply no_space_cons in Htok as [Hc Htok].
  destruct k as [|k]; [| by apply IH].
  destruct (startswith old (String c tok)).
  - rewrite no_space_app, Hn. by apply IH.
  - apply no_space_cons. split; [done | by apply IH].
Qed.

Lemma replace_nonempty s : s <> "" -> replace old new s <> "".
Proof using Hnew.
  destruct Hnew as [_ Hne]. destruct s as [|c s]; [done |]. intros _.
  unfold replace. simpl. destruct (startswith old (String c s)); [| done].
  destruct new; [done | simpl; done].
Qed.

Lemma replace_token tok : token tok -> token (replace old new tok).
Proof using Hnew.
  intros [H1 H2]. split; [by apply replace_scan_no_space | by apply replace_nonempty].
Qed.

Lemma starts_space_replace s :
  starts_space (replace old new s) = starts_space s.
Proof using Hold Hnew.
  destruct s as [|c s]; [done |]. unfold replace. simpl.
  destruct (is_space c) eqn:Hc.
  - pose proof (startswith_space c s Hc) as Hs. simpl in Hs. rewrite Hs.
    simpl. done.
  - destruct (startswith old (String c s)); simpl; [| done].
    destruct Hnew as [Hn Hne]. destruct new as [|a n]; [done |].
    apply no_space_cons in Hn as [Ha _]. done.
Qed.

(** Splitting commutes with replacing a token by a token. *)
Lemma split_replace s :
  split (replace old new s) = map (replace old new) (split s).
Proof using Hold Hnew.
  remember (String.length s) as n eqn:Hn. revert s Hn.
  induction n as [n IH] using lt_wf_ind. intros s ->.
  destruct s as [|c s]; [done |].
  destruct (is_space c) eqn:Hc.
  - rewrite (replace_space _ _ Hc), !split_space by done.
    apply (IH (String.length s)); [simpl; lia | done].
  - destruct (first_token (String c s)) as (tok & r & Hs & Htok & Hne & Hr);
      [done | done |].
    pose proof (replace_token tok (conj Htok Hne)) as [Hrt Hrne].
    rewrite Hs, (replace_token_app _ _ Hr).
    destruct (at_token_end_cases _ Hr) as [-> | Hsr].
    + rewrite !append_nil_r. by rewrite !split_token.
    + rewrite (split_token_space tok) by done.
      rewrite (split_token_space (replace old new tok));
        [| done | done | by rewrite starts_space_replace].
      simpl. f_equal. apply (IH (String.length r)); [| done].
      rewrite Hs, length_append. destruct tok; [done | simpl; lia].
Qed.

Lemma rstrip_fixed_cons c s :
  rstrip (String c s) = String c s -> s <> "" -> rstrip s = s.
Proof.
  simpl. destruct (rstrip s) eqn:Hr.
  - destruct (is_space c); [done |]. by intros [= <-].
  - by intros [= <-].
Qed.

Lemma rstrip_cons_fixed c s :
  rstrip s = s -> s <> "" -> rstrip (String c s) = String c s.
Proof. simpl. intros ->. by destruct s. Qed.

Lemma rstrip_fixed_app a r :
  rstrip (a +:+ r) = a +:+ r -> r <> "" -> rstrip r = r.
Proof.
  intros H Hne. induction a as [|c a IH]; [done |]. apply IH.
  apply (rstrip_fixed_cons c); [done |]. destruct a; [done | done].
Qed.

Lemma rstrip_app_fixed a r :
  rstrip r = r -> r <> "" -> rstrip (a +:+ r) = a +:+ r.
Proof.
  intros H Hne. induction a as [|c a IH]; [done |].
  simpl. apply rstrip_cons_fixed; [done |]. by destruct a.
Qed.

Lemma rstrip_replace s :
  rstrip s = s -> rstrip (replace old new s) = replace old new s.
Proof using Hold Hnew.
  remember (String.length s) as n eqn:Hn. revert s Hn.
  induction n as [n IH] using lt_wf_ind. intros s -> Hfix.
  destruct s as [|c s]; [done |].
  destruct (is_space c) eqn:Hc.
  - rewrite (replace_space _ _ Hc).
    assert (s <> "") as Hne.
    { intros ->. simpl in Hfix. by rewrite Hc in Hfix. }
    apply rstrip_cons_fixed; [| by apply replace_nonempty].
    apply (IH (String.length s)); [simpl; lia | done |].
    by apply (rstrip_fixed_cons c).
  - destruct (first_token (String c s)) as (tok & r & Hs & Htok & Hne & Hr);
      [done | done |].
    pose proof (replace_token tok (conj Htok Hne)) as Hrt.
    rewrite Hs in *. rewrite (replace_token_app _ _ Hr).
    destruct (at_token_end_cases _ Hr) as [-> | Hsr].
    + rewrite !append_nil_r. pose proof (rstrip_token "" _ Hrt) as H. by simpl in H.
    + assert (r <> "") as Hrne by (by destruct r).
      apply rstrip_app_fixed; [| by apply replace_nonempty].
      apply (IH (String.length r)); [| done |].
      * rewrite length_append. destruct tok; [done | simpl; lia].
      * by apply (rstrip_fixed_app tok).
Qed.


Lemma contains_nil s : contains old s = true -> s <> "".
Proof using Hold.
  destruct Hold as [_ Hne]. destruct s; [| done]. simpl.
  destruct old; [done | done].
Qed.

Lemma contains_token_app tok r :
  at_token_end r = true ->
  contains old (tok +:+ r) = contains old tok || contains old r.
Proof using Hold.
  intros Hr. induction tok as [|c tok IH].
  - change ("" +:+ r) with r. destruct (contains old "") eqn:H; [| done].
    by apply contains_nil in H.
  - pose proof (startswith_token (String c tok) r Hr) as Hst.
    simpl in *. rewrite Hst, IH. by rewrite !orb_assoc.
Qed.

Lemma contains_space c r :
  is_space c = true -> contains old (String c r) = contains old r.
Proof using Hold.
  intros Hc. pose proof (startswith_space c r Hc) as Hs. simpl in *.
  by rewrite Hs.
Qed.

(** An occurrence of a token lies within a token of the text. *)
Lemma contains_split s :
  contains old s = true -> exists tok, tok ∈ split s /\ contains old tok = true.
Proof using Hold.
  remember (String.length s) as n eqn:Hn. revert s Hn.
  induction n as [n IH] using lt_wf_ind. intros s -> Hin.
  destruct s as [|c s]; [by apply contains_nil in Hin |].
  destruct (is_space c) eqn:Hc.
  - rewrite (contains_space _ _ Hc) in Hin. rewrite split_space by done.
    apply (IH (String.length s)); [simpl; lia | done | done].
  - destruct (first_token (String c s)) as (tok & r & Hs & Htok & Hne & Hr);
      [done | done |].
    rewrite Hs in *. rewrite (contains_token_app _ _ Hr) in Hin.
    destruct (at_token_end_cases _ Hr) as [-> | Hsr].
    + rewrite append_nil_r, split_token by done. exists tok.
      rewrite orb_true_iff in Hin. destruct Hin as [Hin | Hin].
      * split; [left | done].
      * by apply contains_nil in Hin.
    + rewrite split_token_space by done.
      rewrite orb_true_iff in Hin. destruct Hin as [Hin | Hin].
      * exists tok. split; [left | done].
      * destruct (IH (String.length r)) with (s := r) as (t & Ht & Hc');
          [| done | done |].
        -- rewrite length_append. destruct tok; [done | simpl; lia].
        -- exists t. split; [by right | done].
Qed.

Lemma contains_self_app a b : contains old (a +:+ old +:+ b) = true.
Proof.
  induction a as [|c a IH]; simpl.
  - assert (startswith old (old +:+ b) = true) as Hs.
    { clear. induction old as [|c o IH]; simpl; [done |].
      by rewrite decide_True. }
    destruct (old +:+ b); simpl in *; by rewrite Hs.
  - by rewrite IH, orb_true_r.
Qed.

(** Every token of the text occurs in the text. *)
Lemma contains_of_split s : old ∈ split s -> contains old s = true.
Proof using Hold.
  remember (String.length s) as n eqn:Hn. revert s Hn.
  induction n as [n IH] using lt_wf_ind. intros s -> Hin.
  destruct s as [|c s]; [by apply elem_of_nil in Hin |].
  destruct (is_space c) eqn:Hc.
  - rewrite split_space in Hin by done. rewrite (contains_space _ _ Hc).
    apply (IH (String.length s)); [simpl; lia | done | done].
  - destruct (first_token (String c s)) as (tok & r & Hs & Htok & Hne & Hr);
      [done | done |].
    rewrite Hs in *. rewrite (contains_token_app _ _ Hr).
    destruct (at_token_end_cases _ Hr) as [-> | Hsr].
    + rewrite append_nil_r, split_token in Hin by done.
      apply list_elem_of_singleton in Hin as <-.
      pose proof (contains_self_app "" "") as H. simpl in H.
      rewrite append_nil_r in H. by rewrite H.
    + rewrite split_token_space in Hin by done.
      apply elem_of_cons in Hin as [<- | Hin].
      * pose proof (contains_self_app "" "") as H. simpl in H.
        rewrite append_nil_r in H. by rewrite H.
      * rewrite (IH (String.length r)) with (s := r); [by rewrite orb_true_r | | done | done].
        rewrite length_append. destruct tok; [done | simpl; lia].
Qed.

Lemma replace_not_contains s :
  contains old s = false -> replace old new s = s.
Proof.
  unfold replace. induction s as [|c s IH]; [done |].
  intros [H1 H2]%orb_false_elim. simpl in *. rewrite H1. by rewrite IH.
Qed.

Lemma replace_scan_skip (o n : string) x b :
  replace_scan o n (String.length x) (x +:+ b) = replace_scan o n 0 b.
Proof. induction x as [|c x IH]; simpl; [done | apply IH]. Qed.

(** The first occurrence is replaced, and the text before it kept. *)
Lemma replace_contains s :
  contains old s = true ->
  exists a b, s = a +:+ old +:+ b /\
    replace old new s = a +:+ new +:+ replace old new b.
Proof using Hold.
  unfold replace. induction s as [|c s IH]; intros Hin.
  { by apply contains_nil in Hin. }
  destruct (startswith old (String c s)) eqn:Hs.
  - destruct (startswith_app _ _ Hs) as [b Hb]. exists "", b.
    split; [done |]. simpl. rewrite Hs. f_equal.
    destruct Hold as [_ Hne]. destruct old as [|a o]; [done |].
    simpl in Hb. injection Hb as -> ->. simpl. rewrite Nat.sub_0_r.
    apply replace_scan_skip.
  - simpl in Hin. simpl in Hs. rewrite Hs in Hin. simpl in Hin.
    destruct (IH Hin) as (a & b & -> & Hrep). exists (String c a), b.
    split; [done |]. simpl in *. by rewrite Hs, Hrep.
Qed.

End replace_facts.

(** ** The date normaliser of insert_schedules.py *)

Section schedules_date.
Import Py Spec Datetime.
Local Open Scope Z_scope.
#[local] Arguments dict_get : simpl never.

Lemma numeral_from_nondigit acc a c r :
  digit c = None -> numeral_from acc (a +:+ String c r) = None.
Proof.
  intros Hc. revert acc. induction a as [|c' a IH]; intros acc; simpl.
  - by rewrite Hc.
  - destruct (digit c'); [apply IH | done].
Qed.

Lemma numeral_nondigit a c r : digit c = None -> numeral (a +:+ String c r) = None.
Proof.
  intros Hc. unfold numeral.
  destruct (a +:+ String c r) eqn:H; [done |]. rewrite <- H.
  by apply numeral_from_nondigit.
Qed.

Lemma numeral_not_contains old s :
  word old -> numeral s <> None -> contains old s = false.
Proof.
  intros [Hold (c & r & -> & Hc)] Hnum.
  destruct (contains (String c r) s) eqn:Hin; [| done].
  destruct (replace_contains _ "" Hold s Hin) as (a & b & -> & _).
  simpl in Hnum. by rewrite numeral_nondigit in Hnum.
Qed.

Lemma numeral_replace old new s :
  word old -> word new -> numeral (replace old new s) = numeral s.
Proof.
  intros [Hold Ho] [Hnew (c & r & -> & Hc)].
  destruct (contains old s) eqn:Hin.
  - destruct (replace_contains _ (String c r) Hold s Hin) as (a & b & -> & ->).
    destruct Ho as (c' & r' & -> & Hc').
    simpl. by rewrite !numeral_nondigit.
  - by rewrite replace_not_contains.
Qed.

Lemma length_replace_numeral old new s :
  word old -> word new -> numeral s <> None ->
  replace old new s = s.
Proof.
  intros Hold Hnew Hnum. apply replace_not_contains.
  by apply numeral_not_contains.
Qed.

Lemma day_number_replace old new s :
  word old -> word new -> day_number (replace old new s) = day_number s.
Proof.
  intros Hold Hnew. unfold day_number.
  destruct (numeral s) eqn:Hnum.
  - rewrite length_replace_numeral by (done || congruence). by rewrite Hnum.
  - pose proof (numeral_replace old new s Hold Hnew) as H. rewrite Hnum in H.
    rewrite H. by repeat case_match.
Qed.

Lemma year_number_replace old new s :
  word old -> word new -> year_number (replace old new s) = year_number s.
Proof.
  intros Hold Hnew. unfold year_number.
  destruct (numeral s) eqn:Hnum.
  - rewrite length_replace_numeral by (done || congruence). by rewrite Hnum.
  - pose proof (numeral_replace old new s Hold Hnew) as H. rewrite Hnum in H.
    rewrite H. by repeat case_match.
Qed.

Lemma numeral_from_lower acc s : numeral_from acc (lower s) = numeral_from acc s.
Proof.
  revert acc. induction s as [|c s IH]; intros acc; simpl; [done |].
  rewrite digit_lower_char. destruct (digit c); [apply IH | done].
Qed.

Lemma numeral_lower s : numeral (lower s) = numeral s.
Proof.
  unfold numeral. destruct s as [|c s]; [done |].
  change (lower (String c s)) with (String (lower_char c) (lower s)).
  by rewrite <- (numeral_from_lower 0 (String c s)).
Qed.

Lemma calendar_date_lower d m y :
  calendar_date (lower d) m (lower y) = calendar_date d m y.
Proof.
  unfold calendar_date, day_number, year_number.
  by rewrite !length_lower, !numeral_lower.
Qed.

Lemma calendar_date_replace old new d m y :
  word old -> word new ->
  calendar_date (replace old new d) m (replace old new y) = calendar_date d m y.
Proof.
  intros Hold Hnew. unfold calendar_date.
  by rewrite day_number_replace, year_number_replace.
Qed.

Lemma replace_self old new : token old -> replace old new old = new.
Proof.
  intros Hold.
  pose proof (contains_self_app old "" "") as Hin. simpl in Hin.
  rewrite append_nil_r in Hin.
  destruct (replace_contains old new Hold old Hin) as (a & b & Heq & ->).
  assert (String.length old = String.length (a +:+ old +:+ b)) as Hlen
    by congruence.
  rewrite !length_append in Hlen.
  destruct a; [| simpl in Hlen; lia]. destruct b; [| simpl in Hlen; lia].
  simpl. by rewrite append_nil_r.
Qed.


Ltac table_cases H :=
  repeat (apply elem_of_cons in H as [H | H]; [injection H as -> -> |]);
  [.. | by apply elem_of_nil in H].

Lemma indonesian_entry ind eng :
  (ind, eng) ∈ insert_schedules.INDONESIAN_MONTHS ->
  word ind /\ word eng /\ lower ind = ind /\
  dict_get english_months (lower eng) = month_number ind /\
  dict_get indonesian_months ind <> None.
Proof.
  unfold insert_schedules.INDONESIAN_MONTHS. intros H.
  table_cases H; unfold word, token;
    repeat split; first [done | by repeat eexists].
Qed.

Lemma indonesian_name m k :
  dict_get indonesian_months m = Some k ->
  exists eng, (m, eng) ∈ insert_schedules.INDONESIAN_MONTHS.
Proof.
  unfold indonesian_months, insert_schedules.INDONESIAN_MONTHS, dict_get.
  repeat (case_decide;
    [subst; intros _; eexists;
     solve [repeat first [apply list_elem_of_here | apply list_elem_of_further]] |]).
  done.
Qed.

Lemma english_month_number m k :
  dict_get english_months m = Some k -> month_number m = Some k.
Proof.
  unfold month_number.
  unfold english_months, dict_get at 1.
  repeat (case_decide; [subst; by intros [= <-] |]). done.
Qed.

(** No Indonesian month name lies within another one. *)
Lemma indonesian_contained ind eng m k :
  (ind, eng) ∈ insert_schedules.INDONESIAN_MONTHS ->
  dict_get indonesian_months m = Some k ->
  contains ind m = true -> m = ind.
Proof.
  unfold insert_schedules.INDONESIAN_MONTHS. intros H.
  unfold indonesian_months, dict_get.
  table_cases H;
    repeat (case_decide; [subst; intros _; by vm_compute |]); done.
Qed.

(** No English month name lies within another one. *)
Lemma english_contained ind eng name k :
  (ind, eng) ∈ insert_schedules.INDONESIAN_MONTHS ->
  dict_get english_months name = Some k ->
  contains (lower eng) name = true -> name = lower eng.
Proof.
  unfold insert_schedules.INDONESIAN_MONTHS. intros H.
  unfold english_months, dict_get.
  table_cases H;
    repeat (case_decide; [subst; intros _; by vm_compute |]); done.
Qed.

Lemma app_eq_self (x e y : string) : x +:+ e +:+ y = e -> x = "" /\ y = "".
Proof.
  intros H. assert (String.length (x +:+ e +:+ y) = String.length e) as Hlen
    by congruence.
  rewrite !length_append in Hlen.
  destruct x; [| simpl in Hlen; lia]. destruct y; [done | simpl in Hlen; lia].
Qed.

Lemma replace_month_cases months text :
  (insert_schedules.replace_month months text = text /\
   Forall (fun entry => contains entry.1 text = false) months) \/
  (exists ind eng, (ind, eng) ∈ months /\ contains ind text = true /\
     insert_schedules.replace_month months text = replace ind eng text).
Proof.
  induction months as [|[ind eng] months IH]; simpl; [by left |].
  destruct (contains ind text) eqn:Hin.
  - right. exists ind, eng. split; [left | done].
  - destruct IH as [[H1 H2] | (i & e & H1 & H2 & H3)].
    + left. split; [done |]. by constructor.
    + right. exists i, e. split; [by right | done].
Qed.

(** The month read at the first try, at the second try, and the month
    of the contract. *)
Lemma calendar_date_choice d y (first second contract : option Z) :
  (forall k, first = Some k -> contract = Some k) ->
  (forall k, second = Some k -> contract = Some k) ->
  (forall k, second = None -> contract = Some k ->
     day_number d <> None -> year_number y <> None -> first = Some k) ->
  match calendar_date d first y with
  | Some dt => Some dt
  | None => calendar_date d second y
  end = calendar_date d contract y.
Proof.
  intros H1 H2 H3. unfold calendar_date in *.
  destruct (day_number d) as [dv|]; simpl; [| done].
  destruct (year_number y) as [yv|]; simpl.
  2:{ destruct first, second, contract; done. }
  destruct first as [k1|], second as [k2|]; simpl.
  - pose proof (H1 k1 eq_refl) as Hc. pose proof (H2 k2 eq_refl) as Hc'.
    rewrite Hc in Hc'. injection Hc' as <-. rewrite Hc. simpl.
    by destruct (date_ok yv k1 dv).
  - rewrite (H1 k1 eq_refl). simpl. by destruct (date_ok yv k1 dv).
  - by rewrite (H2 k2 eq_refl).
  - destruct contract as [k|]; [| done].
    by specialize (H3 k eq_refl eq_refl ltac:(done) ltac:(done)).
Qed.


Lemma day_number_numeral d : day_number d <> None -> numeral d <> None.
Proof. unfold day_number. by case_match. Qed.

Lemma year_number_numeral y : year_number y <> None -> numeral y <> None.
Proof. unfold year_number. by case_match. Qed.

Lemma strip_fixed s : strip s = s -> starts_space s = false /\ rstrip s = s.
Proof.
  intros H. split.
  - rewrite <- H. apply strip_starts.
  - rewrite <- H. apply rstrip_strip.
Qed.

Lemma month_unreplaced text d m y :
  split text = [d; m; y] ->
  Forall (fun entry => contains entry.1 text = false)
    insert_schedules.INDONESIAN_MONTHS ->
  dict_get english_months m = None -> month_number m = None.
Proof.
  intros Hsplit Hall Heng. unfold month_number. rewrite Heng.
  destruct (dict_get indonesian_months m) as [k|] eqn:Hind; [| done].
  destruct (indonesian_name _ _ Hind) as [eng Hin].
  rewrite Forall_forall in Hall. specialize (Hall _ Hin). simpl in Hall.
  destruct (indonesian_entry _ _ Hin) as ([Htok _] & _).
  rewrite contains_of_split in Hall; [done | done |].
  rewrite Hsplit. apply list_elem_of_further, list_elem_of_here.
Qed.

Lemma month_replaced_first ind eng m k :
  (ind, eng) ∈ insert_schedules.INDONESIAN_MONTHS ->
  lower m = m ->
  dict_get english_months (lower (replace ind eng m)) = Some k ->
  month_number m = Some k.
Proof.
  intros Hin Hlow Hfirst.
  destruct (indonesian_entry _ _ Hin) as ([Hti Hwi] & [Hte Hwe] & _ & Hnum & _).
  destruct (contains ind m) eqn:Hc.
  - destruct (replace_contains ind eng Hti m Hc) as (a & b & Hm & Hrep).
    rewrite Hrep, !lower_app in Hfirst.
    pose proof (english_contained _ _ _ _ Hin Hfirst
                  (contains_self_app _ _ _)) as Heq.
    apply app_eq_self in Heq as [Ha Hb].
    apply (proj1 (lower_eq_nil _)) in Ha. apply (proj1 (lower_eq_nil _)) in Hb.
    subst a.
    assert (b = "") as ->.
    { destruct (decide (b = "")) as [| Hne]; [done |].
      by apply (replace_nonempty ind eng Hte) in Hne. }
    simpl in Hm. rewrite append_nil_r in Hm. subst m.
    change (replace ind eng "") with "" in Hfirst. simpl in Hfirst.
    rewrite append_nil_r in Hfirst. by rewrite <- Hnum.
  - rewrite replace_not_contains, Hlow in Hfirst by done.
    by apply english_month_number.
Qed.

Lemma month_replaced_second ind eng text d m y k :
  (ind, eng) ∈ insert_schedules.INDONESIAN_MONTHS ->
  split text = [d; m; y] -> contains ind text = true ->
  dict_get english_months m = None -> month_number m = Some k ->
  day_number d <> None -> year_number y <> None ->
  dict_get english_months (lower (replace ind eng m)) = Some k.
Proof.
  intros Hin Hsplit Hc Heng Hnum Hd Hy.
  destruct (indonesian_entry _ _ Hin) as (Hwi & Hwe & _ & Hentry & _).
  unfold month_number in Hnum. rewrite Heng in Hnum.
  destruct (dict_get indonesian_months m) as [k'|] eqn:Hind; [| done].
  destruct (contains_split ind (proj1 Hwi) text Hc) as (tok & Htok & Hct).
  rewrite Hsplit in Htok.
  assert (tok = m) as ->.
  { apply elem_of_cons in Htok as [-> | Htok].
    { rewrite numeral_not_contains in Hct; [done | done |].
      by apply day_number_numeral. }
    apply elem_of_cons in Htok as [-> | Htok]; [done |].
    apply list_elem_of_singleton in Htok as ->.
    rewrite numeral_not_contains in Hct; [done | done |].
    by apply year_number_numeral. }
  pose proof (indonesian_contained _ _ _ _ Hin Hind Hct) as ->.
  rewrite replace_self by apply Hwi. rewrite Hentry.
  unfold month_number. by rewrite Hind.
Qed.

(** On a text without blanks around it the normaliser of
    insert_schedules.py is the normaliser of the contract. *)
Lemma schedules_normalize s :
  strip s = s -> insert_schedules.parse_indonesian_date s = normalize s.
Proof.
  intros Hstrip. destruct (strip_fixed _ Hstrip) as [Hstart Hfix].
  unfold insert_schedules.parse_indonesian_date, normalize, tokens.
  destruct (decide (s = "")) as [-> | _]; [done |].
  rewrite Hstrip.
  assert (forall first : option date,
    match first with
    | Some date_obj => Some (strftime date_obj)
    | None =>
        match strptime s with
        | Some date_obj => Some (strftime date_obj)
        | None => None
        end
    end = strftime <$> match first with
                       | Some dt => Some dt
                       | None => strptime s
                       end) as -> by (by intros [dt|]; [| destruct (strptime s)]).
  rewrite (strptime_split s) by done.
  pose proof (split_tokens (lower s)) as Htok.
  pose proof (split_lower s) as Hlow.
  destruct (replace_month_cases insert_schedules.INDONESIAN_MONTHS (lower s))
    as [[-> Hall] | (ind & eng & Hin & Hc & ->)].
  - rewrite (strptime_split (lower s))
      by (by rewrite ?starts_space_lower, ?rstrip_lower, ?Hfix).
    rewrite Hlow in *.
    destruct (split s) as [|d [|m [|y [|x xs]]]]; simpl; try done.
    f_equal. rewrite lower_idem, <- (calendar_date_lower d _ y).
    apply calendar_date_choice.
    + apply english_month_number.
    + apply english_month_number.
    + intros k Heng Hnum _ _.
      by rewrite (month_unreplaced _ _ _ _ Hlow Hall Heng) in Hnum.
  - destruct (indonesian_entry _ _ Hin) as (Hwi & Hwe & _).
    rewrite (strptime_split (replace ind eng (lower s))).
    2:{ rewrite starts_space_replace by (apply Hwi || apply Hwe).
        by rewrite starts_space_lower. }
    2:{ apply rstrip_replace; [apply Hwi | apply Hwe |].
        by rewrite rstrip_lower, Hfix. }
    rewrite split_replace by (apply Hwi || apply Hwe).
    rewrite Hlow in *.
    destruct (split s) as [|d [|m [|y [|x xs]]]]; simpl; try done.
    f_equal. rewrite calendar_date_replace by done.
    rewrite <- (calendar_date_lower d (dict_get english_months (lower m)) y).
    apply calendar_date_choice.
    + intros k. apply month_replaced_first; [done | apply lower_idem].
    + apply english_month_number.
    + intros k. by apply (month_replaced_second _ _ (lower s) (lower d) _ (lower y)).
Qed.

End schedules_date.

(** ** The two date normalisers *)

Section date_normalizers.
Import Py Spec Datetime.
Import insert_participants.
Local Open Scope Z_scope.

Lemma strip_idem s : strip (strip s) = strip s.
Proof.
  unfold strip at 1. rewrite (lstrip_id _ (strip_starts s)).
  apply rstrip_strip.
Qed.

Lemma normalize_strip text : normalize (strip text) = normalize text.
Proof. unfold normalize, tokens. by rewrite strip_idem. Qed.

(** C2, the claim as stated fails: a blank after the date makes the
    parser of insert_schedules.py give up where the parser of
    insert_participants.py answers. *)
Lemma date_parsers_differ :
  insert_schedules.parse_indonesian_date "31 Desember 2024 " = None /\
  parse_indonesian_date (Str "31 Desember 2024 ") = Some "2024-12-31".
Proof. by vm_compute. Qed.

(** C2, amended.  On every text without leading or trailing blanks,
    which is how process_csv_data hands the dates over, the two
    implementations of parse_indonesian_date return the same result. *)
Theorem date_parsers_agree text :
  strip text = text ->
  insert_schedules.parse_indonesian_date text =
  parse_indonesian_date (Str text).
Proof.
  intros Hstrip.
  by rewrite schedules_normalize, parse_indonesian_date_normalize.
Qed.

Lemma date_parsers_agree_witness :
  insert_schedules.parse_indonesian_date "31 Desember 2024" =
  parse_indonesian_date (Str "31 Desember 2024").
Proof. apply (date_parsers_agree "31 Desember 2024"). reflexivity. Defined.

End date_normalizers.

(** ** The category classifier *)

Section classifier.
Import Py Re Classifier insert_programs.

Lemma last_is_word_from_app prev a b :
  last_is_word_from prev (a +:+ b) = last_is_word_from (last_is_word_from prev a) b.
Proof. revert prev. induction a as [|c a IH]; intros prev; simpl; [done | apply IH]. Qed.

Lemma match_literal_spec prev kw s p r :
  match_literal prev kw s = Some (p, r) <->
  s = kw +:+ r /\ p = last_is_word_from prev kw.
Proof.
  revert prev s. induction kw as [|k kw IH]; intros prev s; simpl.
  - split; [by intros [= -> ->] | by intros [-> ->]].
  - destruct s as [|c s]; [split; [done | by intros [? _]] |].
    destruct (decide (k = c)) as [-> | Hne].
    + rewrite IH. split; intros [H1 H2]; [by subst | by injection H1 as ->].
    + split; [done | intros [[= ? _] _]; done].
Qed.

Lemma match_word_at_spec prev kw s :
  match_word_at prev kw s = true <->
  exists post, s = kw +:+ post /\
    prev <> first_is_word (kw +:+ post) /\
    last_is_word_from prev kw <> first_is_word post.
Proof.
  unfold match_word_at, at_boundary. rewrite andb_true_iff. split.
  - intros [H1 H2].
    destruct (match_literal prev kw s) as [[p r]|] eqn:Hlit; [| done].
    apply match_literal_spec in Hlit as [-> ->]. exists r.
    split; [done |]. split.
    + by destruct prev, (first_is_word (kw +:+ r)).
    + by destruct (last_is_word_from prev kw), (first_is_word r).
  - intros (post & -> & H1 & H2).
    assert (match_literal prev kw (kw +:+ post)
            = Some (last_is_word_from prev kw, post)) as ->
      by (by apply match_literal_spec).
    split.
    + by destruct prev, (first_is_word (kw +:+ post)).
    + by destruct (last_is_word_from prev kw), (first_is_word post).
Qed.

Lemma search_word_from_spec prev kw s :
  search_word_from prev kw s = true <->
  exists pre post, s = pre +:+ kw +:+ post /\
    last_is_word_from prev pre <> first_is_word (kw +:+ post) /\
    last_is_word_from prev (pre +:+ kw) <> first_is_word post.
Proof.
  revert prev. induction s as [|c s IH]; intros prev; simpl;
    rewrite orb_true_iff, match_word_at_spec.
  - split.
    + intros [(post & Hs & H1 & H2) | ?]; [| done]. by exists "", post.
    + intros (pre & post & Hs & H1 & H2). left.
      destruct pre; [by exists post | done].
  - rewrite IH. split.
    + intros [(post & Hs & H1 & H2) | (pre & post & -> & H1 & H2)].
      * by exists "", post.
      * by exists (String c pre), post.
    + intros (pre & post & Hs & H1 & H2). destruct pre as [|c' pre].
      * left. by exists post.
      * right. injection Hs as -> ->. by exists pre, post.
Qed.

(** [re.search] with the pattern of [predict_category] finds the
    keyword exactly when it occurs between two word boundaries. *)
Lemma search_word_spec kw name :
  search_word kw name = true <-> whole_word kw name.
Proof. apply search_word_from_spec. Qed.

Lemma any_keyword_spec name keywords category :
  existsb (fun keyword => search_word keyword name) keywords = true <->
  rule_matches whole_word name (category, keywords).
Proof.
  unfold rule_matches. simpl. induction keywords as [|kw kws IH]; simpl.
  - split; [done | intros (kw & H & _); by apply elem_of_nil in H].
  - rewrite orb_true_iff, IH, search_word_spec. split.
    + intros [H | (kw' & H1 & H2)].
      * exists kw. split; [left | done].
      * exists kw'. split; [by right | done].
    + intros (kw' & [-> | H1]%elem_of_cons & H2); [by left |].
      right. by exists kw'.
Qed.

Lemma predict_category_first_match name rules :
  first_match whole_word name rules (predict_category name rules).
Proof.
  split.
  - intros pre category keywords post -> Hpre Hrule.
    induction Hpre as [|[cat kws] pre Hno _ IH]; simpl.
    + apply (any_keyword_spec name keywords category) in Hrule.
      by rewrite Hrule.
    + destruct (existsb _ kws) eqn:Hany; [| done].
      by apply (any_keyword_spec name kws cat) in Hany.
  - intros Hall. induction Hall as [|[cat kws] rules Hno _ IH]; simpl; [done |].
    destruct (existsb _ kws) eqn:Hany; [| done].
    by apply (any_keyword_spec name kws cat) in Hany.
Qed.


Lemma app_inj_length (a b a' b' : string) :
  a +:+ b = a' +:+ b' -> String.length a = String.length a' ->
  a = a' /\ b = b'.
Proof.
  revert a'. induction a as [|c a IH]; intros [|c' a']; simpl; try done.
  intros [= -> H] [= Hlen]. destruct (IH _ H Hlen) as [-> ->]. done.
Qed.

Lemma whole_word_lower_case kw name :
  lower kw = kw -> lower name = name ->
  whole_word_ignoring_case kw name <-> whole_word kw name.
Proof.
  intros Hkw Hname. split.
  - intros (pre & mid & post & -> & Hmid & H1 & H2).
    rewrite !lower_app in Hname.
    apply app_inj_length in Hname as [_ Hname]; [| apply length_lower].
    apply app_inj_length in Hname as [Hname _]; [| apply length_lower].
    rewrite Hname, Hkw in Hmid. subst mid. by exists pre, post.
  - intros (pre & post & -> & H1 & H2). by exists pre, kw, post.
Qed.

(** C8, the claim as stated fails: the keyword "Excel" occurs in
    "excel" as a whole word when letter case is ignored, and the
    classifier answers "Uncategorized". *)
Lemma classifier_is_case_sensitive :
  ~ first_match whole_word_ignoring_case "excel" [("IT", ["Excel"])]
      (predict_category "excel" [("IT", ["Excel"])]).
Proof.
  intros [H _].
  specialize (H [] "IT" ["Excel"] [] eq_refl (Forall_nil_2 _)).
  assert (rule_matches whole_word_ignoring_case "excel" ("IT", ["Excel"])) as Hm.
  { exists "Excel". split; [left |]. by exists "", "excel", "". }
  by specialize (H Hm).
Qed.

(** C8, amended.  The classifier returns the first category, in the
    order of the rule list, that has a keyword occurring in the name
    between two word boundaries with the same letter case, together with
    the identifier CATEGORY_IDS has for it, and ("Uncategorized", None)
    when no rule has one; on a name in lower case a keyword in lower case
    matches this way exactly when it matches with letter case ignored;
    the result is a function of the name and the rule list. *)
Theorem classifier_first_match name rules :
  first_match whole_word name rules (predict_category name rules) /\
  (forall kw, lower kw = kw -> lower name = name ->
     whole_word_ignoring_case kw name <-> whole_word kw name) /\
  (forall result result',
     result = predict_category name rules ->
     result' = predict_category name rules -> result = result') /\
  predict_category "training microsoft excel level basic" [("IT", ["excel"])]
    = ("IT", Some 5%Z).
Proof.
  split; [apply predict_category_first_match |].
  split; [intros kw; apply whole_word_lower_case |].
  split; [congruence | reflexivity].
Qed.

End classifier.

(** ** The program reconciler *)

Section program_reconciler.
Import Py insert_programs.
Variable slugify : string -> string.

Lemma process_program_exists existing rules name :
  lower (strip name) ∈ existing ->
  process_program slugify existing rules name =
  {| program_name := name; status := "Exists"; predicted_category := "N/A";
     predicted_category_id := None; action := "Skip";
     slug := slugify (strip name) |}.
Proof. intros Hin. unfold process_program. by rewrite decide_True. Qed.

Lemma process_program_new existing rules name :
  lower (strip name) ∉ existing ->
  let prediction := predict_category (lower (strip name)) rules in
  process_program slugify existing rules name =
  {| program_name := name; status := "New";
     predicted_category := prediction.1;
     predicted_category_id :=
       if decide (prediction.1 = "Uncategorized") then None else prediction.2;
     action := "Insert";
     slug := slugify (strip name) |}.
Proof.
  intros Hin. unfold process_program. rewrite decide_False by done.
  by destruct (predict_category _ rules) as [cat id].
Qed.

(** C3. process_programs returns one decision per candidate, in the
    order of the candidates: the decision of a candidate whose stripped,
    lower-cased name is in the snapshot is Exists / Skip, and the
    decision of any other candidate is New / Insert with the category
    predict_category gives for the normalised name; the decision list is
    a function of the candidates and the snapshot. *)
Theorem process_programs_decisions new_programs existing rules category_ids :
  let report := process_programs slugify new_programs existing rules category_ids in
  length report = length new_programs /\
  (forall i name, new_programs !! i = Some name ->
     exists item, report !! i = Some item /\ program_name item = name /\
       (lower (strip name) ∈ existing ->
        status item = "Exists" /\ action item = "Skip") /\
       (lower (strip name) ∉ existing ->
        status item = "New" /\ action item = "Insert" /\
        predicted_category item =
          (predict_category (lower (strip name)) rules).1)) /\
  (forall report',
     report' = process_programs slugify new_programs existing rules category_ids ->
     report' = report) /\
  map status
    (process_programs slugify ["Training CMA"; "New Course X"]
       {[ "training cma" ]} config.RULES config.CATEGORY_IDS)
    = ["Exists"; "New"].
Proof.
  unfold process_programs. split; [apply length_map |].
  split; [| split; [done | by vm_compute]].
  intros i name Hi. eexists. split.
  { rewrite list_lookup_fmap, Hi. reflexivity. }
  split.
  { unfold process_program. by repeat case_match. }
  split; intros Hin.
  - by rewrite process_program_exists.
  - by rewrite process_program_new.
Qed.

End program_reconciler.

(** ** The schedule groups *)

Section schedule_groups.
Import insert_schedules Groups.

Lemma has_key_spec key (grouped_data : list ((string * string) * CsvItem.t)) :
  has_key key grouped_data = true <-> key ∈ grouped_data.*1.
Proof.
  unfold has_key. induction grouped_data as [|[k item] g IH]; simpl.
  - split; [done | by intros ?%elem_of_nil].
  - rewrite orb_true_iff, IH, bool_decide_eq_true, elem_of_cons. simpl.
    split; intros [H | H]; auto.
Qed.

Lemma group_csv_data_fold data :
  group_csv_data data = fold_left group_step data [].
Proof. reflexivity. Qed.

(** What the loop adds to the dictionary. *)
Lemma group_fold_spec data acc :
  NoDup (acc.*1) ->
  exists added,
    fold_left group_step data acc = acc ++ added /\
    NoDup ((acc ++ added).*1) /\
    (forall key, key ∈ added.*1 <->
       (key ∉ acc.*1) /\ key ∈ map key_of data) /\
    (forall key item, (key, item) ∈ added -> first_with_key data key item).
Proof.
  revert acc. induction data as [|item data IH]; intros acc Hacc; simpl.
  { exists []. rewrite app_nil_r. split; [done |]. split; [done |].
    split; [| by intros ?? ?%elem_of_nil].
    intros key. split; [by intros ?%elem_of_nil | by intros [_ ?%elem_of_nil]]. }
  unfold group_step at 2.
  destruct (has_key (key_of item) acc) eqn:Hkey.
  - apply has_key_spec in Hkey.
    destruct (IH acc Hacc) as (added & Hfold & Hnd & Hkeys & Hfirst).
    exists added. split; [done |]. split; [done |]. split.
    + intros key. rewrite Hkeys, elem_of_cons. split.
      * intros [H1 H2]. auto.
      * intros [H1 [-> | H2]]; [done | auto].
    + intros key it Hin. destruct (Hfirst key it Hin) as (b & a & -> & Hk & Hb).
      exists (item :: b), a. split; [done |]. split; [done |].
      constructor; [| done]. intros Heq.
      assert (key ∈ added.*1) as Hka.
      { apply list_elem_of_fmap. by exists (key, it). }
      apply Hkeys in Hka as [Hka _]. by rewrite <- Heq in Hka.
  - assert (key_of item ∉ acc.*1) as Hnot.
    { intros H%has_key_spec. congruence. }
    assert (NoDup ((acc ++ [(key_of item, item)]).*1)) as Hacc'.
    { rewrite fmap_app. apply NoDup_app. split; [done |]. split.
      - intros k Hk ->%list_elem_of_singleton. done.
      - apply NoDup_singleton. }
    destruct (IH _ Hacc') as (added & Hfold & Hnd & Hkeys & Hfirst).
    exists ((key_of item, item) :: added).
    rewrite <- app_assoc in Hfold, Hnd. simpl in *.
    split; [done |]. split; [done |]. split.
    + intros key. rewrite !elem_of_cons, Hkeys, fmap_app, elem_of_app.
      simpl. rewrite list_elem_of_singleton. split.
      * intros [-> | [H1 H2]]; [auto |]. split; [tauto | auto].
      * intros [H1 [-> | H2]]; [by left |].
        destruct (decide (key = key_of item)) as [-> |]; [by left |].
        right. split; [tauto | done].
    + intros key it [[= -> ->] | Hin]%elem_of_cons.
      * exists [], data. by repeat split.
      * destruct (Hfirst key it Hin) as (b & a & -> & Hk & Hb).
        exists (item :: b), a. split; [done |]. split; [done |].
        constructor; [| done]. intros Heq.
        assert (key ∈ added.*1) as Hka.
        { apply list_elem_of_fmap. by exists (key, it). }
        apply Hkeys in Hka as [Hka _]. apply Hka.
        rewrite fmap_app, elem_of_app. right. simpl.
        apply list_elem_of_singleton. done.
Qed.


(** C4. group_csv_data keeps one group per raw (program, start-date text)
    key: the keys of the groups are pairwise different and are exactly
    the keys of the rows, the row of a group is the first row with its
    key (so the end dates of later rows with the key are not used), and
    process_schedules returns one decision per group, at the position of
    the group; the number of decisions is the number of distinct raw
    keys. *)
Theorem schedule_groups_collapse data programs_data existing_schedules :
  let grouped_data := group_csv_data data in
  let decisions :=
    process_schedules grouped_data programs_data existing_schedules in
  NoDup (grouped_data.*1) /\
  (forall key, key ∈ grouped_data.*1 <-> key ∈ map key_of data) /\
  (forall item, item ∈ data ->
     exists i, grouped_data.*1 !! i = Some (key_of item) /\
       forall j, grouped_data.*1 !! j = Some (key_of item) -> j = i) /\
  (forall key item, (key, item) ∈ grouped_data -> first_with_key data key item) /\
  (forall i, decisions !! i =
     process_schedule programs_data existing_schedules <$> grouped_data !! i) /\
  length decisions =
    size (list_to_set (map key_of data) : gset (string * string)).
Proof.
  intros grouped_data decisions.
  destruct (group_fold_spec data [] (NoDup_nil_2))
    as (added & Hfold & Hnd & Hkeys & Hfirst).
  simpl in Hfold, Hnd.
  assert (grouped_data = added) as Hg by (by rewrite <- Hfold).
  assert (forall key, key ∈ grouped_data.*1 <-> key ∈ map key_of data) as Hk.
  { intros key. rewrite Hg, Hkeys. split; [tauto |].
    intros H. split; [by intros ?%elem_of_nil | done]. }
  split; [by rewrite Hg |]. split; [done |]. split.
  { intros item Hin.
    assert (key_of item ∈ grouped_data.*1) as Hkey.
    { apply Hk. apply list_elem_of_fmap. by exists item. }
    apply list_elem_of_lookup in Hkey as [i Hi]. exists i. split; [done |].
    intros j Hj. rewrite Hg in Hi, Hj. apply (NoDup_lookup _ _ _ _ Hnd Hj Hi). }
  split; [by rewrite Hg |]. split.
  { intros i. unfold decisions, process_schedules. apply list_lookup_fmap. }
  unfold decisions, process_schedules. rewrite length_map.
  rewrite <- (length_fmap fst grouped_data).
  rewrite <- (size_list_to_set (C := gset (string * string)))
    by (by rewrite Hg).
  f_equal. apply set_eq. intros key. rewrite !elem_of_list_to_set. apply Hk.
Qed.

End schedule_groups.

(** ** The participant reconciler *)

Section participant_reconciler.
Import Py insert_participants Participants.
Context (programs_map : gmap string ProgramData)
        (schedules_map : gmap (Z * string) Z).

Lemma process_row_report existing st row :
  report (process_row programs_map schedules_map existing st row) =
  report st ++ [report_item programs_map schedules_map existing row].
Proof.
  unfold process_row, report_item, resolve, outcome, pending_item,
    participant_name_of, program_name_of.
  repeat case_match; simplify_eq; try done.
Qed.

Lemma process_row_statements existing st row :
  exists added,
    sql_statements (process_row programs_map schedules_map existing st row) =
    sql_statements st ++ added.
Proof.
  unfold process_row.
  repeat case_match; simpl;
    first [exists []; by rewrite app_nil_r | by eexists].
Qed.

Lemma fold_report existing df st :
  report (fold_left (process_row programs_map schedules_map existing) df st) =
  report st ++ map (report_item programs_map schedules_map existing) df.
Proof.
  revert st. induction df as [|row df IH]; intros st; simpl.
  - by rewrite app_nil_r.
  - rewrite IH, process_row_report. by rewrite <- app_assoc.
Qed.

Lemma row_items_map existing df :
  row_items df programs_map schedules_map existing =
  map (report_item programs_map schedules_map existing) df.
Proof. unfold row_items, run. by rewrite fold_report. Qed.

Lemma fold_statements existing df st :
  exists added,
    sql_statements
      (fold_left (process_row programs_map schedules_map existing) df st) =
    sql_statements st ++ added.
Proof.
  revert st. induction df as [|row df IH]; intros st; simpl.
  - exists []. by rewrite app_nil_r.
  - destruct (IH (process_row programs_map schedules_map existing st row))
      as [added' ->].
    destruct (process_row_statements existing st row) as [added ->].
    exists (added ++ added'). by rewrite app_assoc.
Qed.


Lemma generate_sql_report existing df i row :
  df !! i = Some row ->
  (generate_sql df programs_map schedules_map existing).2 !! i =
  Some (report_item programs_map schedules_map existing row).
Proof.
  intros Hi. unfold generate_sql. simpl.
  fold (row_items df programs_map schedules_map existing).
  rewrite row_items_map, lookup_app_l.
  - by rewrite list_lookup_fmap, Hi.
  - rewrite length_map. by apply lookup_lt_Some in Hi.
Qed.

Lemma status_report_item existing row :
  status (report_item programs_map schedules_map existing row) =
  (outcome existing (resolve programs_map schedules_map row)).1.
Proof. reflexivity. Qed.

Lemma outcome_to_insert existing resolution :
  (outcome existing resolution).1 = "To Be Inserted" ->
  exists schedule_id name_lower,
    resolution = Resolved schedule_id name_lower /\
    (schedule_id, name_lower) ∉ existing.
Proof.
  destruct resolution as [| | |schedule_id name_lower]; simpl; try done.
  case_decide; [done |]. intros _. by exists schedule_id, name_lower.
Qed.

Lemma outcome_other_key existing key resolution :
  (forall schedule_id name_lower,
     resolution = Resolved schedule_id name_lower ->
     (schedule_id, name_lower) <> key) ->
  outcome (existing ∪ {[ key ]}) resolution = outcome existing resolution.
Proof.
  intros Hkey. destruct resolution as [| | |schedule_id name_lower]; simpl;
    try done.
  specialize (Hkey _ _ eq_refl).
  repeat case_decide; try done.
  - apply elem_of_union in H as [H | H%elem_of_singleton]; done.
  - exfalso. apply H. apply elem_of_union. by left.
Qed.

(** C5, amended.  When the row at position [i] is reported To Be
    Inserted under the snapshot [existing], it resolves to a schedule id
    and a lower-cased participant name; under the snapshot that has this
    key as well, the row and every other row that resolves to the same
    key are reported Skipped, and the report item of every row that does
    not resolve to this key is unchanged. *)
Theorem rerun_skips_inserted df existing i row :
  df !! i = Some row ->
  status <$> (generate_sql df programs_map schedules_map existing).2 !! i
    = Some "To Be Inserted" ->
  exists schedule_id,
    let key := (schedule_id, lower (participant_name_of row)) in
    let report' :=
      (generate_sql df programs_map schedules_map (existing ∪ {[ key ]})).2 in
    resolve programs_map schedules_map row = Resolved key.1 key.2 /\
    (key ∉ existing) /\
    status <$> report' !! i = Some "Skipped" /\
    (forall j other, df !! j = Some other ->
       resolve programs_map schedules_map other = Resolved key.1 key.2 ->
       status <$> report' !! j = Some "Skipped") /\
    (forall j other, df !! j = Some other ->
       resolve programs_map schedules_map other <> Resolved key.1 key.2 ->
       report' !! j =
       (generate_sql df programs_map schedules_map existing).2 !! j).
Proof.
  intros Hi Hstatus.
  rewrite (generate_sql_report _ _ _ _ Hi) in Hstatus.
  assert ((outcome existing (resolve programs_map schedules_map row)).1
          = "To Be Inserted") as Hout by (by injection Hstatus).
  apply outcome_to_insert in Hout as (schedule_id & name_lower & Hres & Hnew).
  assert (name_lower = lower (participant_name_of row)) as ->.
  { unfold resolve in Hres. repeat case_match; by simplify_eq. }
  exists schedule_id. cbv zeta. cbn [fst snd].
  assert (forall j other, df !! j = Some other ->
    resolve programs_map schedules_map other =
      Resolved schedule_id (lower (participant_name_of row)) ->
    status <$>
      (generate_sql df programs_map schedules_map
         (existing ∪ {[(schedule_id, lower (participant_name_of row))]})).2 !! j
    = Some "Skipped") as Hsame.
  { intros j other Hj Hother. rewrite (generate_sql_report _ _ _ _ Hj).
    change (Some
      (outcome (existing ∪ {[(schedule_id, lower (participant_name_of row))]})
         (resolve programs_map schedules_map other)).1 = Some "Skipped").
    rewrite Hother. simpl.
    rewrite decide_True; [done |].
    apply elem_of_union. right. by apply elem_of_singleton. }
  split; [done |]. split; [done |]. split; [by apply (Hsame i row) |].
  split; [done |].
  intros j other Hj Hother. rewrite !(generate_sql_report _ _ _ _ Hj).
  f_equal. unfold report_item. rewrite outcome_other_key; [done |].
  intros sid nl Hres' [= -> ->]. done.
Qed.

End participant_reconciler.

Section participant_examples.
Import Py insert_participants Participants.

Lemma rerun_skips_inserted_witness :
  exists schedule_id,
    let key := (schedule_id, lower (participant_name_of example_row)) in
    let report' :=
      (generate_sql [example_row] example_programs example_schedules
         (∅ ∪ {[ key ]})).2 in
    resolve example_programs example_schedules example_row
      = Resolved key.1 key.2 /\
    (key ∉ (∅ : gset (Z * string))) /\
    status <$> report' !! 0%nat = Some "Skipped" /\
    (forall j other, [example_row] !! j = Some other ->
       resolve example_programs example_schedules other = Resolved key.1 key.2 ->
       status <$> report' !! j = Some "Skipped") /\
    (forall j other, [example_row] !! j = Some other ->
       resolve example_programs example_schedules other <> Resolved key.1 key.2 ->
       report' !! j =
       (generate_sql [example_row] example_programs example_schedules ∅).2 !! j).
Proof.
  apply (rerun_skips_inserted example_programs example_schedules
           [example_row] ∅ 0 example_row).
  - reflexivity.
  - vm_compute. reflexivity.
Defined.

(** C5, the claim as stated fails: of two rows for the same participant
    and schedule, both reported To Be Inserted, the second one is
    reported Skipped as well once the key of the first one is in the
    snapshot. *)
Lemma rerun_changes_duplicate_row :
  let df := [example_row; example_row] in
  let before := (generate_sql df example_programs example_schedules ∅).2 in
  let after :=
    (generate_sql df example_programs example_schedules {[ (7%Z, "ani") ]}).2 in
  status <$> before !! 0%nat = Some "To Be Inserted" /\
  status <$> before !! 1%nat = Some "To Be Inserted" /\
  status <$> after !! 0%nat = Some "Skipped" /\
  status <$> after !! 1%nat = Some "Skipped".
Proof. vm_compute. done. Qed.

End participant_examples.

(** ** Certificate references and malformed rows *)

Section certificate_reference.
Import Py insert_participants Participants Malformed.

(** C6, the claim as stated fails: a row with the number "001" and a
    blank [ket] has exactly one non-empty column, and its certificate
    reference is empty. *)
Lemma certificate_ref_drops_lone_number :
  strip (str (No example_numbered_row)) = "001" /\
  strip (str (ket example_numbered_row)) = "" /\
  certificate_ref_of example_numbered_row = "".
Proof. by vm_compute. Qed.

(** C6, amended.  The certificate reference of a row is its stripped
    [No] text followed by its stripped [ket] text when both are
    non-empty, and its stripped [ket] text otherwise: the [ket] text when
    [No] is empty, and the empty string whenever [ket] is empty; the
    report item of the row carries this reference, empty or not. *)
Theorem certificate_reference row :
  let no_value := strip (str (No row)) in
  let ket_value := strip (str (ket row)) in
  (no_value <> "" -> ket_value <> "" ->
   certificate_ref_of row = no_value +:+ ket_value) /\
  (no_value = "" -> certificate_ref_of row = ket_value) /\
  (ket_value = "" -> certificate_ref_of row = "") /\
  (forall programs_map schedules_map existing df i,
     df !! i = Some row ->
     certificate_ref <$>
       (generate_sql df programs_map schedules_map existing).2 !! i
     = Some (certificate_ref_of row)).
Proof.
  cbv zeta. split; [| split; [| split]].
  - intros H1 H2. unfold certificate_ref_of. by rewrite decide_True.
  - intros H1. unfold certificate_ref_of. rewrite decide_False; [done | tauto].
  - intros H1. unfold certificate_ref_of.
    rewrite decide_False; [done | tauto].
  - intros pm sm existing df i Hi.
    by rewrite (generate_sql_report _ _ _ _ _ _ Hi).
Qed.

End certificate_reference.

Section malformed_rows.
Import Py Malformed.




End malformed_rows.

(** ** The script builders *)

Section script_builders.
Import Py Script.

Lemma join_snoc sep lines line :
  lines <> [] -> join sep (lines ++ [line]) = join sep lines +:+ sep +:+ line.
Proof.
  induction lines as [|x lines IH]; [done |]. intros _.
  destruct lines as [|y lines]; [done |].
  change (join sep ((x :: y :: lines) ++ [line]))
    with (x +:+ sep +:+ join sep ((y :: lines) ++ [line])).
  rewrite IH by done.
  change (join sep (x :: y :: lines)) with (x +:+ sep +:+ join sep (y :: lines)).
  by rewrite !append_assoc.
Qed.

Lemma join_cons sep line lines :
  lines <> [] -> join sep (line :: lines) = line +:+ sep +:+ join sep lines.
Proof. by destruct lines. Qed.

Lemma last_commit (lines : list string) : last (lines ++ ["COMMIT;"]) = Some "COMMIT;".
Proof. apply last_snoc. Qed.

(** The shape of the scripts of insert_programs.py and
    insert_schedules.py: three comment entries, the opening statement,
    the body, the commit. *)
Lemma header_script now output_path_hint body :
  let lines :=
    [ "-- Generated by certificates-data-entry-tools";
      "-- Date: " +:+ now;
      "-- Output target: " +:+ output_path_hint;
      "START TRANSACTION;";
      "" ] ++ body ++ [ "COMMIT;" ] in
  atomic lines /\
  (exists back,
     join newline lines =
     "-- Generated by certificates-data-entry-tools" +:+ newline +:+
     ("-- Date: " +:+ now) +:+ newline +:+
     ("-- Output target: " +:+ output_path_hint) +:+ newline +:+
     "START TRANSACTION;" +:+ back) /\
  (exists front, join newline lines = front +:+ "COMMIT;").
Proof.
  intros lines. split; [split |].
  - reflexivity.
  - unfold lines. rewrite !app_assoc. apply last_commit.
  - split.
    + eexists. unfold lines. cbn [app].
      rewrite !join_cons by done. reflexivity.
    + unfold lines. rewrite app_assoc, join_snoc by done.
      eexists. rewrite <- append_assoc. reflexivity.
Qed.

(** C7. Every script the three builders return has START TRANSACTION as
    its first statement (in insert_programs.py and insert_schedules.py
    three comment lines precede it, in insert_participants.py it is the
    first line), has COMMIT as its last line, and has no INSERT statement
    when the decision list is empty. *)
Theorem scripts_are_atomic :
  (forall now programs_to_insert output_path_hint,
     let lines := insert_programs.sql_lines now programs_to_insert output_path_hint in
     let script :=
       insert_programs.generate_sql_script now programs_to_insert
         output_path_hint in
     script = join newline lines /\ atomic lines /\
     (exists back,
        script =
        "-- Generated by certificates-data-entry-tools" +:+ newline +:+
        ("-- Date: " +:+ now) +:+ newline +:+
        ("-- Output target: " +:+ output_path_hint) +:+ newline +:+
        "START TRANSACTION;" +:+ back) /\
     (exists front, script = front +:+ "COMMIT;") /\
     mutation_statements (insert_programs.sql_lines now [] output_path_hint) = []) /\
  (forall now schedules_to_insert output_path_hint,
     let lines :=
       insert_schedules.sql_lines now schedules_to_insert output_path_hint in
     let script :=
       insert_schedules.generate_sql_script now schedules_to_insert
         output_path_hint in
     script = join newline lines /\ atomic lines /\
     (exists back,
        script =
        "-- Generated by certificates-data-entry-tools" +:+ newline +:+
        ("-- Date: " +:+ now) +:+ newline +:+
        ("-- Output target: " +:+ output_path_hint) +:+ newline +:+
        "START TRANSACTION;" +:+ back) /\
     (exists front, script = front +:+ "COMMIT;") /\
     mutation_statements (insert_schedules.sql_lines now [] output_path_hint) = []) /\
  (forall df programs_map schedules_map existing,
     let state := insert_participants.run df programs_map schedules_map existing in
     let lines := insert_participants.sql_statements state ++ [ "COMMIT;" ] in
     let script :=
       (insert_participants.generate_sql df programs_map schedules_map
          existing).1 in
     script = join newline lines /\ atomic lines /\
     (exists back, script = "START TRANSACTION;" +:+ back) /\
     (exists front, script = front +:+ "COMMIT;") /\
     (insert_participants.generate_sql [] programs_map schedules_map existing).1
       = "START TRANSACTION;" +:+ newline +:+ "COMMIT;").
Proof.
  split; [| split].
  - intros now decisions hint lines script.
    destruct (header_script now hint
                (flat_map insert_programs.program_statements decisions))
      as (Hatomic & Hback & Hfront).
    split; [done |]. split; [exact Hatomic |]. split; [exact Hback |].
    split; [exact Hfront | reflexivity].
  - intros now decisions hint lines script.
    destruct (header_script now hint
                (flat_map insert_schedules.schedule_statements decisions))
      as (Hatomic & Hback & Hfront).
    split; [done |]. split; [exact Hatomic |]. split; [exact Hback |].
    split; [exact Hfront | reflexivity].
  - intros df pm sm existing state lines script.
    destruct (fold_statements pm sm existing df insert_participants.initial)
      as [added Hadded].
    assert (lines = "START TRANSACTION;" :: added ++ ["COMMIT;"]) as Hlines.
    { unfold lines, state, insert_participants.run. by rewrite Hadded. }
    split; [done |]. rewrite Hlines.
    split; [split; [done |] |].
    { rewrite app_comm_cons. apply last_commit. }
    split; [| split; [| done]].
    + unfold script, insert_participants.generate_sql. simpl.
      fold state. fold lines. rewrite Hlines.
      rewrite join_cons by (by destruct added). by eexists.
    + unfold script, insert_participants.generate_sql. simpl.
      fold state. fold lines. rewrite Hlines.
      rewrite app_comm_cons, join_snoc by done.
      eexists. rewrite <- append_assoc. reflexivity.
Qed.

End script_builders.

(** ** permutation.py: what [permutate] returns *)

Section permutations.
Import permutation.

Lemma insert_copy_Permutation i x p : insert_copy i x p ≡ₚ x :: p.
Proof.
  unfold insert_copy. rewrite <- Permutation_middle.
  by rewrite take_drop.
Qed.

Lemma elem_of_flat_map {A B} (f : A -> list B) (l : list A) y :
  y ∈ flat_map f l <-> exists x, x ∈ l /\ y ∈ f x.
Proof.
  induction l as [|x l IH]; simpl.
  - split; [by intros ?%elem_of_nil | by intros (x & ?%elem_of_nil & _)].
  - rewrite elem_of_app, IH. split.
    + intros [H | (x' & H1 & H2)]; [exists x; split; [left | done] |].
      exists x'. split; [by right | done].
    + intros (x' & [-> | H1]%elem_of_cons & H2); [by left |].
      right. by exists x'.
Qed.

Lemma elem_of_permutate_cons x s p :
  p ∈ permutate (x :: s) <->
  exists q i, q ∈ permutate s /\ i <= length q /\ p = insert_copy i x q.
Proof.
  simpl. rewrite elem_of_flat_map. split.
  - intros (q & Hq & Hp). apply list_elem_of_fmap in Hp as (i & -> & Hi).
    apply elem_of_seq in Hi. exists q, i. split; [done |]. split; [lia | done].
  - intros (q & i & Hq & Hi & ->). exists q. split; [done |].
    apply list_elem_of_fmap. exists i. split; [done |].
    apply elem_of_seq. lia.
Qed.

Lemma permutate_sound s p : p ∈ permutate s -> p ≡ₚ s.
Proof.
  revert p. induction s as [|x s IH]; intros p.
  - by intros ->%list_elem_of_singleton.
  - intros (q & i & Hq & _ & ->)%elem_of_permutate_cons.
    rewrite insert_copy_Permutation. by rewrite (IH q Hq).
Qed.

Lemma permutate_complete s p : p ≡ₚ s -> p ∈ permutate s.
Proof.
  revert p. induction s as [|x s IH]; intros p Hp.
  - apply Permutation_nil_r in Hp as ->. by apply list_elem_of_singleton.
  - assert (x ∈ p) as Hx by (rewrite Hp; left).
    apply list_elem_of_split in Hx as (l1 & l2 & ->).
    apply elem_of_permutate_cons. exists (l1 ++ l2), (length l1).
    split; [| split].
    + apply IH. symmetry. apply Permutation_cons_app_inv with x. by symmetry.
    + rewrite length_app. lia.
    + unfold insert_copy. by rewrite take_app_length, drop_app_length.
Qed.

Lemma insert_copy_length i x p : length (insert_copy i x p) = S (length p).
Proof.
  unfold insert_copy. rewrite length_app. simpl.
  rewrite length_take, length_drop. lia.
Qed.

Lemma insert_copy_lookup i x p : i <= length p -> insert_copy i x p !! i = Some x.
Proof.
  intros Hi. unfold insert_copy.
  rewrite lookup_app_r by (rewrite length_take; lia).
  rewrite length_take. by replace (i - i `min` length p) with 0 by lia.
Qed.

Lemma insert_copy_lookup_lt i j x p :
  i < j -> j <= length p -> insert_copy j x p !! i = p !! i.
Proof.
  intros Hij Hj. unfold insert_copy.
  rewrite lookup_app_l by (rewrite length_take; lia).
  by rewrite lookup_take_lt.
Qed.

Lemma filter_ne_id (x : string) (p : list string) :
  x ∉ p -> filter (fun y => y <> x) p = p.
Proof.
  induction p as [|y p IH]; [done |].
  intros [Hy Hp]%not_elem_of_cons.
  rewrite filter_cons_True by done. by rewrite IH.
Qed.

Lemma insert_copy_filter i x p :
  x ∉ p -> filter (fun y => y <> x) (insert_copy i x p) = p.
Proof.
  intros Hx. unfold insert_copy.
  rewrite filter_app, filter_cons_False by (by intros ?).
  rewrite <- filter_app, take_drop.
  by apply filter_ne_id.
Qed.

Lemma insert_copy_inj_pos i j x p :
  x ∉ p -> i <= length p -> j <= length p ->
  insert_copy i x p = insert_copy j x p -> i = j.
Proof.
  intros Hx Hi Hj Heq.
  destruct (Nat.lt_trichotomy i j) as [Hlt | [-> | Hlt]]; [| done |].
  - exfalso. apply Hx.
    pose proof (insert_copy_lookup i x p Hi) as H1.
    rewrite Heq, insert_copy_lookup_lt in H1 by done.
    by eapply list_elem_of_lookup_2.
  - exfalso. apply Hx.
    pose proof (insert_copy_lookup j x p Hj) as H1.
    rewrite <- Heq, insert_copy_lookup_lt in H1 by done.
    by eapply list_elem_of_lookup_2.
Qed.

Lemma NoDup_flat_map {A B} (f : A -> list B) (l : list A) :
  (forall x1 x2 y, x1 ∈ l -> x2 ∈ l -> y ∈ f x1 -> y ∈ f x2 -> x1 = x2) ->
  (forall x, x ∈ l -> NoDup (f x)) -> NoDup l -> NoDup (flat_map f l).
Proof.
  intros Hinj Hf Hl. induction Hl as [|x l Hx Hl IH]; simpl; [constructor |].
  apply NoDup_app. split; [apply Hf; left |]. split.
  - intros y Hy (x' & Hx' & Hy')%elem_of_flat_map.
    apply Hx. by rewrite (Hinj x x' y) by (done || by left || by right).
  - apply IH.
    + intros x1 x2 y H1 H2. apply Hinj; by right.
    + intros x' Hx'. apply Hf. by right.
Qed.

Lemma length_flat_map_const {A B} (f : A -> list B) (l : list A) n :
  (forall x, x ∈ l -> length (f x) = n) -> length (flat_map f l) = length l * n.
Proof.
  intros Hf. induction l as [|x l IH]; simpl; [done |].
  rewrite length_app, Hf, IH; [lia | | left].
  intros y Hy. apply Hf. by right.
Qed.

(** X1. [permutate] returns exactly the rearrangements of its argument: a
    list is among the results if and only if it is a permutation of [s]. *)
Theorem permutate_spec (s p : list string) : p ∈ permutate s <-> p ≡ₚ s.
Proof.
  split; [apply permutate_sound | apply permutate_complete].
Qed.

(** X2. [permutate] returns [n!] lists for an argument of [n] elements,
    whether or not the elements are distinct. *)
Theorem permutate_length (s : list string) :
  length (permutate s) = fact (length s).
Proof.
  induction s as [|x s IH]; [done |].
  cbn [permutate]. rewrite (length_flat_map_const _ _ (S (length s))).
  - rewrite IH. cbn [length fact]. lia.
  - intros q Hq%permutate_sound%Permutation_length.
    rewrite length_map, length_seq. lia.
Qed.

(** X3. On distinct elements no rearrangement is returned twice. *)
Theorem permutate_NoDup (s : list string) : NoDup s -> NoDup (permutate s).
Proof.
  induction 1 as [|x s Hx Hs IH]; [apply NoDup_singleton |].
  cbn [permutate]. apply NoDup_flat_map; [| | done].
  - intros q1 q2 p Hq1 Hq2 H1 H2.
    apply list_elem_of_fmap in H1 as (i & -> & _).
    apply list_elem_of_fmap in H2 as (j & Heq & _).
    apply permutate_sound in Hq1, Hq2.
    apply (f_equal (filter (fun y => y <> x))) in Heq.
    rewrite !insert_copy_filter in Heq; [done | |].
    + by rewrite Hq2.
    + by rewrite Hq1.
  - intros q Hq. apply permutate_sound in Hq.
    apply NoDup_fmap_2_strong; [| apply NoDup_seq].
    intros i j Hi%elem_of_seq Hj%elem_of_seq Heq.
    apply (insert_copy_inj_pos i j x q); [by rewrite Hq | lia | lia | done].
Qed.

Lemma permutate_NoDup_witness :
  NoDup ["a"; "b"; "c"] /\ NoDup (permutate ["a"; "b"; "c"]).
Proof.
  assert (NoDup ["a"; "b"; "c"]) as H by (by apply (bool_decide_unpack _)).
  split; [exact H | exact (permutate_NoDup _ H)].
Defined.

End permutations.

(** ** insert_participants.py: the counters and the statements of a run *)

Section participant_counts.
Import Py insert_participants Participants Counts Script.
Context (programs_map : gmap string ProgramData)
        (schedules_map : gmap (Z * string) Z)
        (existing : gset (Z * string)).

Lemma count_status_app s items items' :
  count_status s (items ++ items') = (count_status s items + count_status s items')%Z.
Proof. unfold count_status. rewrite filter_app, length_app. lia. Qed.

Lemma count_status_cons s item items :
  count_status s (item :: items) =
  (count_status s [item] + count_status s items)%Z.
Proof. apply (count_status_app s [item] items). Qed.

Lemma count_status_singleton s item :
  count_status s [item] = if decide (status item = s) then 1%Z else 0%Z.
Proof.
  unfold count_status. destruct (decide (status item = s)) as [H | H].
  - by rewrite filter_cons_True.
  - by rewrite filter_cons_False.
Qed.

Lemma mutation_statements_app lines lines' :
  mutation_statements (lines ++ lines') =
  mutation_statements lines ++ mutation_statements lines'.
Proof.
  induction lines as [|line lines IH]; [done |]. simpl.
  case_match; [| done]. by rewrite IH.
Qed.

Lemma process_row_step st row :
  let st' := process_row programs_map schedules_map existing st row in
  let item := report_item programs_map schedules_map existing row in
  status item ∈ ["To Be Inserted"; "Skipped"; "Not Found"] /\
  processed_count st' = (processed_count st + 1)%Z /\
  inserted_count st' = (inserted_count st + count_status "To Be Inserted" [item])%Z /\
  skipped_count st' = (skipped_count st + count_status "Skipped" [item])%Z /\
  not_found_count st' = (not_found_count st + count_status "Not Found" [item])%Z /\
  exists added,
    sql_statements st' = sql_statements st ++ added /\
    Z.of_nat (length added) = (3 * count_status "To Be Inserted" [item])%Z /\
    Z.of_nat (length (mutation_statements added)) =
      (2 * count_status "To Be Inserted" [item])%Z.
Proof.
  unfold process_row, report_item, resolve, outcome, pending_item,
    participant_name_of, program_name_of.
  repeat case_match; simplify_eq; cbn.
  all: (split; [repeat first [apply list_elem_of_here | apply list_elem_of_further] |]).
  all: (split; [done |]).
  all: unfold count_status; cbn.
  all: repeat (case_decide; [try done | try done]); cbn.
  all: repeat (split; [lia |]).
  all: first [ exists nil; split; [by rewrite app_nil_r | done]
             | eexists; split; [reflexivity | done] ].
Qed.

Lemma fold_step df st :
  let st' := fold_left (process_row programs_map schedules_map existing) df st in
  let items := map (report_item programs_map schedules_map existing) df in
  Forall (fun item => status item ∈ ["To Be Inserted"; "Skipped"; "Not Found"])
    items /\
  processed_count st' = (processed_count st + Z.of_nat (length items))%Z /\
  inserted_count st' = (inserted_count st + count_status "To Be Inserted" items)%Z /\
  skipped_count st' = (skipped_count st + count_status "Skipped" items)%Z /\
  not_found_count st' = (not_found_count st + count_status "Not Found" items)%Z /\
  exists added,
    sql_statements st' = sql_statements st ++ added /\
    Z.of_nat (length added) = (3 * count_status "To Be Inserted" items)%Z /\
    Z.of_nat (length (mutation_statements added)) =
      (2 * count_status "To Be Inserted" items)%Z.
Proof.
  revert st. induction df as [|row df IH]; intros st.
  - cbn. change (count_status _ []) with 0%Z.
    split_and!; try first [done | lia].
    exists nil. by rewrite app_nil_r.
  - destruct (process_row_step st row)
      as (Hs & Hp & Hi & Hk & Hn & added & Ha & Hl & Hm).
    destruct (IH (process_row programs_map schedules_map existing st row))
      as (Hs' & Hp' & Hi' & Hk' & Hn' & added' & Ha' & Hl' & Hm').
    cbn [fold_left map]. cbv zeta.
    rewrite (count_status_cons "To Be Inserted"), (count_status_cons "Skipped"),
      (count_status_cons "Not Found").
    split; [by constructor |].
    rewrite Hp', Hi', Hk', Hn', Hp, Hi, Hk, Hn. cbn [length].
    split_and!; try lia.
    exists (added ++ added'). rewrite Ha', Ha, <- app_assoc.
    split; [done |]. rewrite mutation_statements_app, !length_app. lia.
Qed.

Lemma statuses_partition items :
  Forall (fun item => status item ∈ ["To Be Inserted"; "Skipped"; "Not Found"])
    items ->
  Z.of_nat (length items) =
  (count_status "To Be Inserted" items + count_status "Skipped" items +
   count_status "Not Found" items)%Z.
Proof.
  induction 1 as [|item items Hitem _ IH]; [done |].
  rewrite (count_status_cons "To Be Inserted"), (count_status_cons "Skipped"),
    (count_status_cons "Not Found").
  cbn [length]. rewrite Nat2Z.inj_succ, IH, !count_status_singleton.
  apply elem_of_cons in Hitem as [Hitem | Hitem];
    [| apply elem_of_cons in Hitem as [Hitem | Hitem%list_elem_of_singleton]].
  all: rewrite Hitem.
  all: repeat (case_decide; [try done | try done]); lia.
Qed.

(** X4. The report [generate_sql] returns is one item per row of the data
    frame, in order, followed by one summary item.  Every row item has
    left the Pending status for To Be Inserted, Skipped or Not Found, and
    the four numbers of the summary are the number of rows and the numbers
    of items with each of these statuses, which add up to the number of
    rows. *)
Theorem report_summary_counts (df : list Row) :
  let report := (generate_sql df programs_map schedules_map existing).2 in
  let items := map (report_item programs_map schedules_map existing) df in
  report = items ++ [summary_of items] /\
  Forall (fun item => status item ∈ ["To Be Inserted"; "Skipped"; "Not Found"])
    items /\
  Z.of_nat (length df) =
  (count_status "To Be Inserted" items + count_status "Skipped" items +
   count_status "Not Found" items)%Z.
Proof.
  intros report items.
  destruct (fold_step df initial) as (Hs & Hp & Hi & Hk & Hn & _).
  fold items in Hs, Hp, Hi, Hk, Hn.
  split; [| split; [done |]].
  - unfold report, generate_sql. cbv zeta. cbn [snd].
    fold (row_items df programs_map schedules_map existing).
    rewrite row_items_map. fold items. f_equal. f_equal.
    unfold summary_item, summary_of, run. by rewrite Hp, Hi, Hk, Hn.
  - rewrite <- (statuses_partition items Hs). unfold items.
    by rewrite length_map.
Qed.

(** X5. The script [generate_sql] returns has, between START TRANSACTION
    and COMMIT, three lines for every row reported To Be Inserted and none
    for any other row; two of the three are INSERT statements. *)
Theorem script_statement_count (df : list Row) :
  let script := (generate_sql df programs_map schedules_map existing).1 in
  let items := map (report_item programs_map schedules_map existing) df in
  exists body,
    script = join newline ("START TRANSACTION;" :: body ++ ["COMMIT;"]) /\
    Z.of_nat (length body) = (3 * count_status "To Be Inserted" items)%Z /\
    Z.of_nat (length (mutation_statements body)) =
      (2 * count_status "To Be Inserted" items)%Z.
Proof.
  intros script items.
  destruct (fold_step df initial) as (_ & _ & _ & _ & _ & body & Hb & Hl & Hm).
  exists body. split; [| done].
  unfold script, generate_sql, run. cbv zeta. cbn [fst]. by rewrite Hb.
Qed.

(** X6. When no row is reported To Be Inserted, the script is the empty
    transaction. *)
Theorem nothing_to_insert_script (df : list Row) :
  Forall (fun row =>
            status (report_item programs_map schedules_map existing row)
            <> "To Be Inserted") df ->
  (generate_sql df programs_map schedules_map existing).1 =
  "START TRANSACTION;" +:+ newline +:+ "COMMIT;".
Proof.
  intros Hnone.
  destruct (fold_step df initial) as (_ & _ & _ & _ & _ & body & Hb & Hl & _).
  assert (count_status "To Be Inserted"
            (map (report_item programs_map schedules_map existing) df) = 0%Z)
    as Hzero.
  { clear Hb Hl. induction Hnone as [|row df Hrow _ IH]; [done |].
    cbn [map]. rewrite count_status_cons, IH, count_status_singleton.
    by rewrite decide_False. }
  rewrite Hzero in Hl. destruct body as [|line body]; [| simpl in Hl; lia].
  unfold generate_sql, run. cbv zeta. cbn [fst]. by rewrite Hb.
Qed.

End participant_counts.

Section participant_counts_examples.
Import Py insert_participants Participants.

Lemma nothing_to_insert_script_witness :
  Forall (fun row =>
            status (report_item example_programs example_schedules
                      {[ (7%Z, "ani") ]} row)
            <> "To Be Inserted") [example_row] /\
  (generate_sql [example_row] example_programs example_schedules
     {[ (7%Z, "ani") ]}).1 =
  "START TRANSACTION;" +:+ newline +:+ "COMMIT;".
Proof.
  assert (Forall (fun row =>
            status (report_item example_programs example_schedules
                      {[ (7%Z, "ani") ]} row)
            <> "To Be Inserted") [example_row]) as H.
  { constructor; [| constructor]. vm_compute. discriminate. }
  split; [exact H |].
  exact (nothing_to_insert_script example_programs example_schedules
           {[ (7%Z, "ani") ]} [example_row] H).
Defined.

End participant_counts_examples.

(** ** The scripts: escaping, the filter of the main blocks and line counts *)

Section escaping.
Import Py Sql.

Lemma replace_quote c s :
  replace "'" "''" (String c s) =
  if decide (c = "'"%char) then String "'" (String "'" (replace "'" "''" s))
  else String c (replace "'" "''" s).
Proof.
  unfold replace. simpl.
  destruct (decide ("'"%char = c)) as [<- | Hne].
  - by rewrite decide_True.
  - by rewrite decide_False by (by intros ->).
Qed.

(** X7. The escaping of the script builders doubles every single quote:
    read back as a literal with doubled quotes, the escaped text is the
    original text, so a quote of the name never ends the literal. *)
Theorem escaped_text_reads_back (s : string) :
  literal_text (replace "'" "''" s) = Some s.
Proof.
  induction s as [|c s IH]; [done |].
  rewrite replace_quote. destruct (decide (c = "'"%char)) as [-> | Hne].
  - cbn [literal_text]. rewrite !decide_True by done. by rewrite IH.
  - cbn [literal_text]. rewrite decide_False by done. by rewrite IH.
Qed.

End escaping.

Section builder_counts.
Import Py Script main.

Lemma flat_map_filter {A B} (P : A -> Prop) `{forall x, Decision (P x)}
    (f : A -> list B) (l : list A) :
  (forall x, ~ P x -> f x = []) ->
  flat_map f (filter P l) = flat_map f l.
Proof.
  intros Hf. induction l as [|x l IH]; [done |].
  destruct (decide (P x)) as [Hx | Hx].
  - rewrite filter_cons_True by done. simpl. by rewrite IH.
  - rewrite filter_cons_False by done. simpl. by rewrite IH, Hf.
Qed.

Lemma program_statements_skip p :
  ~ (insert_programs.action p = "Insert" /\
     insert_programs.predicted_category_id p <> None) ->
  insert_programs.program_statements p = [].
Proof.
  intros Hp. unfold insert_programs.program_statements.
  destruct (insert_programs.predicted_category_id p) as [id|]; [| done].
  case_decide; [| done]. exfalso. apply Hp. by split.
Qed.

Lemma program_statements_count p :
  insert_programs.action p = "Insert" ->
  insert_programs.predicted_category_id p <> None ->
  length (insert_programs.program_statements p) = 5 /\
  length (mutation_statements (insert_programs.program_statements p)) = 2.
Proof.
  intros Ha Hid. unfold insert_programs.program_statements.
  destruct (insert_programs.predicted_category_id p) as [id|]; [| done].
  rewrite decide_True by done. split; [done |]. reflexivity.
Qed.

Lemma programs_body_count report :
  length (flat_map insert_programs.program_statements report) =
    5 * length (programs_to_insert report) /\
  length (mutation_statements
            (flat_map insert_programs.program_statements report)) =
    2 * length (programs_to_insert report).
Proof.
  unfold programs_to_insert. induction report as [|p report [IH1 IH2]]; [done |].
  cbn [flat_map]. rewrite mutation_statements_app, !length_app, IH1, IH2.
  destruct (decide (insert_programs.action p = "Insert" /\
                    insert_programs.predicted_category_id p <> None))
    as [[Ha Hid] | Hp].
  - rewrite filter_cons_True by done.
    destruct (program_statements_count p Ha Hid) as [-> ->]. simpl. lia.
  - rewrite filter_cons_False by done.
    rewrite (program_statements_skip p Hp). simpl. lia.
Qed.

(** X8. In insert_programs.py the filter of the main block changes
    nothing: the builder skips the same decisions, so the script is the
    same with or without it.  The script has six lines and five more for
    every decision with action Insert and a category id, two of which
    are INSERT statements. *)
Theorem programs_script_counts now report hint :
  insert_programs.generate_sql_script now (programs_to_insert report) hint =
    insert_programs.generate_sql_script now report hint /\
  length (insert_programs.sql_lines now report hint) =
    6 + 5 * length (programs_to_insert report) /\
  length (mutation_statements (insert_programs.sql_lines now report hint)) =
    2 * length (programs_to_insert report).
Proof.
  destruct (programs_body_count report) as [H1 H2].
  split; [| split].
  - unfold insert_programs.generate_sql_script, insert_programs.sql_lines,
      programs_to_insert.
    rewrite flat_map_filter; [done |]. apply program_statements_skip.
  - unfold insert_programs.sql_lines. rewrite !length_app, H1. simpl. lia.
  - unfold insert_programs.sql_lines.
    rewrite !mutation_statements_app, !length_app, H2.
    change (mutation_statements ["COMMIT;"]) with (@nil string).
    assert (forall a b, mutation_statements
              [ "-- Generated by certificates-data-entry-tools";
                "-- Date: " +:+ a; "-- Output target: " +:+ b;
                "START TRANSACTION;"; "" ] = []) as -> by done.
    simpl. lia.
Qed.

Lemma schedule_statements_skip s :
  insert_schedules.action s <> "Insert" ->
  insert_schedules.schedule_statements s = [].
Proof.
  intros Hs. unfold insert_schedules.schedule_statements.
  by rewrite decide_False.
Qed.

Lemma schedules_body_count report :
  length (flat_map insert_schedules.schedule_statements report) =
    3 * length (schedules_to_insert report) /\
  length (mutation_statements
            (flat_map insert_schedules.schedule_statements report)) =
    length (schedules_to_insert report).
Proof.
  unfold schedules_to_insert. induction report as [|s report [IH1 IH2]]; [done |].
  cbn [flat_map]. rewrite mutation_statements_app, !length_app, IH1, IH2.
  destruct (decide (insert_schedules.action s = "Insert")) as [Ha | Hs].
  - rewrite filter_cons_True by done.
    unfold insert_schedules.schedule_statements. rewrite decide_True by done.
    simpl. lia.
  - rewrite filter_cons_False by done.
    rewrite (schedule_statements_skip s Hs). simpl. lia.
Qed.

(** X9. In insert_schedules.py the filter of the main block changes
    nothing either.  The script has six lines and three more for every
    decision with action Insert, one of which is an INSERT statement. *)
Theorem schedules_script_counts now report hint :
  insert_schedules.generate_sql_script now (schedules_to_insert report) hint =
    insert_schedules.generate_sql_script now report hint /\
  length (insert_schedules.sql_lines now report hint) =
    6 + 3 * length (schedules_to_insert report) /\
  length (mutation_statements (insert_schedules.sql_lines now report hint)) =
    length (schedules_to_insert report).
Proof.
  destruct (schedules_body_count report) as [H1 H2].
  split; [| split].
  - unfold insert_schedules.generate_sql_script, insert_schedules.sql_lines,
      schedules_to_insert.
    rewrite flat_map_filter; [done |]. apply schedule_statements_skip.
  - unfold insert_schedules.sql_lines. rewrite !length_app, H1. simpl. lia.
  - unfold insert_schedules.sql_lines.
    rewrite !mutation_statements_app, !length_app, H2.
    change (mutation_statements ["COMMIT;"]) with (@nil string).
    assert (forall a b, mutation_statements
              [ "-- Generated by certificates-data-entry-tools";
                "-- Date: " +:+ a; "-- Output target: " +:+ b;
                "START TRANSACTION;"; "" ] = []) as -> by done.
    simpl. lia.
Qed.

End builder_counts.

(** ** The reconcilers and the snapshots of the database *)

Section schedule_decisions.
Import Py Spec Datetime insert_schedules.
Context (programs_data : gmap string ProgramInfo)
        (existing_schedules : gset (Z * string)).

Lemma strptime_date_ok s dt :
  strptime s = Some dt -> date_ok (year dt) (month dt) (day dt) = true.
Proof.
  unfold strptime. intros H.
  destruct (re_d s) as [[d r]|]; simpl in H; [| done].
  destruct (re_spaces r) as [r1|]; simpl in H; [| done].
  destruct (re_B r1) as [[m r2]|]; simpl in H; [| done].
  destruct (re_spaces r2) as [r3|]; simpl in H; [| done].
  destruct (re_Y r3) as [[y r4]|]; simpl in H; [| done].
  destruct r4; [| done].
  destruct (date_ok y m d) eqn:Hok; [| done]. by injection H as <-.
Qed.

Lemma schedules_parse_date s out :
  parse_indonesian_date s = Some out ->
  exists dt, out = strftime dt /\ date_ok (year dt) (month dt) (day dt) = true.
Proof.
  unfold parse_indonesian_date. case_decide; [done |].
  destruct (strptime (replace_month _ _)) as [dt|] eqn:H1.
  - intros [= <-]. exists dt. split; [done | by eapply strptime_date_ok].
  - destruct (strptime s) as [dt|] eqn:H2; [| done].
    intros [= <-]. exists dt. split; [done | by eapply strptime_date_ok].
Qed.

Lemma strftime_nonempty dt : strftime dt <> "".
Proof. apply strftime_token. Qed.

Lemma falsy_parse s :
  falsy (parse_indonesian_date s) = false <-> is_Some (parse_indonesian_date s).
Proof.
  destruct (parse_indonesian_date s) as [out|] eqn:H; simpl.
  - apply schedules_parse_date in H as (dt & -> & _).
    split; [by eexists |]. intros _.
    apply bool_decide_eq_false, strftime_nonempty.
  - split; [done | by intros [? ?]].
Qed.

(** X10. A schedule decision is one of Invalid Date, Program Not Found
    and Exists, each with action Skip, or New with action Insert: the
    initial status Error never leaves [process_schedules]. *)
Theorem schedule_decision_statuses entry :
  let decision := process_schedule programs_data existing_schedules entry in
  (status decision, action decision) ∈
    [ ("Invalid Date", "Skip"); ("Program Not Found", "Skip");
      ("Exists", "Skip"); ("New", "Insert") ].
Proof.
  destruct entry as [[program start] item]. unfold process_schedule.
  repeat case_match; simplify_eq; cbn;
    repeat first [apply list_elem_of_here | apply list_elem_of_further].
Qed.

(** What a decision with action Insert carries. *)
Lemma schedule_insert_parts program start item :
  let decision :=
    process_schedule programs_data existing_schedules ((program, start), item) in
  action decision = "Insert" ->
  exists program_info start_dt end_dt,
    programs_data !! lower program = Some program_info /\
    program_id decision = Some (id program_info) /\
    category_id decision = Some (cat_id program_info) /\
    parse_indonesian_date start = Some (start_date decision) /\
    parse_indonesian_date (CsvItem.end_date item) = Some (end_date decision) /\
    start_date decision = strftime start_dt /\
    date_ok (year start_dt) (month start_dt) (day start_dt) = true /\
    end_date decision = strftime end_dt /\
    date_ok (year end_dt) (month end_dt) (day end_dt) = true /\
    (id program_info, start_date decision) ∉ existing_schedules.
Proof.
  unfold process_schedule.
  destruct (parse_indonesian_date start) as [s|] eqn:Hs; [| done].
  destruct (parse_indonesian_date (CsvItem.end_date item)) as [e|] eqn:He;
    [| simpl; by rewrite orb_true_r].
  destruct (schedules_parse_date _ _ Hs) as (sdt & -> & Hsok).
  destruct (schedules_parse_date _ _ He) as (edt & -> & Heok).
  assert (lower (normalize_program_name program) = lower program) as ->.
  { unfold normalize_program_name. by case_decide; subst. }
  cbn [falsy or_empty].
  rewrite !bool_decide_eq_false_2 by apply strftime_nonempty. cbn [orb].
  destruct (programs_data !! lower program) as [info|]; [| done].
  case_decide; [done |]. cbn. intros _.
  exists info, sdt, edt. by split_and!.
Qed.

(** X11. A decision with action Insert is for a program of the master
    data, whose id and category id it carries, for a start date and an
    end date that are dates of the calendar as [strftime] writes them,
    which is YYYY-MM-DD for a year from 1000 on, and for a (program id,
    start date) pair the snapshot does not have. *)
Theorem schedule_insert_decision program start item :
  let decision :=
    process_schedule programs_data existing_schedules ((program, start), item) in
  action decision = "Insert" ->
  exists program_info start_dt end_dt,
    programs_data !! lower program = Some program_info /\
    program_id decision = Some (id program_info) /\
    category_id decision = Some (cat_id program_info) /\
    parse_indonesian_date start = Some (start_date decision) /\
    parse_indonesian_date (CsvItem.end_date item) = Some (end_date decision) /\
    start_date decision = strftime start_dt /\
    Calendar.real_date (year start_dt) (month start_dt) (day start_dt) /\
    end_date decision = strftime end_dt /\
    Calendar.real_date (year end_dt) (month end_dt) (day end_dt) /\
    ((1000 <= year start_dt)%Z -> start_date decision = isoformat start_dt) /\
    ((1000 <= year end_dt)%Z -> end_date decision = isoformat end_dt) /\
    (id program_info, start_date decision) ∉ existing_schedules.
Proof.
  intros decision Hinsert.
  destruct (schedule_insert_parts program start item Hinsert)
    as (info & sdt & edt & H1 & H2 & H3 & H4 & H5 & H6 & H7 & H8 & H9 & H10).
  fold decision in H2, H3, H4, H5, H6, H8, H10.
  apply date_ok_real in H7 as H7', H9 as H9'.
  exists info, sdt, edt. split_and!; try done.
  - intros Hy. rewrite H6. by apply strftime_isoformat.
  - intros Hy. rewrite H8. by apply strftime_isoformat.
Qed.

End schedule_decisions.

Section schedule_pipeline.
Import Py Spec Datetime insert_schedules database Pipeline.

Lemma schedule_insert_decision_witness :
  let decision := process_schedule example_programs_data ∅ example_entry in
  action decision = "Insert" /\
  exists program_info start_dt end_dt,
    example_programs_data !! lower "Training CMA" = Some program_info /\
    program_id decision = Some (id program_info) /\
    category_id decision = Some (cat_id program_info) /\
    parse_indonesian_date "31 Desember 2024" = Some (start_date decision) /\
    parse_indonesian_date "2 Januari 2025" = Some (end_date decision) /\
    start_date decision = strftime start_dt /\
    Calendar.real_date (year start_dt) (month start_dt) (day start_dt) /\
    end_date decision = strftime end_dt /\
    Calendar.real_date (year end_dt) (month end_dt) (day end_dt) /\
    ((1000 <= year start_dt)%Z -> start_date decision = isoformat start_dt) /\
    ((1000 <= year end_dt)%Z -> end_date decision = isoformat end_dt) /\
    (id program_info, start_date decision) ∉ (∅ : gset (Z * string)).
Proof.
  assert (action (process_schedule example_programs_data ∅ example_entry)
          = "Insert") as H by (by vm_compute).
  split; [exact H |].
  exact (schedule_insert_decision example_programs_data ∅
           "Training CMA" "31 Desember 2024" (example_entry.2) H).
Defined.

Lemma schedule_decision_known programs_data existing program start item
    program_info start_text end_text :
  programs_data !! lower program = Some program_info ->
  parse_indonesian_date start = Some start_text ->
  parse_indonesian_date (CsvItem.end_date item) = Some end_text ->
  process_schedule programs_data existing ((program, start), item) =
  {| program_name := normalize_program_name program;
     start_date := start_text;
     end_date := end_text;
     program_id := Some (id program_info);
     category_id := Some (cat_id program_info);
     status := if decide ((id program_info, start_text) ∈ existing)
               then "Exists" else "New";
     action := if decide ((id program_info, start_text) ∈ existing)
               then "Skip" else "Insert" |}.
Proof.
  intros Hinfo Hs He. unfold process_schedule.
  assert (lower (normalize_program_name program) = lower program) as ->.
  { unfold normalize_program_name. by case_decide; subst. }
  rewrite Hinfo.
  rewrite (proj2 (falsy_parse start)) by (rewrite Hs; by eexists).
  rewrite (proj2 (falsy_parse (CsvItem.end_date item)))
    by (rewrite He; by eexists).
  rewrite Hs, He. cbn [orb or_empty]. by case_decide.
Qed.

(** X12. When the decision of a group has action Insert and its start
    date is of the year 1000 or later, the decision for the group is
    Exists with action Skip, its other fields unchanged, once the
    schedules table has a row for the program id and the start date.
    When the start date is of a year below 1000, the decision stays New
    with action Insert whatever the table holds, since the snapshot has
    the dates in ISO form, with four digits for the year, and the parser
    writes the year without padding. *)
Theorem schedule_rerun_exists programs_data result program start item :
  let entry := ((program, start), item) in
  let decision :=
    process_schedule programs_data (get_existing_schedules result) entry in
  action decision = "Insert" ->
  exists program_info start_dt,
    programs_data !! lower program = Some program_info /\
    start_date decision = strftime start_dt /\
    Calendar.real_date (year start_dt) (month start_dt) (day start_dt) /\
    ((1000 <= year start_dt)%Z ->
     forall result',
       {| id_program := id program_info; date_start := start_dt |} ∈ result' ->
       process_schedule programs_data (get_existing_schedules result') entry =
       {| program_name := program_name decision;
          start_date := start_date decision;
          end_date := end_date decision;
          program_id := program_id decision;
          category_id := category_id decision;
          status := "Exists";
          action := "Skip" |}) /\
    ((year start_dt < 1000)%Z ->
     forall result',
       process_schedule programs_data (get_existing_schedules result') entry =
       decision).
Proof.
  intros entry decision Hinsert.
  destruct (schedule_insert_parts programs_data _ program start item Hinsert)
    as (info & sdt & edt & Hinfo & _ & _ & Hs & He & Hsd & Hok & _ & _ & Hnew).
  fold entry in Hs, He, Hsd, Hnew. fold decision in Hs, He, Hsd, Hnew.
  exists info, sdt. split; [done |]. split; [done |].
  split; [by apply date_ok_real |].
  assert (forall existing,
    process_schedule programs_data existing entry =
    {| program_name := normalize_program_name program;
       start_date := start_date decision;
       end_date := end_date decision;
       program_id := Some (id info);
       category_id := Some (cat_id info);
       status := if decide ((id info, start_date decision) ∈ existing)
                 then "Exists" else "New";
       action := if decide ((id info, start_date decision) ∈ existing)
                 then "Skip" else "Insert" |}) as Hknown.
  { intros existing. by apply schedule_decision_known. }
  pose proof (Hknown (get_existing_schedules result)) as Hfirst.
  rewrite !decide_False in Hfirst by done.
  change (process_schedule programs_data (get_existing_schedules result) entry)
    with decision in Hfirst.
  assert (program_name decision = normalize_program_name program) as Hpn
    by (by rewrite Hfirst).
  assert (program_id decision = Some (id info)) as Hpid by (by rewrite Hfirst).
  assert (category_id decision = Some (cat_id info)) as Hcid
    by (by rewrite Hfirst).
  split.
  - intros Hyear result' Hin. rewrite Hknown.
    assert ((id info, start_date decision) ∈ get_existing_schedules result')
      as Hmem.
    { unfold get_existing_schedules. apply elem_of_list_to_set.
      apply list_elem_of_fmap. eexists. split; [| exact Hin].
      rewrite Hsd. cbn. f_equal. by apply strftime_isoformat. }
    rewrite !decide_True by done. by rewrite Hpn, Hpid, Hcid.
  - intros Hyear result'. rewrite Hknown.
    assert ((id info, start_date decision) ∉ get_existing_schedules result')
      as Hmem.
    { unfold get_existing_schedules. intros Hin.
      apply elem_of_list_to_set in Hin.
      apply list_elem_of_fmap in Hin as (row & Heq & _).
      injection Heq as _ Hrow.
      pose proof (strftime_short sdt Hok Hyear) as Hshort.
      rewrite <- Hsd, Hrow, length_isoformat in Hshort. lia. }
    rewrite !decide_False by done. by rewrite Hfirst at 3.
Qed.

Lemma schedule_rerun_exists_witness :
  let entry := example_entry in
  let decision :=
    process_schedule example_programs_data (get_existing_schedules []) entry in
  action decision = "Insert" /\
  exists program_info start_dt,
    example_programs_data !! lower "Training CMA" = Some program_info /\
    start_date decision = strftime start_dt /\
    Calendar.real_date (year start_dt) (month start_dt) (day start_dt) /\
    ((1000 <= year start_dt)%Z ->
     forall result',
       {| id_program := id program_info; date_start := start_dt |} ∈ result' ->
       process_schedule example_programs_data (get_existing_schedules result')
         entry =
       {| program_name := program_name decision;
          start_date := start_date decision;
          end_date := end_date decision;
          program_id := program_id decision;
          category_id := category_id decision;
          status := "Exists";
          action := "Skip" |}) /\
    ((year start_dt < 1000)%Z ->
     forall result',
       process_schedule example_programs_data (get_existing_schedules result')
         entry =
       decision).
Proof.
  assert (action (process_schedule example_programs_data
                    (get_existing_schedules []) example_entry)
          = "Insert") as H by (by vm_compute).
  split; [exact H |].
  exact (schedule_rerun_exists example_programs_data []
           "Training CMA" "31 Desember 2024" (example_entry.2) H).
Defined.

Lemma stripped_field_None row column :
  stripped_field row column = None <-> row !! column = Some None.
Proof. unfold stripped_field. by destruct (row !! column) as [[v|]|]. Qed.

Lemma stripped_field_kept row column v :
  stripped_field row column = Some v -> strip v = v.
Proof.
  unfold stripped_field. destruct (row !! column) as [[w|]|]; intros [= <-].
  - apply strip_idem.
  - done.
Qed.

(** X13. [process_csv_data] stops with an exception exactly when some
    row of the reader lacks a cell of the Program, Tanggal Mulai or
    Tanggal Sertifikat column; no row of such a file is processed. *)
Theorem process_csv_data_raises rows :
  process_csv_data rows = None <-> Exists short rows.
Proof.
  induction rows as [|row rows IH].
  - split; [done | by intros ?%Exists_nil].
  - rewrite Exists_cons, <- IH. unfold short. cbn [process_csv_data].
    rewrite <- !stripped_field_None.
    destruct (stripped_field row "Program") as [p|]; cbn; [| by split; auto].
    destruct (stripped_field row "Tanggal Mulai") as [s|]; cbn;
      [| by split; auto].
    destruct (stripped_field row "Tanggal Sertifikat") as [e|]; cbn;
      [| by split; auto].
    destruct (process_csv_data rows) as [data|]; cbn.
    + split; [done |]. intros [[H | [H | H]] | H]; done.
    + split; auto.
Qed.

(** X14. Every entry [process_csv_data] returns has a program name, a
    start date and an end date that are stripped and not empty, there are
    at most as many entries as rows, and on the dates of an entry the
    parser of insert_schedules.py is the normaliser of the contract. *)
Theorem process_csv_data_entries rows data :
  process_csv_data rows = Some data ->
  length data <= length rows /\
  Forall (fun item =>
            kept_field (CsvItem.program item) /\
            kept_field (CsvItem.start_date item) /\
            kept_field (CsvItem.end_date item) /\
            parse_indonesian_date (CsvItem.start_date item) =
              normalize (CsvItem.start_date item) /\
            parse_indonesian_date (CsvItem.end_date item) =
              normalize (CsvItem.end_date item)) data.
Proof.
  revert data. induction rows as [|row rows IH]; intros data.
  - intros [= <-]. split; [done | constructor].
  - cbn [process_csv_data].
    destruct (stripped_field row "Program") as [p|] eqn:Hp; cbn; [| done].
    destruct (stripped_field row "Tanggal Mulai") as [s|] eqn:Hs; cbn; [| done].
    destruct (stripped_field row "Tanggal Sertifikat") as [e|] eqn:He; cbn;
      [| done].
    destruct (process_csv_data rows) as [data'|]; cbn; [| done].
    destruct (IH data' eq_refl) as [Hlen Hall]. intros [= <-].
    apply stripped_field_kept in Hp, Hs, He.
    case_decide as Hne; [| split; [lia | done]].
    destruct Hne as (Hpne & Hsne & Hene).
    split; [cbn; lia |]. constructor; [| done]. cbn.
    split_and!; try done; by apply schedules_normalize.
Qed.

Lemma process_csv_data_entries_witness :
  process_csv_data [example_reader_row] =
    Some [CsvItem.make "Training CMA" "31 Desember 2024" "2 Januari 2025"] /\
  length [CsvItem.make "Training CMA" "31 Desember 2024" "2 Januari 2025"]
    <= length [example_reader_row] /\
  Forall (fun item =>
            kept_field (CsvItem.program item) /\
            kept_field (CsvItem.start_date item) /\
            kept_field (CsvItem.end_date item) /\
            parse_indonesian_date (CsvItem.start_date item) =
              normalize (CsvItem.start_date item) /\
            parse_indonesian_date (CsvItem.end_date item) =
              normalize (CsvItem.end_date item))
    [CsvItem.make "Training CMA" "31 Desember 2024" "2 Januari 2025"].
Proof.
  assert (process_csv_data [example_reader_row] =
    Some [CsvItem.make "Training CMA" "31 Desember 2024" "2 Januari 2025"])
    as H by (by vm_compute).
  split; [exact H |].
  exact (process_csv_data_entries [example_reader_row] _ H).
Defined.

End schedule_pipeline.

Section database_snapshots.
Import Py insert_programs database.
Variable slugify : string -> string.

Lemma elem_of_get_existing_program_names k result :
  k ∈ get_existing_program_names result <->
  exists db_name, db_name ∈ result /\ lower db_name = k.
Proof.
  unfold get_existing_program_names.
  rewrite elem_of_list_to_set, list_elem_of_fmap. split.
  - intros (n & -> & Hn). by exists n.
  - intros (n & Hn & <-). by exists n.
Qed.

Lemma process_program_status existing rules program :
  status (process_program slugify existing rules program) =
  if decide (lower (strip program) ∈ existing) then "Exists" else "New".
Proof.
  case_decide as Hin.
  - by rewrite process_program_exists.
  - by rewrite process_program_new.
Qed.

(** X15. With the snapshot [get_existing_program_names] builds from the
    names of the database, a candidate is reported Exists exactly when
    its stripped name is, letter case apart, a name of the database as
    it stands there, and New otherwise. *)
Theorem program_exists_iff result rules program :
  let decision :=
    process_program slugify (get_existing_program_names result) rules program in
  (status decision = "Exists" <->
   exists db_name, db_name ∈ result /\ lower db_name = lower (strip program)) /\
  (status decision = "New" <->
   ~ exists db_name, db_name ∈ result /\ lower db_name = lower (strip program)).
Proof.
  cbv zeta. rewrite process_program_status.
  rewrite <- elem_of_get_existing_program_names.
  case_decide; split; split; try done.
Qed.



Lemma rstrip_same_length s :
  String.length (rstrip s) = String.length s -> rstrip s = s.
Proof.
  induction s as [|c s IH]; simpl; [done |].
  pose proof (length_rstrip s) as Hle.
  destruct (rstrip s) as [|c' r] eqn:Hr.
  - destruct (is_space c); simpl; [done |].
    intros H. destruct s; [done | simpl in *; lia].
  - simpl in *. intros H. rewrite IH by lia. done.
Qed.




End database_snapshots.

Section database_snapshots_examples.
Import Py insert_programs database.



End database_snapshots_examples.

Section participant_snapshots.
Import Py insert_participants Participants database.
Context (programs_map : gmap string ProgramData)
        (schedules_map : gmap (Z * string) Z).

(** X18. With the snapshot [load_existing_participants] builds from the
    participants of the database, a row that resolves to a schedule is
    reported Skipped exactly when the database has a participant of that
    schedule whose name is, letter case apart, the stripped name of the
    row; otherwise it is reported To Be Inserted. *)
Theorem participant_skipped_iff result df i row schedule_id name_lower :
  df !! i = Some row ->
  resolve programs_map schedules_map row = Resolved schedule_id name_lower ->
  let report :=
    (generate_sql df programs_map schedules_map
       (load_existing_participants result)).2 in
  let known :=
    exists participant, participant ∈ result /\
      id_schedule participant = schedule_id /\
      lower (name participant) = lower (participant_name_of row) in
  name_lower = lower (participant_name_of row) /\
  (status <$> report !! i = Some "Skipped" <-> known) /\
  (status <$> report !! i = Some "To Be Inserted" <-> ~ known).
Proof.
  intros Hi Hres report known.
  assert (name_lower = lower (participant_name_of row)) as ->.
  { unfold resolve in Hres. repeat case_match; by simplify_eq. }
  split; [done |].
  assert ((schedule_id, lower (participant_name_of row))
            ∈ load_existing_participants result <-> known) as Hknown.
  { unfold load_existing_participants, known.
    rewrite elem_of_list_to_set, list_elem_of_fmap. split.
    - intros (p & [= -> Hn] & Hp). by exists p.
    - intros (p & Hp & <- & <-). by exists p. }
  unfold report. rewrite (generate_sql_report _ _ _ _ _ _ Hi).
  cbn [fmap option_fmap option_map]. rewrite status_report_item, Hres.
  cbn [outcome]. rewrite <- Hknown. case_decide; cbn; split; split; done.
Qed.

End participant_snapshots.

Section participant_snapshots_examples.
Import Py insert_participants Participants database.

Lemma participant_skipped_iff_witness :
  let report :=
    (generate_sql [example_row] example_programs example_schedules
       (load_existing_participants [{| id_schedule := 7; name := "ANI" |}])).2 in
  let known :=
    exists participant,
      participant ∈ [{| id_schedule := 7; name := "ANI" |}] /\
      id_schedule participant = 7%Z /\
      lower (name participant) = lower (participant_name_of example_row) in
  "ani" = lower (participant_name_of example_row) /\
  (status <$> report !! 0 = Some "Skipped" <-> known) /\
  (status <$> report !! 0 = Some "To Be Inserted" <-> ~ known).
Proof.
  apply (participant_skipped_iff example_programs example_schedules
           [{| id_schedule := 7; name := "ANI" |}] [example_row] 0 example_row
           7 "ani").
  - reflexivity.
  - by vm_compute.
Defined.

End participant_snapshots_examples.

(** ** Parsed dates, the configured rules, groups, loaded maps and empty cells *)

Section date_results.
Import Py Spec Datetime.

(** X19. Whatever the text, a result of either date parser is a date of
    the calendar as [strftime] writes it, and is never empty: for a year
    from 1000 on it is the ten characters YYYY-MM-DD, for a year below
    1000 it is shorter, the year being written without padding. *)
Theorem parsers_return_dates :
  (forall cell out,
     insert_participants.parse_indonesian_date cell = Some out ->
     out <> "" /\
     exists dt, out = strftime dt /\
       Calendar.real_date (year dt) (month dt) (day dt) /\
       ((1000 <= year dt)%Z ->
        out = isoformat dt /\ String.length out = 10) /\
       ((year dt < 1000)%Z -> String.length out < 10)) /\
  (forall text out,
     insert_schedules.parse_indonesian_date text = Some out ->
     out <> "" /\
     exists dt, out = strftime dt /\
       Calendar.real_date (year dt) (month dt) (day dt) /\
       ((1000 <= year dt)%Z ->
        out = isoformat dt /\ String.length out = 10) /\
       ((year dt < 1000)%Z -> String.length out < 10)).
Proof.
  assert (forall dt, date_ok (year dt) (month dt) (day dt) = true ->
    strftime dt <> "" /\
    exists dt', strftime dt = strftime dt' /\
      Calendar.real_date (year dt') (month dt') (day dt') /\
      ((1000 <= year dt')%Z ->
       strftime dt = isoformat dt' /\ String.length (strftime dt) = 10) /\
      ((year dt' < 1000)%Z -> String.length (strftime dt) < 10)) as Hdate.
  { intros dt Hok. split; [apply strftime_nonempty |].
    exists dt. split; [done |]. split; [by apply date_ok_real |]. split.
    - intros Hy. rewrite (strftime_isoformat dt Hok Hy).
      split; [done | apply length_isoformat].
    - intros Hy. by apply strftime_short. }
  split.
  - intros [|s] out; [done |]. unfold insert_participants.parse_indonesian_date.
    repeat case_match; try done;
      intros (dt & Hdt & ->)%fmap_Some;
      apply Hdate; by apply (strptime_date_ok _ _ Hdt).
  - intros text out (dt & -> & Hok)%schedules_parse_date. by apply Hdate.
Qed.

End date_results.

Section configured_rules.
Import Py insert_programs Classifier main.
Variable slugify : string -> string.

Lemma predict_category_id name rules :
  let prediction := predict_category name rules in
  prediction = ("Uncategorized", None) \/
  prediction.2 = dict_get config.CATEGORY_IDS prediction.1.
Proof.
  induction rules as [|[category keywords] rules IH]; simpl; [by left |].
  destruct (existsb _ keywords); [by right | done].
Qed.

(** X20. The category id of a decision is read from [CATEGORY_IDS] of
    config.py, not from the [category_ids] argument of
    [process_programs]: a New decision with a category other than
    Uncategorized has the id [CATEGORY_IDS] gives for the category, and
    every other decision has none. *)
Theorem category_id_source new_programs existing rules category_ids i decision :
  process_programs slugify new_programs existing rules category_ids !! i
    = Some decision ->
  predicted_category_id decision =
  if decide (status decision = "New" /\
             predicted_category decision <> "Uncategorized")
  then dict_get config.CATEGORY_IDS (predicted_category decision)
  else None.
Proof.
  unfold process_programs. rewrite list_lookup_fmap.
  destruct (new_programs !! i) as [name|]; [| done]. intros [= <-].
  destruct (decide (lower (strip name) ∈ existing)) as [Hin | Hin].
  - rewrite process_program_exists by done. cbn.
    by rewrite decide_False by (by intros [? _]).
  - rewrite process_program_new by done. cbn.
    destruct (predict_category_id (lower (strip name)) rules) as [-> | Hid].
    + cbn. rewrite decide_True by done.
      by rewrite decide_False by (by intros [_ ?]).
    + case_decide.
      * by rewrite decide_False by (by intros [_ ?]).
      * by rewrite decide_True.
Qed.

End configured_rules.

Section configured_rules_examples.
Import Py insert_programs Classifier main.

Lemma configured_categories category :
  category ∈ config.RULES.*1 ->
  category <> "Uncategorized" /\ is_Some (dict_get config.CATEGORY_IDS category).
Proof.
  cbn. rewrite !elem_of_cons.
  intros [-> | [-> | [-> | [-> | [-> | [-> | [-> | H%elem_of_nil]]]]]]];
    try done; split; try done; by eexists.
Qed.

Lemma predict_category_cases name rules :
  ((exists rule, rule ∈ rules /\ rule_matches whole_word name rule) /\
   exists category, category ∈ rules.*1 /\
     predict_category name rules =
       (category, dict_get config.CATEGORY_IDS category)) \/
  ((~ exists rule, rule ∈ rules /\ rule_matches whole_word name rule) /\
   predict_category name rules = ("Uncategorized", None)).
Proof.
  induction rules as [|[category keywords] rules IH]; simpl.
  - right. split; [by intros (rule & ?%elem_of_nil & _) | done].
  - destruct (existsb _ keywords) eqn:Hany.
    + left. apply (any_keyword_spec name keywords category) in Hany.
      split; [exists (category, keywords); split; [left | done] |].
      exists category. split; [left | done].
    + assert (~ rule_matches whole_word name (category, keywords)) as Hno.
      { intros H%(any_keyword_spec name keywords category). congruence. }
      destruct IH as [[(rule & Hin & Hrule) (cat & Hcat & ->)] | [Hnone ->]].
      * left. split; [exists rule; split; [by right | done] |].
        exists cat. split; [by right | done].
      * right. split; [| done].
        intros (rule & [-> | Hin]%elem_of_cons & Hrule); [done |].
        apply Hnone. by exists rule.
Qed.

Lemma category_id_source_witness :
  predicted_category_id
    {| program_name := "Training CMA"; status := "New";
       predicted_category := "Accounting"; predicted_category_id := Some 2%Z;
       action := "Insert"; slug := "training-cma" |} =
  if decide ("New" = "New" /\ "Accounting" <> "Uncategorized")
  then dict_get config.CATEGORY_IDS "Accounting"
  else None.
Proof.
  apply (category_id_source (fun _ => "training-cma") ["Training CMA"] ∅
           config.RULES [] 0).
  by vm_compute.
Defined.

End configured_rules_examples.

Section configured_insertions.
Import Py insert_programs Classifier main.
Variable slugify : string -> string.

(** X21. With the rules of config.py, a candidate is passed on for
    insertion exactly when its stripped, lower-cased name is not in the
    snapshot and some keyword of some rule occurs in it as a whole word:
    every category of the rules has an id, and an unclassified candidate
    is held back. *)
Theorem configured_rules_insertion existing program :
  let decision := process_program slugify existing config.RULES program in
  programs_to_insert [decision] = [decision] <->
  (lower (strip program) ∉ existing) /\
  exists rule, rule ∈ config.RULES /\
    rule_matches whole_word (lower (strip program)) rule.
Proof.
  cbv zeta. unfold programs_to_insert.
  destruct (decide (lower (strip program) ∈ existing)) as [Hin | Hin].
  - rewrite process_program_exists by done.
    rewrite filter_cons_False by (by intros [? _]).
    split; [done | by intros [? _]].
  - rewrite process_program_new by done.
    destruct (predict_category_cases (lower (strip program)) config.RULES)
      as [[Hrule (cat & Hcat & ->)] | [Hnone ->]].
    + destruct (configured_categories cat Hcat) as [Hne [n Hn]].
      cbn [fst snd]. rewrite decide_False by done.
      rewrite filter_cons_True
        by (split; [done |]; cbn [predicted_category_id]; by rewrite Hn).
      split; [by intros _ | done].
    + cbn [fst snd]. rewrite decide_True by done.
      rewrite filter_cons_False by (by intros [_ ?]).
      split; [done | by intros [_ ?]].
Qed.

End configured_insertions.

Section group_facts.
Import Py insert_schedules Groups.

Lemma group_fold_distinct data acc :
  NoDup (acc.*1 ++ map key_of data) ->
  fold_left group_step data acc =
  acc ++ map (fun item => (key_of item, item)) data.
Proof.
  revert acc. induction data as [|item data IH]; intros acc Hnd; simpl.
  - by rewrite app_nil_r.
  - assert (has_key (key_of item) acc = false) as Hkey.
    { apply not_true_is_false. intros Hin%has_key_spec.
      apply NoDup_app in Hnd as (_ & Hnd & _). apply (Hnd _ Hin). left. }
    unfold group_step at 2. rewrite Hkey, IH.
    + by rewrite <- app_assoc.
    + rewrite fmap_app, <- app_assoc. exact Hnd.
Qed.

(** X22. On rows with pairwise different raw keys [group_csv_data] keeps
    every row, in the order of the file, under its own key. *)
Theorem group_csv_data_distinct data :
  NoDup (map key_of data) ->
  group_csv_data data = map (fun item => (key_of item, item)) data.
Proof.
  intros Hnd. rewrite group_csv_data_fold.
  by rewrite group_fold_distinct.
Qed.

Lemma group_csv_data_distinct_witness :
  group_csv_data
    [CsvItem.make "Training CMA" "31 Desember 2024" "2 Januari 2025";
     CsvItem.make "Training CMA" "1 Maret 2025" "3 Maret 2025"] =
  map (fun item => (key_of item, item))
    [CsvItem.make "Training CMA" "31 Desember 2024" "2 Januari 2025";
     CsvItem.make "Training CMA" "1 Maret 2025" "3 Maret 2025"].
Proof.
  apply group_csv_data_distinct.
  by apply (bool_decide_unpack _).
Defined.

(** X23. Grouping the rows of the groups again changes nothing: every
    group is stored under the key of its own row, and the keys of the
    groups are pairwise different. *)
Theorem group_csv_data_idempotent data :
  let grouped_data := group_csv_data data in
  grouped_data = map (fun item => (key_of item, item)) grouped_data.*2 /\
  group_csv_data grouped_data.*2 = grouped_data.
Proof.
  cbv zeta. rewrite (group_csv_data_fold data).
  destruct (group_fold_spec data [] (NoDup_nil_2)) as (g & -> & Hnd & _ & Hfirst).
  cbn [app] in *.
  assert (g = map (fun item => (key_of item, item)) g.*2) as Hg.
  { clear Hnd. induction g as [|[key item] g IH]; [done |]. cbn.
    destruct (Hfirst key item) as (_ & _ & _ & <- & _);
      [apply list_elem_of_here |].
    f_equal. apply IH. intros k it Hin. apply Hfirst.
    by apply list_elem_of_further. }
  split; [done |].
  rewrite group_csv_data_fold, group_fold_distinct; [by rewrite <- Hg |].
  assert (map key_of g.*2 = g.*1) as ->; [| done].
  clear Hnd Hg. induction g as [|[key item] g IH]; [done |]. cbn.
  destruct (Hfirst key item) as (_ & _ & _ & <- & _);
    [apply list_elem_of_here |].
  f_equal. apply IH. intros k it Hin. apply Hfirst.
  by apply list_elem_of_further.
Qed.

End group_facts.

Section loaded_maps.
Import Py loaders.

Lemma get_programs_data_fold result
    (acc : gmap string insert_schedules.ProgramInfo) k :
  fold_left
    (fun programs_data row =>
       <[lower (name row) :=
           {| insert_schedules.id := id row;
              insert_schedules.cat_id := id_category row |}]> programs_data)
    result acc !! k =
  match last (filter (fun row => lower (name row) = k) result) with
  | Some row =>
      Some {| insert_schedules.id := id row;
              insert_schedules.cat_id := id_category row |}
  | None => acc !! k
  end.
Proof.
  revert acc. induction result as [|row result IH]; intros acc; [done |].
  cbn [fold_left]. rewrite IH.
  destruct (decide (lower (name row) = k)) as [Hk | Hk].
  - rewrite filter_cons_True by done.
    rewrite last_cons. destruct (last (filter _ result)); [done |].
    by rewrite Hk, lookup_insert_eq.
  - rewrite filter_cons_False by done.
    by rewrite lookup_insert_ne by done.
Qed.

Lemma load_programs_map_lookup programs_data k :
  load_programs_map programs_data !! k =
  (fun data =>
     {| insert_participants.id := insert_schedules.id data;
        insert_participants.cat_id := insert_schedules.cat_id data |})
    <$> programs_data !! k.
Proof.
  unfold load_programs_map.
  apply (map_fold_weak_ind
    (fun r m => r !! k =
       (fun data =>
          {| insert_participants.id := insert_schedules.id data;
             insert_participants.cat_id := insert_schedules.cat_id data |})
         <$> m !! k)).
  - by rewrite !lookup_empty.
  - intros i x m r Hi IH.
    destruct (decide (i = k)) as [-> | Hne].
    + by rewrite !lookup_insert_eq.
    + by rewrite !lookup_insert_ne.
Qed.

(** X24. The programs map of the participants pipeline has, under a
    lower-cased name, the id and the category id of the last row of the
    database with that name, letter case apart; earlier rows with the
    name are not reachable. *)
Theorem programs_map_last_row result k :
  load_programs_map (get_programs_data result) !! k =
  program_data_of <$>
    last (filter (fun row => lower (name row) = k) result).
Proof.
  rewrite load_programs_map_lookup. unfold get_programs_data.
  rewrite get_programs_data_fold, lookup_empty.
  by destruct (last _).
Qed.

End loaded_maps.

Section missing_cells.
Import Py insert_participants Participants.

(** X25. An empty cell of the file reaches [generate_sql] as NaN and is
    read as the text nan: a row without a name is the participant nan,
    and the certificate reference of a row without [ket] ends in nan:
    it is nan when [No] is empty or blank, nannan when [No] is missing
    as well. *)
Theorem missing_cells_read_nan row :
  (Nama row = NaN -> participant_name_of row = "nan") /\
  (ket row = NaN ->
   certificate_ref_of row =
   if decide (strip (str (No row)) = "") then "nan"
   else strip (str (No row)) +:+ "nan") /\
  (ket row = NaN -> No row = NaN -> certificate_ref_of row = "nannan") /\
  (Nama row = NaN ->
   forall programs_map schedules_map existing df i,
     df !! i = Some row ->
     participant_name <$>
       (generate_sql df programs_map schedules_map existing).2 !! i
     = Some "nan").
Proof.
  split_and!.
  - unfold participant_name_of. by intros ->.
  - unfold certificate_ref_of. intros ->. change (strip (str NaN)) with "nan".
    destruct (decide (strip (str (No row)) = "")) as [H | H].
    + by rewrite decide_False by (by intros [? _]).
    + by rewrite decide_True by done.
  - unfold certificate_ref_of. by intros -> ->.
  - intros Hname pm sm existing df i Hi.
    rewrite (generate_sql_report _ _ _ _ _ _ Hi). cbn.
    unfold participant_name_of. by rewrite Hname.
Qed.

End missing_cells.

(** ** insert_participants.py: the column check of [main] *)

Section frame_columns.
Import Py insert_participants frames.

Lemma has_required_cols_spec df :
  has_required_cols df = true <->
  "Nama" ∈ columns df /\ "Program" ∈ columns df /\
  "Tanggal Mulai" ∈ columns df /\ "ket" ∈ columns df /\
  "Tanggal Sertifikat" ∈ columns df.
Proof.
  unfold has_required_cols, required_cols. cbn [forallb].
  rewrite !andb_true_iff, !bool_decide_eq_true. tauto.
Qed.

Lemma read_row_checked df row :
  has_required_cols df = true ->
  read_row df row = if decide ("No" ∈ columns df) then Some (row_of row) else None.
Proof.
  intros (H1 & H2 & H3 & H4 & H5)%has_required_cols_spec.
  unfold read_row, getitem.
  destruct (decide ("No" ∈ columns df)) as [H6 | H6].
  - by rewrite !decide_True by done.
  - by rewrite !decide_True by done.
Qed.

(** X26. The column check of [main] lets a file without the column [No]
    through, and [generate_sql] reads that column: on a frame that
    passes the check, [generate_sql] stops with a [KeyError] exactly
    when the frame has a row and no column [No]; otherwise it is
    [generate_sql] on the rows of the frame. *)
Theorem number_column_unchecked df programs_map schedules_map existing :
  has_required_cols df = true ->
  (generate_sql_frame df programs_map schedules_map existing = None <->
   ("No" ∉ columns df) /\ rows df <> []) /\
  ("No" ∈ columns df \/ rows df = [] ->
   generate_sql_frame df programs_map schedules_map existing =
   Some (generate_sql (map row_of (rows df)) programs_map schedules_map
           existing)).
Proof.
  intros Hcheck. unfold generate_sql_frame.
  assert (mapM (read_row df) (rows df) =
          if decide ("No" ∈ columns df) then Some (map row_of (rows df))
          else match rows df with [] => Some [] | _ => None end) as ->.
  { induction (rows df) as [|row l IH]; [by case_decide |].
    cbn [mapM]. rewrite IH, (read_row_checked df row Hcheck).
    by case_decide. }
  case_decide as Hno; cbn.
  - split; [split; [done | by intros [? _]] | done].
  - destruct (rows df) as [|row l]; cbn.
    + split; [split; [done | by intros [_ ?]] | done].
    + split; [done |]. by intros [? | ?].
Qed.

End frame_columns.

Section frame_columns_examples.
Import Py insert_participants frames.

Lemma number_column_unchecked_witness :
  let df := {| columns := required_cols; rows := [fun _ => NaN] |} in
  (generate_sql_frame df ∅ ∅ ∅ = None <->
   ("No" ∉ columns df) /\ rows df <> []) /\
  ("No" ∈ columns df \/ rows df = [] ->
   generate_sql_frame df ∅ ∅ ∅ =
   Some (generate_sql (map row_of (rows df)) ∅ ∅ ∅)).
Proof.
  apply (number_column_unchecked
           {| columns := required_cols; rows := [fun _ => NaN] |} ∅ ∅ ∅).
  reflexivity.
Defined.

End frame_columns_examples.

(** ** The parser of insert_schedules.py on texts with blanks around them *)

Section strptime_extent.
Import Py Spec Datetime.
Local Open Scope Z_scope.

Lemma re_d_suffix s v r : re_d s = Some (v, r) -> exists p, s = p +:+ r.
Proof.
  unfold re_d. destruct s as [|c1 r1]; [done |].
  destruct (digit c1) as [a|], r1 as [|c2 r2]; try done.
  - case_match; [| done]. intros [= <- <-]. by exists (String c1 "").
  - destruct (digit c2) as [b|].
    + repeat case_match; try done; intros [= <- <-];
        first [by exists (String c1 (String c2 "")) | by exists (String c1 "")].
    + case_match; [| done]. intros [= <- <-]. by exists (String c1 "").
  - case_decide; [| done]. destruct (digit c2) as [b|]; [| done].
    case_match; [| done]. intros [= <- <-].
    by exists (String c1 (String c2 "")).
Qed.

Lemma re_spaces_suffix s r : re_spaces s = Some r -> exists p, s = p +:+ r.
Proof.
  unfold re_spaces. destruct s as [|c s]; [done |].
  case_match; [| done]. intros [= <-].
  destruct (lstrip_suffix s) as [w Hw]. exists (String c w).
  simpl. by rewrite <- Hw.
Qed.

Lemma re_literal_suffix pat s r :
  re_literal pat s = Some r -> exists p, s = p +:+ r.
Proof.
  revert s. induction pat as [|a pat IH]; intros s; simpl.
  - intros [= <-]. by exists "".
  - destruct s as [|c s]; [done |]. case_decide; [| done].
    intros [p ->]%IH. by exists (String c p).
Qed.

Lemma re_B_suffix s m r : re_B s = Some (m, r) -> exists p, s = p +:+ r.
Proof.
  unfold re_B. induction month_names as [|[name k] alts IH]; simpl; [done |].
  destruct (re_literal name s) as [r'|] eqn:Hl; [| done].
  intros [= <- <-]. by eapply re_literal_suffix.
Qed.

Lemma re_Y_end s y : re_Y s = Some (y, "") -> rstrip s = s /\ s <> "".
Proof.
  unfold re_Y.
  destruct s as [|c1 [|c2 [|c3 [|c4 r]]]]; try done.
  destruct (digit c1) as [a|] eqn:H1; [| done].
  destruct (digit c2) as [b|] eqn:H2; [| done].
  destruct (digit c3) as [c|] eqn:H3; [| done].
  destruct (digit c4) as [d|] eqn:H4; [| done].
  intros [= <- ->]. split; [| done]. simpl.
  by rewrite (digit_is_token_char _ _ H4).
Qed.

Lemma append_ne_nil (a r : string) : r <> "" -> a +:+ r <> "".
Proof. destruct a; [done | by simpl]. Qed.

Lemma rstrip_app_end a r :
  rstrip r = r /\ r <> "" -> rstrip (a +:+ r) = a +:+ r /\ a +:+ r <> "".
Proof.
  intros [H1 H2]. split; [by apply rstrip_app_fixed | by apply append_ne_nil].
Qed.

(** A text [strptime] accepts has no blank at its end. *)
Lemma strptime_rstrip t dt : strptime t = Some dt -> rstrip t = t.
Proof.
  unfold strptime. intros H.
  destruct (re_d t) as [[d r]|] eqn:H1; simpl in H; [| done].
  destruct (re_spaces r) as [r1|] eqn:H2; simpl in H; [| done].
  destruct (re_B r1) as [[m r2]|] eqn:H3; simpl in H; [| done].
  destruct (re_spaces r2) as [r3|] eqn:H4; simpl in H; [| done].
  destruct (re_Y r3) as [[y r4]|] eqn:H5; simpl in H; [| done].
  destruct r4; [| done].
  apply re_d_suffix in H1 as [p1 ->]. apply re_spaces_suffix in H2 as [p2 ->].
  apply re_B_suffix in H3 as [p3 ->]. apply re_spaces_suffix in H4 as [p4 ->].
  apply re_Y_end in H5.
  apply (rstrip_app_end p4), (rstrip_app_end p3), (rstrip_app_end p2),
    (rstrip_app_end p1) in H5.
  apply H5.
Qed.

(** A text [strptime] accepts starts with a blank only when that is one
    space before a one-digit day, and then [strptime] accepts the text
    without the space as well. *)
Lemma strptime_leading_space c r dt :
  is_space c = true -> strptime (String c r) = Some dt ->
  c = " "%char /\ starts_space r = false /\ strptime r = Some dt.
Proof.
  intros Hc. unfold strptime at 1.
  assert (re_d (String c r) =
          match r with
          | String c2 r2 =>
              if decide (c = " "%char) then
                match digit c2 with
                | Some b => if 1 <=? b then Some (b, r2) else None
                | None => None
                end
              else None
          | EmptyString => None
          end) as ->.
  { unfold re_d. rewrite (digit_not_space _ Hc). by destruct r. }
  destruct r as [|c2 r2]; [done |].
  case_decide as Hblank; [| done].
  destruct (digit c2) as [b|] eqn:Hb; [| done].
  destruct (1 <=? b) eqn:Hle; [| done]. cbn [mbind option_bind].
  destruct (re_spaces r2) as [r3|] eqn:Hsp; [| done]. intros H.
  split; [done |]. split; [cbn; by apply (digit_is_token_char _ b) |].
  unfold strptime.
  assert (re_d (String c2 r2) = Some (b, r2)) as ->;
    [| cbn [mbind option_bind]; by rewrite Hsp].
  unfold re_d. rewrite Hb. unfold re_spaces in Hsp.
  destruct r2 as [|c3 r2]; [done |].
  destruct (is_space c3) eqn:Hc3; [| done].
  by rewrite (digit_not_space _ Hc3), Hle.
Qed.

End strptime_extent.

Section replace_extent.
Import Py Spec.
Context (old new : string) (Hold : token old) (Hnew : token new).

Lemma replace_nil_iff s : replace old new s = "" -> s = "".
Proof using Hnew.
  intros H. destruct (decide (s = "")) as [-> | Hne]; [done |].
  by apply (replace_nonempty old new Hnew) in Hne.
Qed.

(** Replacing a token by a token neither adds nor removes a blank at
    the end of the text. *)
Lemma rstrip_replace_inv s :
  rstrip (replace old new s) = replace old new s -> rstrip s = s.
Proof using Hold Hnew.
  remember (String.length s) as n eqn:Hn. revert s Hn.
  induction n as [n IH] using lt_wf_ind. intros s -> Hfix.
  destruct s as [|c s]; [done |].
  destruct (is_space c) eqn:Hc.
  - rewrite (replace_space old new Hold _ _ Hc) in Hfix.
    destruct (decide (replace old new s = "")) as [Hnil | Hne].
    { rewrite Hnil in Hfix. simpl in Hfix. by rewrite Hc in Hfix. }
    apply rstrip_cons_fixed.
    + apply (IH (String.length s)); [simpl; lia | done |].
      by apply (rstrip_fixed_cons c).
    + intros ->. by apply Hne.
  - destruct (first_token (String c s)) as (tok & r & Hs & Htok & Hne & Hr);
      [done | done |].
    rewrite Hs in *. rewrite (replace_token_app old new Hold _ _ Hr) in Hfix.
    destruct (decide (r = "")) as [-> | Hrne].
    { rewrite append_nil_r. apply (rstrip_token "" tok). by split. }
    apply rstrip_app_fixed; [| done].
    apply (IH (String.length r)); [| done |].
    + rewrite length_append. destruct tok; [done | simpl; lia].
    + apply (rstrip_fixed_app (replace old new tok)); [done |].
      intros Hnil%replace_nil_iff. done.
Qed.

End replace_extent.

Section parser_inclusion.
Import Py Spec Datetime.
Local Open Scope Z_scope.

Lemma replace_month_space c text :
  is_space c = true ->
  insert_schedules.replace_month insert_schedules.INDONESIAN_MONTHS
    (String c text) =
  String c
    (insert_schedules.replace_month insert_schedules.INDONESIAN_MONTHS text).
Proof.
  intros Hc.
  assert (Forall (fun entry => token entry.1 /\ token entry.2)
            insert_schedules.INDONESIAN_MONTHS) as Hall.
  { apply Forall_forall. intros [ind eng] Hin.
    destruct (indonesian_entry _ _ Hin) as (Hwi & Hwe & _).
    split; [apply Hwi | apply Hwe]. }
  induction Hall as [|[ind eng] months [Hi He] _ IH]; [done |].
  cbn [insert_schedules.replace_month].
  rewrite (contains_space ind Hi _ _ Hc), IH.
  destruct (contains ind text); [| done].
  by apply replace_space.
Qed.

Lemma rstrip_replace_month_inv text :
  rstrip (insert_schedules.replace_month insert_schedules.INDONESIAN_MONTHS text)
  = insert_schedules.replace_month insert_schedules.INDONESIAN_MONTHS text ->
  rstrip text = text.
Proof.
  destruct (replace_month_cases insert_schedules.INDONESIAN_MONTHS text)
    as [[-> _] | (ind & eng & Hin & _ & ->)]; [done |].
  destruct (indonesian_entry _ _ Hin) as (Hwi & Hwe & _).
  apply rstrip_replace_inv; [apply Hwi | apply Hwe].
Qed.

Lemma rstrip_lower_inv s : rstrip (lower s) = lower s -> rstrip s = s.
Proof.
  rewrite rstrip_lower. intros H. apply rstrip_same_length.
  by rewrite <- (length_lower (rstrip s)), H, length_lower.
Qed.

(** On a text without blanks around it, a date [strptime] reads is the
    date of the contract. *)
Lemma strptime_normalize r dt :
  strip r = r -> strptime r = Some dt -> normalize r = Some (strftime dt).
Proof.
  intros Hstrip. destruct (strip_fixed _ Hstrip) as [Hstart Hfix].
  rewrite (strptime_split r Hstart Hfix).
  unfold normalize, tokens. rewrite Hstrip, split_lower.
  destruct (split r) as [|d [|m [|y [|x xs]]]]; try done. cbn [map].
  intros Hdate. rewrite calendar_date_lower.
  destruct (dict_get english_months (lower m)) as [k|] eqn:Hm.
  - by rewrite (english_month_number _ _ Hm), Hdate.
  - unfold calendar_date in Hdate.
    destruct (day_number d); [| done]. done.
Qed.

Lemma replaced_normalize r dt :
  strip r = r ->
  strptime (insert_schedules.replace_month insert_schedules.INDONESIAN_MONTHS
              (lower r)) = Some dt ->
  normalize r = Some (strftime dt).
Proof.
  intros Hstrip Hdt. rewrite <- (schedules_normalize r Hstrip).
  unfold insert_schedules.parse_indonesian_date.
  case_decide as Hnil; [by subst |]. by rewrite Hdt.
Qed.

Lemma starts_space_replace_month text :
  starts_space
    (insert_schedules.replace_month insert_schedules.INDONESIAN_MONTHS text)
  = starts_space text.
Proof.
  destruct (replace_month_cases insert_schedules.INDONESIAN_MONTHS text)
    as [[-> _] | (ind & eng & Hin & _ & ->)]; [done |].
  destruct (indonesian_entry _ _ Hin) as (Hwi & Hwe & _).
  apply starts_space_replace; [apply Hwi | apply Hwe].
Qed.

Lemma strip_unpadded s : starts_space s = false -> rstrip s = s -> strip s = s.
Proof. intros H1 H2. unfold strip. by rewrite (lstrip_id _ H1). Qed.

Lemma strip_one_space c r :
  is_space c = true -> starts_space r = false -> rstrip r = r ->
  strip (String c r) = r.
Proof.
  intros Hc H1 H2. unfold strip. simpl. rewrite Hc.
  by rewrite (lstrip_id _ H1).
Qed.

Lemma replaced_rstrip text dt :
  strptime (insert_schedules.replace_month insert_schedules.INDONESIAN_MONTHS
              (lower text)) = Some dt ->
  rstrip text = text.
Proof.
  intros H%strptime_rstrip%rstrip_replace_month_inv. by apply rstrip_lower_inv.
Qed.

(** The date the parser of insert_schedules.py reads at its second
    try, and the one it reads at its first try, is the date of the
    contract. *)
Lemma second_try_normalize text dt :
  strptime text = Some dt -> normalize text = Some (strftime dt).
Proof.
  intros Hdt. pose proof (strptime_rstrip _ _ Hdt) as Hfix.
  rewrite <- normalize_strip.
  destruct (starts_space text) eqn:Hstart.
  - destruct text as [|c r]; [done |]. simpl in Hstart.
    destruct (strptime_leading_space c r dt Hstart Hdt) as (_ & Hr & Hdt').
    pose proof (strptime_rstrip _ _ Hdt') as Hfix'.
    rewrite (strip_one_space c r Hstart Hr Hfix').
    apply strptime_normalize; [by apply strip_unpadded | done].
  - rewrite (strip_unpadded _ Hstart Hfix).
    apply strptime_normalize; [by apply strip_unpadded | done].
Qed.

Lemma first_try_normalize text dt :
  strptime (insert_schedules.replace_month insert_schedules.INDONESIAN_MONTHS
              (lower text)) = Some dt ->
  normalize text = Some (strftime dt).
Proof.
  intros Hdt. pose proof (replaced_rstrip _ _ Hdt) as Hfix.
  rewrite <- normalize_strip.
  destruct (starts_space text) eqn:Hstart.
  - destruct text as [|c r]; [done |]. simpl in Hstart.
    cbn [lower] in Hdt.
    rewrite replace_month_space in Hdt by (by rewrite is_space_lower_char).
    apply strptime_leading_space in Hdt as (_ & Hr & Hdt');
      [| by rewrite is_space_lower_char].
    rewrite starts_space_replace_month, starts_space_lower in Hr.
    pose proof (replaced_rstrip _ _ Hdt') as Hfix'.
    rewrite (strip_one_space c r Hstart Hr Hfix').
    apply replaced_normalize; [by apply strip_unpadded | done].
  - rewrite (strip_unpadded _ Hstart Hfix).
    apply replaced_normalize; [by apply strip_unpadded | done].
Qed.

(** X27. Whenever the parser of insert_schedules.py returns a date, the
    parser of insert_participants.py returns the same date for the text:
    the two differ only on texts the first one rejects. *)
Theorem schedules_parser_refines text out :
  insert_schedules.parse_indonesian_date text = Some out ->
  insert_participants.parse_indonesian_date (insert_participants.Str text)
  = Some out.
Proof.
  rewrite parse_indonesian_date_normalize.
  unfold insert_schedules.parse_indonesian_date. case_decide; [done |].
  destruct (strptime (insert_schedules.replace_month _ _)) as [dt|] eqn:H1.
  - intros [= <-]. by apply first_try_normalize.
  - destruct (strptime text) as [dt|] eqn:H2; [| done].
    intros [= <-]. by apply second_try_normalize.
Qed.

(** X28. The parser of insert_schedules.py rejects every text that ends
    with a blank. *)
Theorem schedules_parser_trailing_blank text :
  rstrip text <> text -> insert_schedules.parse_indonesian_date text = None.
Proof.
  intros Hblank. unfold insert_schedules.parse_indonesian_date.
  case_decide; [done |].
  destruct (strptime (insert_schedules.replace_month _ _)) as [dt|] eqn:H1.
  { by apply replaced_rstrip in H1. }
  destruct (strptime text) as [dt|] eqn:H2; [| done].
  by apply strptime_rstrip in H2.
Qed.

Lemma schedules_parser_refines_witness :
  insert_schedules.parse_indonesian_date " 5 Januari 2024" = Some "2024-01-05" /\
  insert_participants.parse_indonesian_date
    (insert_participants.Str " 5 Januari 2024") = Some "2024-01-05".
Proof.
  assert (insert_schedules.parse_indonesian_date " 5 Januari 2024"
          = Some "2024-01-05") as H by (by vm_compute).
  split; [exact H | exact (schedules_parser_refines _ _ H)].
Defined.

Lemma schedules_parser_trailing_blank_witness :
  rstrip "31 Desember 2024 " <> "31 Desember 2024 " /\
  insert_schedules.parse_indonesian_date "31 Desember 2024 " = None.
Proof.
  assert (rstrip "31 Desember 2024 " <> "31 Desember 2024 ") as H
    by (by vm_compute).
  split; [exact H | exact (schedules_parser_trailing_blank _ H)].
Defined.

End parser_inclusion.

(** ** The contract of the date normaliser *)

Section date_contract.
Import Py Spec Datetime Calendar.
Import insert_participants.
Local Open Scope Z_scope.

Lemma calendar_date_real d month y dt :
  calendar_date d month y = Some dt <->
  day_number d = Some (day dt) /\ month = Some (Datetime.month dt) /\
  year_number y = Some (year dt) /\
  real_date (year dt) (Datetime.month dt) (day dt).
Proof.
  unfold calendar_date. rewrite <- date_ok_real.
  destruct (day_number d) as [dv|]; cbn; [| by split; [| intros [? _]]].
  destruct month as [mv|]; cbn; [| by split; [| intros (_ & ? & _)]].
  destruct (year_number y) as [yv|]; cbn; [| by split; [| intros (_ & _ & ? & _)]].
  destruct (date_ok yv mv dv) eqn:Hok.
  - split; [by intros [= <-] |].
    intros ([= Hd] & [= Hm] & [= Hy] & _). destruct dt. cbn in *. by subst.
  - split; [done |].
    intros ([= Hd] & [= Hm] & [= Hy] & Hreal). destruct dt. cbn in *.
    subst. congruence.
Qed.

(** C1, the claim as stated fails: "18 January 2025 " has three tokens,
    a month name of the English table and denotes a date of the
    calendar, and the parser of insert_schedules.py returns None for
    it. *)
Lemma date_normalizer_rejects_padded_text :
  tokens "18 January 2025 " = ["18"; "january"; "2025"] /\
  month_number "january" = Some 1 /\
  calendar_date "18" (Some 1) "2025" = Some (Date 2025 1 18) /\
  real_date 2025 1 18 /\
  insert_schedules.parse_indonesian_date "18 January 2025 " = None.
Proof.
  split_and!; try by vm_compute.
  apply date_ok_real. reflexivity.
Qed.

(** C1, amended.  For every input string, the parser of
    insert_participants.py returns None exactly when the stripped,
    lower-cased text does not have three tokens, or the month token is a
    month name in neither the Indonesian nor the English table, or the
    day, month and year tokens (a one- or two-digit day, a four-digit
    year) do not denote a date of the calendar; otherwise, for a year
    from 1000 on, it returns the date as YYYY-MM-DD.  The parser of
    insert_schedules.py does the same on every text without a blank
    before or after it, which is how process_csv_data hands the dates
    over; on any other text it returns None or that same date, and None
    when the text ends with a blank.  Both give the results of the
    scenario. *)
Theorem date_normalizer_contract :
  (forall text, parse_indonesian_date (Str text) = normalize text) /\
  (forall text,
     insert_schedules.parse_indonesian_date (strip text) = normalize text) /\
  (forall text out,
     insert_schedules.parse_indonesian_date text = Some out ->
     normalize text = Some out) /\
  (forall text,
     rstrip text <> text ->
     insert_schedules.parse_indonesian_date text = None) /\
  (forall text,
     normalize text = None <->
     length (tokens text) <> 3%nat \/
     exists d m y, tokens text = [d; m; y] /\
       (month_number m = None \/
        calendar_date d (month_number m) y = None)) /\
  (forall d month y dt,
     calendar_date d month y = Some dt <->
     day_number d = Some (day dt) /\ month = Some (Datetime.month dt) /\
     year_number y = Some (year dt) /\
     real_date (year dt) (Datetime.month dt) (day dt)) /\
  (forall text d m y dt,
     tokens text = [d; m; y] ->
     calendar_date d (month_number m) y = Some dt ->
     1000 <= year dt ->
     normalize text =
       Some (pad4 (year dt) +:+ "-" +:+ pad2 (Datetime.month dt) +:+ "-" +:+
             pad2 (day dt))) /\
  parse_indonesian_date (Str "31 Desember 2024") = Some "2024-12-31" /\
  parse_indonesian_date (Str "18 January 2025") = Some "2025-01-18" /\
  parse_indonesian_date (Str "DD Unknownmonth YYYY") = None /\
  insert_schedules.parse_indonesian_date "31 Desember 2024" = Some "2024-12-31" /\
  insert_schedules.parse_indonesian_date "18 January 2025" = Some "2025-01-18" /\
  insert_schedules.parse_indonesian_date "DD Unknownmonth YYYY" = None.
Proof.
  split; [exact parse_indonesian_date_normalize |].
  split.
  { intros text. rewrite schedules_normalize by apply strip_idem.
    apply normalize_strip. }
  split.
  { intros text out. unfold insert_schedules.parse_indonesian_date.
    case_decide; [done |].
    destruct (strptime (insert_schedules.replace_month _ _)) as [dt|] eqn:H1.
    - intros [= <-]. by apply first_try_normalize.
    - destruct (strptime text) as [dt|] eqn:H2; [| done].
      intros [= <-]. by apply second_try_normalize. }
  split.
  { intros text Hblank. unfold insert_schedules.parse_indonesian_date.
    case_decide; [done |].
    destruct (strptime (insert_schedules.replace_month _ _)) as [dt|] eqn:H1.
    { by apply replaced_rstrip in H1. }
    destruct (strptime text) as [dt|] eqn:H2; [| done].
    by apply strptime_rstrip in H2. }
  split; [exact normalize_None |].
  split; [exact calendar_date_real |].
  split; [| by vm_compute].
  intros text d m y dt Htok Hdate Hyear. unfold normalize.
  rewrite Htok, Hdate. cbn. f_equal. unfold strftime.
  rewrite year_text_pad4; [done |].
  apply calendar_date_real in Hdate as (_ & _ & _ & [? _]). lia.
Qed.

End date_contract.
